(** * Agentic-MCP: daemon, progressive client, transports and socket client

    A shallow embedding of the TypeScript sources of the repository
    (daemon.ts, client.ts, socket.ts, socket-client.ts and the transports of
    the 0.1 daemon) together with the properties the specification states
    about them.

    Conventions of the embedding:
    - a JS [Map] is a [gmap] (sessions by name) or a [gset] of its keys
      (pending requests): lookups, insertions and deletions are modelled,
      insertion order is not, so where the code lists or walks a [Map] the
      model does so in the canonical order of the keys;
    - the plain JS object [serverConfigs] is an association list of its own
      entries in [Object.keys] order; its entries are objects, hence truthy;
      reading it under a name it has no entry for finds the member of that
      name of [Object.prototype], if there is one;
    - a string is a JS string all of whose code units are below 256: a
      character stands for the code unit of its number;
    - [number]s that hold integers are [Z], with 32-bit wrap-around written
      out where the code uses bit operators; other numbers are rationals;
    - a rejected promise or a thrown [Error] is the [Throw] case of [Result];
    - a handler runs to completion: the interleaving of two handlers at an
      [await] is not modelled;
    - everything the code obtains from outside the repository (the MCP SDK,
      the file system, the clock, [JSON.parse], the operating system) is an
      explicit argument of the function that uses it. *)

From Stdlib Require Import ZArith QArith Lia List Bool Ascii String.
From stdpp Require Import base option list gmap strings pretty.

Open Scope string_scope.
Open Scope list_scope.
Open Scope Z_scope.

(** ** Common data *)

(** Outcome of a computation that may throw (or of a promise that may
    reject) with an [Error] carrying a message. *)
Inductive Result (A : Type) : Type :=
| Ok (a : A)
| Throw (message : string).
Arguments Ok {A} a.
Arguments Throw {A} message.

(** JSON values, for payloads the code passes through without looking
    inside. *)
#[local] Set Warnings "-register-all".
Inductive JSON : Type :=
| JNull
| JBool (b : bool)
| JNum (n : Z)
| JStr (s : string)
| JArr (items : list JSON)
| JObj (fields : list (string * JSON)).

(** [Object.keys] of a JSON value that is an object. *)
Definition object_keys (j : JSON) : list string :=
  match j with
  | JObj fields => map fst fields
  | _ => []
  end.

(** JS truthiness of a JSON value. *)
Definition json_truthy (j : JSON) : bool :=
  match j with
  | JNull => false
  | JBool b => b
  | JNum n => negb (n =? 0)
  | JStr s => negb (String.eqb s "")
  | JArr _ | JObj _ => true
  end.

(** JS truthiness of an optional string: [undefined] and [""] are falsy. *)
Definition truthy (s : option string) : bool :=
  match s with
  | Some s => negb (String.eqb s "")
  | None => false
  end.

(** A string inside a template literal; [undefined] prints as such. *)
Definition show (s : option string) : string :=
  match s with
  | Some s => s
  | None => "undefined"
  end.

(** UTF-16 code units of a string whose characters are all below 256. *)
Fixpoint code_units (s : string) : list Z :=
  match s with
  | EmptyString => []
  | String c rest => Z.of_nat (nat_of_ascii c) :: code_units rest
  end.

(** ** Socket addressing (socket.ts and socket-client.ts) *)

(** [x | 0]: ToInt32 of an integral number. *)
Definition to_int32 (x : Z) : Z := (x + 2 ^ 31) mod 2 ^ 32 - 2 ^ 31.

(** [h << 5] on a number. *)
Definition shl5 (h : Z) : Z := to_int32 (Z.shiftl h 5).

(** The body of the [for] loop of [getPortForSession], run over the code
    units [session.charCodeAt(i)] from left to right. *)
Fixpoint hash_loop (hash : Z) (session : list Z) : Z :=
  match session with
  | [] => hash
  | c :: rest => hash_loop (to_int32 (shl5 hash - hash + c)) rest
  end.

(** The socket utilities of the daemon side (socket.ts). *)
Module socket.

Definition getPortForSession (session : list Z) : Z :=
  let hash := hash_loop 0 session in
  49152 + Z.rem (Z.abs hash) 16383.

Inductive ConnectionInfo : Type :=
| unix (path : string)
| tcp (port : Z) (host : string).

Definition getConnectionInfo (isWindows : bool) (tmpdir sess : string)
  : ConnectionInfo :=
  if isWindows then tcp (getPortForSession (code_units sess)) "127.0.0.1"
  else unix (tmpdir +:+ "/mcp-daemon-" +:+ sess +:+ ".sock").

End socket.

(** The copy of the caller side (socket-client.ts). *)
Module socket_client.

Definition getPortForSession (session : list Z) : Z :=
  let hash := hash_loop 0 session in
  49152 + Z.rem (Z.abs hash) 16383.

End socket_client.

(** ** A state-and-exception monad

    Methods that mutate [this] and may throw: the state reached before a
    throw is kept, as in the source. *)
Definition M (S A : Type) : Type := S -> Result A * S.

Definition ret {S A : Type} (a : A) : M S A := fun s => (Ok a, s).

Definition throw {S A : Type} (message : string) : M S A :=
  fun s => (Throw message, s).

Definition bind {S A B : Type} (m : M S A) (k : A -> M S B) : M S B :=
  fun s =>
    match m s with
    | (Ok a, s') => k a s'
    | (Throw e, s') => (Throw e, s')
    end.

Definition get {S : Type} : M S S := fun s => (Ok s, s).

Definition modify {S : Type} (f : S -> S) : M S unit := fun s => (Ok tt, f s).

(** A value computed outside the state (a call into the environment). *)
Definition lift {S A : Type} (r : Result A) : M S A := fun s => (r, s).

(** [try { m } catch (e) { h e }]. *)
Definition try_catch {S A : Type} (m : M S A) (h : string -> M S A) : M S A :=
  fun s =>
    match m s with
    | (Ok a, s') => (Ok a, s')
    | (Throw e, s') => h e s'
    end.

Declare Scope monad_scope.
Delimit Scope monad_scope with monad.
Notation "x <- m ;; k" := (bind m (fun x => k))
  (at level 62, m at next level, right associativity) : monad_scope.
Open Scope monad_scope.

(** ** Types of the progressive client (types.ts) *)

Record MCPServerMetadata : Type := {
  meta_name : string;
  meta_version : string;
  meta_description : option string;
  meta_capabilities : JSON
}.

(** Layer 2: a tool without its schema. *)
Record MCPToolInfo : Type := {
  info_name : string;
  info_description : string
}.

(** Layer 3: a tool with its schema. *)
Record MCPToolSchema : Type := {
  schema_name : string;
  schema_description : string;
  schema_inputSchema : JSON
}.

Record MCPServerConfig : Type := {
  cfg_type : option string;
  cfg_url : option string;
  cfg_headers : option (list (string * string));
  cfg_command : option string;
  cfg_args : option (list string);
  cfg_env : option (list (string * string));
  cfg_description : option string
}.

(** The objects [listTools] and [getToolSchema] build, as they are
    serialised on the socket. *)
Definition MCPToolInfo_json (i : MCPToolInfo) : JSON :=
  JObj [("name", JStr (info_name i)); ("description", JStr (info_description i))].

Definition MCPToolSchema_json (t : MCPToolSchema) : JSON :=
  JObj [("name", JStr (schema_name t));
        ("description", JStr (schema_description t));
        ("inputSchema", schema_inputSchema t)].

(** ** The progressive client (client.ts) *)

Module Client.

(** [String.prototype.toLowerCase] on the ASCII letters. *)
Definition lower_ascii (c : ascii) : ascii :=
  let n := nat_of_ascii c in
  if ((65 <=? n)%nat && (n <=? 90)%nat)%bool then ascii_of_nat (n + 32) else c.

Fixpoint toLowerCase (s : string) : string :=
  match s with
  | EmptyString => EmptyString
  | String c rest => String (lower_ascii c) (toLowerCase rest)
  end.

(** The three transports of the official SDK the client chooses from. *)
Inductive Transport : Type :=
| StdioClientTransport (command : string) (args : option (list string))
    (env : option (list (string * string)))
| StreamableHTTPClientTransport (url : string)
    (headers : option (list (string * string)))
| SSEClientTransport (url : string) (headers : option (list (string * string))).

(** An entry of the cached tool catalogue. *)
Record CachedTool : Type := {
  tool_name : string;
  tool_description : string;
  tool_inputSchema : JSON
}.

(** What [getServerVersion] and [getServerCapabilities] return after the
    SDK's handshake; each may be [undefined]. *)
Record ServerHello : Type := {
  serverVersion : option (string * string);
  serverCapabilities : option JSON
}.

(** The wrapped SDK [Client] and the [URL] constructor: the part of the
    environment one client object talks to. *)
Record Sdk : Type := {
  new_URL : string -> Result unit;
  sdk_connect : Transport -> Result ServerHello;
  sdk_listTools : Result (list CachedTool);
  sdk_callTool : string -> JSON -> Result JSON;
  sdk_close : Result unit
}.

(** Requests that went out to the provider through the SDK. *)
Inductive SdkCall : Type :=
| SdkConnect
| SdkListTools
| SdkCallTool (name : string) (args : JSON)
| SdkClose.

Record ProgressiveMCPClient : Type := {
  oid : nat;                         (* identity of the object *)
  client : Sdk;
  config : MCPServerConfig;
  transport : option Transport;
  _metadata : option MCPServerMetadata;
  _toolsCache : list CachedTool;
  sdk_log : list SdkCall             (* provider requests so far, oldest first *)
}.

Definition new_ProgressiveMCPClient (o : nat) (sdk : Sdk) (cfg : MCPServerConfig)
  : ProgressiveMCPClient :=
  {| oid := o; client := sdk; config := cfg; transport := None;
     _metadata := None; _toolsCache := []; sdk_log := [] |}.

Definition set_transport (t : option Transport) (c : ProgressiveMCPClient) :=
  {| oid := oid c; client := client c; config := config c; transport := t;
     _metadata := _metadata c; _toolsCache := _toolsCache c;
     sdk_log := sdk_log c |}.

Definition set_metadata (m : option MCPServerMetadata) (c : ProgressiveMCPClient) :=
  {| oid := oid c; client := client c; config := config c;
     transport := transport c; _metadata := m; _toolsCache := _toolsCache c;
     sdk_log := sdk_log c |}.

Definition set_toolsCache (ts : list CachedTool) (c : ProgressiveMCPClient) :=
  {| oid := oid c; client := client c; config := config c;
     transport := transport c; _metadata := _metadata c; _toolsCache := ts;
     sdk_log := sdk_log c |}.

Definition log_call (e : SdkCall) (c : ProgressiveMCPClient) :=
  {| oid := oid c; client := client c; config := config c;
     transport := transport c; _metadata := _metadata c;
     _toolsCache := _toolsCache c; sdk_log := sdk_log c ++ [e] |}.

Definition createTransport (c : ProgressiveMCPClient) : Result Transport :=
  let cfg := config c in
  let type := toLowerCase <$> cfg_type cfg in
  let inferred : Result string :=
    if truthy type then Ok (show type)
    else if truthy (cfg_command cfg) then Ok "stdio"
    else if truthy (cfg_url cfg) then
      Ok (match cfg_headers cfg with Some _ => "http" | None => "sse" end)
    else Throw "Cannot infer transport type: please specify type, url, or command" in
  match inferred with
  | Throw e => Throw e
  | Ok type =>
    if String.eqb type "stdio" then
      if negb (truthy (cfg_command cfg))
      then Throw "stdio transport requires command parameter"
      else Ok (StdioClientTransport (show (cfg_command cfg)) (cfg_args cfg)
                 (cfg_env cfg))
    else if String.eqb type "http" then
      if negb (truthy (cfg_url cfg))
      then Throw "http transport requires url parameter"
      else match new_URL (client c) (show (cfg_url cfg)) with
           | Throw e => Throw e
           | Ok _ => Ok (StreamableHTTPClientTransport (show (cfg_url cfg))
                           (cfg_headers cfg))
           end
    else if String.eqb type "sse" then
      if negb (truthy (cfg_url cfg))
      then Throw "sse transport requires url parameter"
      else match new_URL (client c) (show (cfg_url cfg)) with
           | Throw e => Throw e
           | Ok _ => Ok (SSEClientTransport (show (cfg_url cfg)) (cfg_headers cfg))
           end
    else Throw ("Unsupported transport type: " +:+ type
                +:+ ". Supported types: stdio, http, sse")
  end.

Definition isConnected (c : ProgressiveMCPClient) : bool :=
  match transport c with Some _ => true | None => false end.

Definition not_connected_message : string :=
  "Not connected to server, please call connect() first".

Definition connect : M ProgressiveMCPClient unit :=
  c <- get ;;
  match transport c with
  | Some _ => ret tt                                   (* Already connected *)
  | None =>
    t <- lift (createTransport c) ;;
    _ <- modify (set_transport (Some t)) ;;
    _ <- modify (log_call SdkConnect) ;;
    hello <- lift (sdk_connect (client c) t) ;;
    _ <- modify (set_metadata (Some
      {| meta_name := match serverVersion hello with
                      | Some (n, _) => n | None => "unknown" end;
         meta_version := match serverVersion hello with
                         | Some (_, v) => v | None => "0.0.0" end;
         meta_description :=
           if truthy (cfg_description (config c))
           then cfg_description (config c) else None;
         meta_capabilities := match serverCapabilities hello with
                              | Some caps => caps | None => JObj [] end |})) ;;
    _ <- modify (log_call SdkListTools) ;;
    tools <- lift (sdk_listTools (client c)) ;;
    modify (set_toolsCache
      (map (fun tool => {| tool_name := tool_name tool;
                           tool_description := tool_description tool;
                           tool_inputSchema := tool_inputSchema tool |}) tools))
  end.

Definition disconnect : M ProgressiveMCPClient unit :=
  c <- get ;;
  _ <- (match transport c with
   | Some _ =>
     _ <- modify (log_call SdkClose) ;;
     _ <- lift (sdk_close (client c)) ;;
     modify (set_transport None)
   | None => ret tt
   end) ;;
  _ <- modify (set_metadata None) ;;
  modify (set_toolsCache []).

Definition getCachedMetadata (c : ProgressiveMCPClient)
  : option MCPServerMetadata := _metadata c.

(** Layer 2. *)
Definition listTools : M ProgressiveMCPClient (list MCPToolInfo) :=
  c <- get ;;
  if negb (isConnected c) then throw not_connected_message
  else ret (map (fun tool => {| info_name := tool_name tool;
                                info_description := tool_description tool |})
              (_toolsCache c)).

(** Layer 3. *)
Definition getToolSchema (toolName : string)
  : M ProgressiveMCPClient MCPToolSchema :=
  c <- get ;;
  if negb (isConnected c) then throw not_connected_message
  else
    match List.find (fun t => String.eqb (tool_name t) toolName) (_toolsCache c) with
    | None => throw ("Tool not found: " +:+ toolName)
    | Some tool =>
      ret {| schema_name := tool_name tool;
             schema_description := tool_description tool;
             schema_inputSchema := tool_inputSchema tool |}
    end.

Definition callTool (toolName : string) (args : JSON)
  : M ProgressiveMCPClient JSON :=
  c <- get ;;
  if negb (isConnected c) then throw not_connected_message
  else
    _ <- modify (log_call (SdkCallTool toolName args)) ;;
    lift (sdk_callTool (client c) toolName args).

(** The two projections of a cached entry, named for the statements. *)
Definition tool_info (t : CachedTool) : MCPToolInfo :=
  {| info_name := tool_name t; info_description := tool_description t |}.

Definition tool_schema (t : CachedTool) : MCPToolSchema :=
  {| schema_name := tool_name t; schema_description := tool_description t;
     schema_inputSchema := tool_inputSchema t |}.

End Client.

(** How a promise ended. *)
Inductive Settlement : Type :=
| Resolved (result : option JSON)
| Rejected (message : string).

(** ** Generic requests of the progressive client (client.ts, sendRequest)

    [sendRequest] works on the SDK transport object: it replaces the
    [onmessage] handler by a one-time handler that remembers the handler it
    replaced, and hands the request to [send]. *)

Module GenericRequest.

(** The handlers [onmessage] can hold: the SDK's own, or the closure
    [sendRequest] installs for one request. *)
Inductive MessageHandler : Type :=
| sdk_onmessage
| one_time (requestId : Q) (originalOnMessage : MessageHandler).

Record Message : Type := {
  msg_id : Q;
  msg_result : option JSON;
  msg_error : option string          (* [message.error.message] *)
}.

Record TransportObject : Type := {
  onmessage : MessageHandler;
  sent : list (Q * string * option JSON);   (* requests handed to [send] *)
  settled : list (Q * Settlement)           (* [resolve] and [reject] calls *)
}.

Definition new_transport : TransportObject :=
  {| onmessage := sdk_onmessage; sent := []; settled := [] |}.

(** [requestId] is the number [Date.now() + Math.random()] the call draws;
    [send_error] is the rejection of [transport.send], if any. *)
Definition sendRequest (isConnected : bool) (requestId : Q)
    (send_error : option string) (method : string) (params : option JSON)
    (t : TransportObject) : Result Q * TransportObject :=
  if negb isConnected
  then (Throw "Not connected to server, please call connect() first", t)
  else
    let originalOnMessage := onmessage t in
    match send_error with
    | None =>
      (Ok requestId,
       {| onmessage := one_time requestId originalOnMessage;
          sent := sent t ++ [(requestId, method, params)];
          settled := settled t |})
    | Some err =>
      (Ok requestId,
       {| onmessage := originalOnMessage;
          sent := sent t ++ [(requestId, method, params)];
          settled := settled t ++ [(requestId, Rejected err)] |})
    end.

(** The transport calls [onmessage] with a message from the provider. *)
Definition deliver (message : Message) (t : TransportObject) : TransportObject :=
  match onmessage t with
  | sdk_onmessage => t
  | one_time requestId originalOnMessage =>
    if Qeq_bool (msg_id message) requestId then
      {| onmessage := originalOnMessage; sent := sent t;
         settled := settled t ++
           [(requestId,
             match msg_error message with
             | Some e => Rejected e
             | None => Resolved (msg_result message)
             end)] |}
    else t
  end.

End GenericRequest.

(** ** The wire records of the socket protocol *)

(** A parsed request line.  The fields follow the [SocketCommand] interface;
    [None] is a field that is absent ([undefined] after destructuring). *)
Record SocketCommand : Type := {
  cmd_id : option string;
  cmd_action : option string;
  cmd_server : option string;
  cmd_tool : option string;
  cmd_arguments : option JSON
}.

(** The [id] of a response: the request's, which may be [undefined], or
    [null] on the error path. *)
Inductive WireId : Type :=
| id_undefined
| id_null
| id_string (s : string).

Definition wire_id (i : option string) : WireId :=
  match i with
  | Some s => id_string s
  | None => id_undefined
  end.

(** [request?.id || null]. *)
Definition wire_id_or_null (i : option string) : WireId :=
  if truthy i then id_string (show i) else id_null.

Record SessionSummary : Type := {
  sum_id : string;
  sum_server : string;
  sum_createdAt : Z;
  sum_uptime : Z
}.

(** The [data] of a successful response, one constructor per object
    literal in [handleSocketRequest]. *)
Inductive ResponseData : Type :=
| PingData (status session : string) (servers : list string)
| ReloadData (message : string) (reconnected : list string)
| MessageData (message : string)
| MetadataData (metadata : MCPServerMetadata)
| ToolsData (tools : list MCPToolInfo)
| SchemaData (toolSchema : MCPToolSchema)
| CallData (result : JSON)
| HealthData (status server : string) (connectedAt uptime : Z)
| SessionsData (sessions : list SessionSummary).

Record SocketResponse : Type := {
  resp_id : WireId;
  resp_success : bool;
  resp_data : option ResponseData;
  resp_error : option string
}.

Definition success_response (i : WireId) (d : ResponseData) : SocketResponse :=
  {| resp_id := i; resp_success := true; resp_data := Some d; resp_error := None |}.

Definition failure_response (i : WireId) (e : string) : SocketResponse :=
  {| resp_id := i; resp_success := false; resp_data := None; resp_error := Some e |}.

(** [JSON.parse] of a line: a [SyntaxError], the value [null], or a value
    whose fields can be read. *)
Inductive Parsed : Type :=
| SyntaxError (message : string)
| parsed_null
| parsed (request : SocketCommand).

(** [Array.prototype.join]. *)
Fixpoint js_join (sep : string) (l : list string) : string :=
  match l with
  | [] => ""
  | [x] => x
  | x :: rest => x +:+ sep +:+ js_join sep rest
  end.

Definition newline : ascii := ascii_of_nat 10.

(** A string between double quotes, as in JSON text. *)
Definition quoted (s : string) : string :=
  String (ascii_of_nat 34) s +:+ String (ascii_of_nat 34) "".

(** [String.prototype.includes]. *)
Definition includes (s sub : string) : bool :=
  match String.index 0 sub s with
  | Some _ => true
  | None => false
  end.

(** What [String.prototype.trim] removes, among the code units below 256:
    the white space TAB, VT, FF, SP and NBSP (160) and the line terminators
    LF and CR. *)
Definition is_space (c : ascii) : bool :=
  let n := nat_of_ascii c in
  ((9 <=? n)%nat && (n <=? 13)%nat)%bool || (n =? 32)%nat || (n =? 160)%nat.

(** The string holds no newline, as every [line] cut out of the buffer. *)
Fixpoint no_newline (s : string) : bool :=
  match s with
  | EmptyString => true
  | String c rest => negb (Ascii.eqb c newline) && no_newline rest
  end.

(** [!line.trim()]. *)
Fixpoint is_blank (line : string) : bool :=
  match line with
  | EmptyString => true
  | String c rest => is_space c && is_blank rest
  end.

(** ** The daemon (daemon.ts) *)

Module Daemon.

Record SessionInfo : Type := {
  id : string;
  server : string;
  client : Client.ProgressiveMCPClient;
  createdAt : Z;
  lastActivityAt : Z
}.

Record MCPDaemon : Type := {
  sessions : gmap string SessionInfo;
  predefinedServers : list string;
  serverConfigs : list (string * MCPServerConfig);
  session : string;
  configPath : option string;
  listening : bool;                (* the socket server has not been closed *)
  created : nat                    (* client objects constructed so far *)
}.

(** What [loadServerConfigs] finds on disk. *)
Inductive ConfigFile : Type :=
| config_missing
| config_servers (servers : list (string * MCPServerConfig))
| config_unloadable (message : string).

(** The environment of one handler run: the clock, the configuration file
    and the SDK client behind the n-th client object constructed. *)
Record World : Type := {
  now : Z;
  config_file : ConfigFile;
  sdk_of : nat -> Client.Sdk
}.

Definition set_sessions (m : gmap string SessionInfo) (d : MCPDaemon) : MCPDaemon :=
  {| sessions := m; predefinedServers := predefinedServers d;
     serverConfigs := serverConfigs d; session := session d;
     configPath := configPath d; listening := listening d;
     created := created d |}.

Definition set_serverConfigs (c : list (string * MCPServerConfig)) (d : MCPDaemon)
  : MCPDaemon :=
  {| sessions := sessions d; predefinedServers := predefinedServers d;
     serverConfigs := c; session := session d;
     configPath := configPath d; listening := listening d;
     created := created d |}.

Definition set_listening (b : bool) (d : MCPDaemon) : MCPDaemon :=
  {| sessions := sessions d; predefinedServers := predefinedServers d;
     serverConfigs := serverConfigs d; session := session d;
     configPath := configPath d; listening := b;
     created := created d |}.

Definition bump_created (d : MCPDaemon) : MCPDaemon :=
  {| sessions := sessions d; predefinedServers := predefinedServers d;
     serverConfigs := serverConfigs d; session := session d;
     configPath := configPath d; listening := listening d;
     created := S (created d) |}.

Definition with_client (c : Client.ProgressiveMCPClient) (s : SessionInfo)
  : SessionInfo :=
  {| id := id s; server := server s; client := c; createdAt := createdAt s;
     lastActivityAt := lastActivityAt s |}.

Definition touch (t : Z) (s : SessionInfo) : SessionInfo :=
  {| id := id s; server := server s; client := client s;
     createdAt := createdAt s; lastActivityAt := t |}.

(** The names of the members of [Object.prototype], which every plain
    object inherits; the members are functions (an object for
    [__proto__]), hence truthy. *)
Definition Object_prototype : list string :=
  ["constructor"; "__defineGetter__"; "__defineSetter__"; "hasOwnProperty";
   "__lookupGetter__"; "__lookupSetter__"; "isPrototypeOf";
   "propertyIsEnumerable"; "toString"; "valueOf"; "__proto__";
   "toLocaleString"].

(** Such a member read as a configuration: none of the fields the code
    reads off a configuration is defined on it. *)
Definition inherited_member : MCPServerConfig :=
  {| cfg_type := None; cfg_url := None; cfg_headers := None;
     cfg_command := None; cfg_args := None; cfg_env := None;
     cfg_description := None |}.

(** The own entry of the configuration object under [name]. *)
Definition own_config (cfgs : list (string * MCPServerConfig)) (name : string)
  : option MCPServerConfig :=
  snd <$> List.find (fun kv => String.eqb (fst kv) name) cfgs.

(** [this.serverConfigs[name]]: the own entry, or else the inherited
    member of that name. *)
Definition lookup_config (cfgs : list (string * MCPServerConfig)) (name : string)
  : option MCPServerConfig :=
  match own_config cfgs name with
  | Some config => Some config
  | None =>
    if bool_decide (name ∈ Object_prototype) then Some inherited_member
    else None
  end.

Definition builtin_default : list (string * MCPServerConfig) :=
  [("playwright",
    {| cfg_type := Some "stdio"; cfg_url := None; cfg_headers := None;
       cfg_command := Some "npx";
       cfg_args := Some ["@playwright/mcp@latest"; "--isolated"];
       cfg_env := None; cfg_description := None |})].

Definition loadServerConfigs (w : World) : M MCPDaemon unit :=
  match config_file w with
  | config_servers servers => modify (set_serverConfigs servers)
  | config_unloadable message =>
    throw ("Cannot load MCP servers config: " +:+ message)
  | config_missing => modify (set_serverConfigs builtin_default)
  end.

Definition getServerConfig (d : MCPDaemon) (server : string)
    (env : option (list (string * string))) : Result MCPServerConfig :=
  match lookup_config (serverConfigs d) server with
  | None =>
    let availableServers := js_join ", " (map fst (serverConfigs d)) in
    Throw ("Unknown MCP server: " +:+ server +:+ String newline ""
           +:+ "Available servers: "
           +:+ (if String.eqb availableServers "" then "(none)"
                else availableServers))
  | Some baseConfig =>
    Ok {| cfg_type := cfg_type baseConfig; cfg_url := cfg_url baseConfig;
          cfg_headers := cfg_headers baseConfig;
          cfg_command := cfg_command baseConfig;
          cfg_args := cfg_args baseConfig; cfg_env := env;
          cfg_description := cfg_description baseConfig |}
  end.

(** The body of the [try] block shared by [preconnectServers] and
    [reconnectServers]: look the configuration up, construct a client,
    connect it and register the session. *)
Definition connect_and_register (w : World) (serverName : string)
  : M MCPDaemon unit :=
  d <- get ;;
  cfg <- lift (getServerConfig d serverName None) ;;
  _ <- modify bump_created ;;
  let c := Client.new_ProgressiveMCPClient (created d) (sdk_of w (created d)) cfg in
  match Client.connect c with
  | (Throw e, _) => throw e
  | (Ok _, c') =>
    let sessionId := serverName in
    modify (fun d => set_sessions
      (<[sessionId := {| id := sessionId; server := serverName; client := c';
                         createdAt := now w; lastActivityAt := now w |}]>
         (sessions d)) d)
  end.

Fixpoint preconnect_loop (w : World) (serversToConnect : list string)
  : M MCPDaemon unit :=
  match serversToConnect with
  | [] => ret tt
  | serverName :: rest =>
    _ <- try_catch (connect_and_register w serverName) (fun _ => ret tt) ;;
    preconnect_loop w rest
  end.

Definition preconnectServers (w : World) : M MCPDaemon unit :=
  d <- get ;;
  preconnect_loop w
    (match map fst (serverConfigs d) with
     | [] => predefinedServers d
     | names => names
     end).

(** The [try]/[catch] of the loop of [reconnectServers]: a successful
    reconnection pushes the name, a failed one is logged. *)
Definition try_reconnect (w : World) (serverName : string)
    (reconnected : list string) : M MCPDaemon (list string) :=
  try_catch
    (_ <- connect_and_register w serverName ;;
     ret (reconnected ++ [serverName])%list)
    (fun _ => ret reconnected).

(** The body of the [for] loop of [reconnectServers]; [reconnected] is the
    array being filled. *)
Definition reconnect_body (w : World) (serverName : string)
    (reconnected : list string) : M MCPDaemon (list string) :=
  let sessionId := serverName in
  d <- get ;;
  _ <- match sessions d !! sessionId with
       | Some existing =>
         match Client.disconnect (client existing) with
         | (Throw e, c') =>
           _ <- modify (set_sessions
                  (<[sessionId := with_client c' existing]> (sessions d))) ;;
           throw e
         | (Ok _, _) => modify (set_sessions (delete sessionId (sessions d)))
         end
       | None => ret tt
       end ;;
  try_reconnect w serverName reconnected.

Fixpoint reconnect_loop (w : World) (currentServers reconnected : list string)
  : M MCPDaemon (list string) :=
  match currentServers with
  | [] => ret reconnected
  | serverName :: rest =>
    reconnected' <- reconnect_body w serverName reconnected ;;
    reconnect_loop w rest reconnected'
  end.

Definition reconnectServers (w : World) : M MCPDaemon (list string) :=
  d <- get ;;
  reconnect_loop w (map fst (serverConfigs d)) [].

Definition IDLE_TIMEOUT : Z := 30 * 60 * 1000.

(** The period handed to [setInterval] by [startSessionCleanupTimer]. *)
Definition CLEANUP_INTERVAL : Z := 5 * 60 * 1000.

(** One round of the [for] loop of [cleanupIdleSessions]; the accumulator
    is the session map and the clients [disconnect] was called on, each
    with its session id and in the state the call left it in. *)
Definition cleanup_step (w : World) (cfgs : list (string * MCPServerConfig))
    (acc : gmap string SessionInfo * list (string * Client.ProgressiveMCPClient))
    (entry : string * SessionInfo)
  : gmap string SessionInfo * list (string * Client.ProgressiveMCPClient) :=
  let '(sessionId, session) := entry in
  match lookup_config cfgs (server session) with
  | Some _ => acc
  | None =>
    let idleTime := now w - lastActivityAt session in
    if IDLE_TIMEOUT <? idleTime then
      (delete sessionId (fst acc),
       snd acc ++ [(sessionId, snd (Client.disconnect (client session)))])
    else acc
  end.

(** The sessions the loop evicts: [this.serverConfigs[session.server]]
    finds nothing, and idle for more than [IDLE_TIMEOUT]. *)
Definition evictable (w : World) (cfgs : list (string * MCPServerConfig))
    (s : SessionInfo) : bool :=
  match lookup_config cfgs (server s) with
  | Some _ => false
  | None => IDLE_TIMEOUT <? now w - lastActivityAt s
  end.

Definition cleanupIdleSessions (w : World) (d : MCPDaemon)
  : MCPDaemon * list (string * Client.ProgressiveMCPClient) :=
  let r := foldl (cleanup_step w (serverConfigs d)) (sessions d, [])
             (map_to_list (sessions d)) in
  (set_sessions (fst r) d, snd r).

Definition stop : M MCPDaemon unit :=
  _ <- modify (fun d => set_sessions
         ((fun s => with_client (snd (Client.disconnect (client s))) s)
            <$> sessions d) d) ;;
  modify (set_listening false).

Definition is_action (action : option string) (name : string) : bool :=
  match action with
  | Some a => String.eqb a name
  | None => false
  end.

Definition handleSocketRequest (w : World) (request : SocketCommand)
  : M MCPDaemon SocketResponse :=
  let id := wire_id (cmd_id request) in
  let action := cmd_action request in
  let server := cmd_server request in
  let tool := cmd_tool request in
  if is_action action "ping" then
    d <- get ;;
    ret (success_response id
           (PingData "ok" (session d) (map fst (map_to_list (sessions d)))))
  else if is_action action "reload" then
    _ <- loadServerConfigs w ;;
    reconnected <- reconnectServers w ;;
    ret (success_response id (ReloadData "Configuration reloaded" reconnected))
  else if is_action action "shutdown" then
    _ <- stop ;;
    ret (success_response id (MessageData "Daemon shutdown"))
  else
    d <- get ;;
    match server ≫= (fun sessionId => sessions d !! sessionId) with
    | None =>
      ret (failure_response id
             ("Server '" +:+ show server +:+ "' not found or not connected"))
    | Some found =>
      let sessionId := show server in
      let session := touch (now w) found in
      _ <- modify (set_sessions (<[sessionId := session]> (sessions d))) ;;
      if is_action action "metadata" then
        match Client.getCachedMetadata (client session) with
        | None => ret (failure_response id "Metadata not available")
        | Some metadata => ret (success_response id (MetadataData metadata))
        end
      else if is_action action "list" then
        tools <- lift (fst (Client.listTools (client session))) ;;
        ret (success_response id (ToolsData tools))
      else if is_action action "schema" then
        if negb (truthy tool) then
          ret (failure_response id "Tool name is required for schema")
        else
          match fst (Client.getToolSchema (show tool) (client session)) with
          | Ok toolSchema => ret (success_response id (SchemaData toolSchema))
          | Throw _ =>
            ret (failure_response id ("Tool '" +:+ show tool +:+ "' not found"))
          end
      else if is_action action "call" then
        if negb (truthy tool) then
          ret (failure_response id "Tool name is required for call")
        else
          let '(result, c') :=
            Client.callTool (show tool)
              (match cmd_arguments request with
               | Some toolArgs => if json_truthy toolArgs then toolArgs else JObj []
               | None => JObj []
               end)
              (client session) in
          _ <- modify (fun d => set_sessions
                 (<[sessionId := with_client c' session]> (sessions d)) d) ;;
          result <- lift result ;;
          ret (success_response id (CallData result))
      else if is_action action "health" then
        ret (success_response id
               (HealthData "healthy" (show server) (createdAt session)
                  ((now w - createdAt session) / 1000)))
      else if is_action action "sessions" then
        d <- get ;;
        ret (success_response id
               (SessionsData
                  (map (fun s => {| sum_id := Daemon.id s; sum_server := Daemon.server s;
                                    sum_createdAt := createdAt s;
                                    sum_uptime := (now w - createdAt s) / 1000 |})
                     (map snd (map_to_list (sessions d))))))
      else
        ret (failure_response id ("Unknown action: " +:+ show action))
    end.

(** *** The connection handler *)

Record Connection : Type := {
  buffer : string;
  written : list SocketResponse;   (* lines written to the socket, oldest first *)
  ended : bool                     (* the handler has closed the socket *)
}.

Definition write (r : SocketResponse) (c : Connection) : Connection :=
  {| buffer := buffer c; written := written c ++ [r]; ended := ended c |}.

Definition set_buffer (b : string) (c : Connection) : Connection :=
  {| buffer := b; written := written c; ended := ended c |}.

(** The lines completed by appending [data] to a [buffer] without a
    newline, and what is left after the last newline: the iterations of
    [while (buffer.includes(newline))]. *)
Fixpoint take_lines (buffer data : string) : list string * string :=
  match data with
  | EmptyString => ([], buffer)
  | String c rest =>
    if Ascii.eqb c newline then
      let '(lines, remainder) := take_lines "" rest in (buffer :: lines, remainder)
    else take_lines (buffer +:+ String c "") rest
  end.

Definition null_destructure_message : string :=
  "Cannot destructure property 'id' of 'request' as it is null.".

(** The body of the [while] loop for one line. *)
Definition handle_line (w : World) (JSON_parse : string -> Parsed) (line : string)
    (st : Connection * MCPDaemon) : Connection * MCPDaemon :=
  let '(conn, d) := st in
  if is_blank line then (conn, d)
  else
    match JSON_parse line with
    | SyntaxError message =>
      (write (failure_response (wire_id_or_null None) message) conn, d)
    | parsed_null =>
      (write (failure_response (wire_id_or_null None) null_destructure_message)
         conn, d)
    | parsed request =>
      match handleSocketRequest w request d with
      | (Ok response, d') => (write response conn, d')
      | (Throw message, d') =>
        (write (failure_response (wire_id_or_null (cmd_id request)) message) conn,
         d')
      end
    end.

(** The ['data'] listener of [handleSocketConnection], from the text
    [data] that [data.toString()] has made of the chunk. *)
Definition on_data (w : World) (JSON_parse : string -> Parsed) (data : string)
    (st : Connection * MCPDaemon) : Connection * MCPDaemon :=
  let '(conn, d) := st in
  let '(lines, remainder) := take_lines (buffer conn) data in
  foldl (fun st line => handle_line w JSON_parse line st)
    (set_buffer remainder conn, d) lines.

(** The ['data'] listener on the bytes of a chunk: each chunk is decoded
    on its own, by [toString] (the UTF-8 decoder of [Buffer]), before it is
    appended to the buffer. *)
Definition on_chunk (w : World) (JSON_parse : string -> Parsed)
    (toString : list Byte.byte -> string) (chunk : list Byte.byte)
    (st : Connection * MCPDaemon) : Connection * MCPDaemon :=
  on_data w JSON_parse (toString chunk) st.

(** *** Notions used in the statements *)

(** A session whose client object was constructed, and connected, during a
    handler run at time [now w] in which the count of constructed clients
    went from [before] to [after]. *)
Definition fresh_session (w : World) (before after : nat) (s : SessionInfo)
  : Prop :=
  (before <= Client.oid (client s) < after)%nat
  /\ Client.isConnected (client s) = true
  /\ createdAt s = now w.

(** Every registered client is one of the objects constructed so far. *)
Definition clients_known (d : MCPDaemon) : Prop :=
  forall (name : string) (s : SessionInfo),
    sessions d !! name = Some s -> (Client.oid (client s) < created d)%nat.

End Daemon.

(** ** The transports of the 0.1 daemon (transports/stdio.ts, sse.ts)

    A transport is modelled together with the part of the event loop it
    uses: the clock, the pending [setTimeout] callbacks and the child
    processes it has spawned.  A promise returned by [sendRequest] is
    identified by the id of its request; [settled] records the calls of
    [resolve] and [reject], oldest first, and the first call for an id is
    the fate of that promise. *)

Record JSONRPCRequest : Type := {
  rpc_id : Z;
  rpc_method : string;
  rpc_params : option JSON
}.

Record JSONRPCError : Type := {
  err_code : Z;
  err_message : string
}.

Record JSONRPCResponse : Type := {
  res_id : Z;
  res_result : option JSON;
  res_error : option JSONRPCError
}.

(** The delay after which [setTimeout] runs a callback: Node sets a delay
    above 2147483647 or below 1 to 1. *)
Definition timer_delay (ms : Z) : Z :=
  if (ms <? 1) || (2147483647 <? ms) then 1 else ms.
Arguments timer_delay : simpl never.

(** The fate of the promise of request [id], if it has one yet. *)
Definition outcome (id : Z) (settled : list (Z * Settlement)) : option Settlement :=
  snd <$> List.find (fun e => Z.eqb (fst e) id) settled.

(** What [handleResponse] passes to [resolve] or [reject]. *)
Definition settlement_of (response : JSONRPCResponse) : Settlement :=
  match res_error response with
  | Some e =>
    Rejected ("RPC error " +:+ pretty (err_code e) +:+ ": " +:+ err_message e)
  | None => Resolved (res_result response)
  end.

Module Stdio.

Inductive Signal : Type :=
| SIGTERM
| SIGKILL.

(** A [ChildProcess] object of Node and the process behind it. *)
Record ChildProcess : Type := {
  killed : bool;                 (* [subprocess.killed] *)
  exited : bool;
  signals : list Signal;         (* signals delivered, oldest first *)
  stdin : list JSONRPCRequest;   (* lines written to its input, oldest first *)
  clear_on_exit : list nat       (* timeouts its [once('exit')] listeners clear *)
}.

Definition spawned : ChildProcess :=
  {| killed := false; exited := false; signals := []; stdin := [];
     clear_on_exit := [] |}.

(** [subprocess.kill(signal)]: on a process that has not exited the signal
    is delivered and [killed] is set; otherwise nothing happens. *)
Definition kill (signal : Signal) (p : ChildProcess) : ChildProcess :=
  if exited p then p
  else {| killed := true; exited := exited p; signals := signals p ++ [signal];
          stdin := stdin p; clear_on_exit := clear_on_exit p |}.

Definition write_stdin (r : JSONRPCRequest) (p : ChildProcess) : ChildProcess :=
  {| killed := killed p; exited := exited p; signals := signals p;
     stdin := stdin p ++ [r]; clear_on_exit := clear_on_exit p |}.

Definition once_exit_clear (timeout : nat) (p : ChildProcess) : ChildProcess :=
  {| killed := killed p; exited := exited p; signals := signals p;
     stdin := stdin p; clear_on_exit := clear_on_exit p ++ [timeout] |}.

Definition mark_exited (p : ChildProcess) : ChildProcess :=
  {| killed := killed p; exited := true; signals := signals p;
     stdin := stdin p; clear_on_exit := [] |}.

Record StdioTransport : Type := {
  process : option nat;            (* [this.process]: handle of a child *)
  requestId : Z;
  pendingRequests : gset Z;        (* the keys of the [Map] *)
  (* the event loop around the object *)
  children : list ChildProcess;    (* the process objects, by handle *)
  settled : list (Z * Settlement);
  timers : list (nat * Z);         (* pending force-kill timeouts: handle, due *)
  timers_created : nat;
  clock : Z;
  win32 : bool                     (* [process.platform === 'win32'] *)
}.

Definition new_StdioTransport (onWindows : bool) : StdioTransport :=
  {| process := None; requestId := 0; pendingRequests := ∅; children := [];
     settled := []; timers := []; timers_created := 0; clock := 0;
     win32 := onWindows |}.

Definition set_process (h : option nat) (t : StdioTransport) : StdioTransport :=
  {| process := h; requestId := requestId t;
     pendingRequests := pendingRequests t; children := children t;
     settled := settled t; timers := timers t;
     timers_created := timers_created t; clock := clock t; win32 := win32 t |}.

Definition set_requestId (i : Z) (t : StdioTransport) : StdioTransport :=
  {| process := process t; requestId := i;
     pendingRequests := pendingRequests t; children := children t;
     settled := settled t; timers := timers t;
     timers_created := timers_created t; clock := clock t; win32 := win32 t |}.

Definition set_pending (p : gset Z) (t : StdioTransport) : StdioTransport :=
  {| process := process t; requestId := requestId t;
     pendingRequests := p; children := children t;
     settled := settled t; timers := timers t;
     timers_created := timers_created t; clock := clock t; win32 := win32 t |}.

Definition set_children (c : list ChildProcess) (t : StdioTransport)
  : StdioTransport :=
  {| process := process t; requestId := requestId t;
     pendingRequests := pendingRequests t; children := c;
     settled := settled t; timers := timers t;
     timers_created := timers_created t; clock := clock t; win32 := win32 t |}.

Definition settle (e : list (Z * Settlement)) (t : StdioTransport)
  : StdioTransport :=
  {| process := process t; requestId := requestId t;
     pendingRequests := pendingRequests t; children := children t;
     settled := settled t ++ e; timers := timers t;
     timers_created := timers_created t; clock := clock t; win32 := win32 t |}.

Definition set_timers (l : list (nat * Z)) (created : nat) (t : StdioTransport)
  : StdioTransport :=
  {| process := process t; requestId := requestId t;
     pendingRequests := pendingRequests t; children := children t;
     settled := settled t; timers := l;
     timers_created := created; clock := clock t; win32 := win32 t |}.

Definition set_clock (c : Z) (t : StdioTransport) : StdioTransport :=
  {| process := process t; requestId := requestId t;
     pendingRequests := pendingRequests t; children := children t;
     settled := settled t; timers := timers t;
     timers_created := timers_created t; clock := c; win32 := win32 t |}.

(** Apply [f] to the process object behind handle [h]. *)
Definition on_child (h : nat) (f : ChildProcess -> ChildProcess)
    (t : StdioTransport) : StdioTransport :=
  set_children (alter f h (children t)) t.

(** [connect]: spawn the child unless there is one.  The promise it
    returns and the ['error'] event of a failed spawn are left out. *)
Definition connect (t : StdioTransport) : StdioTransport :=
  match process t with
  | Some _ => t
  | None =>
    set_process (Some (length (children t)))
      (set_children (children t ++ [spawned]) t)
  end.

Definition sendRequest (method : string) (params : option JSON)
    (t : StdioTransport) : Result Z * StdioTransport :=
  match process t with
  | None => (Throw "Not connected to server", t)
  | Some h =>
    let id := requestId t + 1 in
    let request := {| rpc_id := id; rpc_method := method; rpc_params := params |} in
    (Ok id,
     on_child h (write_stdin request)
       (set_pending ({[id]} ∪ pendingRequests t) (set_requestId id t)))
  end.

Definition handleResponse (response : JSONRPCResponse) (t : StdioTransport)
  : StdioTransport :=
  if decide (res_id response ∈ pendingRequests t) then
    settle [(res_id response, settlement_of response)]
      (set_pending (pendingRequests t ∖ {[res_id response]}) t)
  else t.

(** The callback [disconnect] hands to [setTimeout]; [this.process] is
    read when the callback runs. *)
Definition force_kill_callback (t : StdioTransport) : StdioTransport :=
  match process t with
  | Some h =>
    match children t !! h with
    | Some p => if negb (killed p) then on_child h (kill SIGKILL) t else t
    | None => t
    end
  | None => t
  end.

Definition disconnect (t : StdioTransport) : StdioTransport :=
  match process t with
  | Some h =>
    (* both branches of the platform test deliver Node's default signal *)
    let t1 := if win32 t then on_child h (kill SIGTERM) t
              else on_child h (kill SIGTERM) t in
    let timeout := timers_created t1 in
    let t2 := set_timers (timers t1 ++ [(timeout, clock t1 + 2000)]) (S timeout) t1 in
    let t3 := on_child h (once_exit_clear timeout) t2 in
    set_pending ∅ (set_process None t3)
  | None => set_pending ∅ t
  end.

(** The child behind handle [h] exits: the ['exit'] listener installed by
    [connect] rejects and clears whatever is pending, the listeners
    installed by [disconnect] clear their timeouts. *)
Definition on_exit (h : nat) (t : StdioTransport) : StdioTransport :=
  match children t !! h with
  | Some p =>
    if exited p then t
    else
      let t1 := on_child h mark_exited t in
      let t2 := set_pending ∅
                  (settle (map (fun id => (id, Rejected "Process disconnected"))
                             (elements (pendingRequests t1))) t1) in
      set_timers
        (List.filter (fun tm => negb (bool_decide (fst tm ∈ clear_on_exit p)))
           (timers t2))
        (timers_created t2) t2
  | None => t
  end.

(** [ms] milliseconds pass: the timeouts that have come due run. *)
Definition advance (ms : Z) (t : StdioTransport) : StdioTransport :=
  let now := clock t + ms in
  let due := List.filter (fun tm => snd tm <=? now) (timers t) in
  let later := List.filter (fun tm => negb (snd tm <=? now)) (timers t) in
  foldl (fun t _ => force_kill_callback t)
    (set_clock now (set_timers later (timers_created t) t)) due.

(** A transport connected to a child that has been sent nothing yet. *)
Definition sample_connected : StdioTransport :=
  connect (new_StdioTransport false).

End Stdio.

Module Sse.

(** [readyState] of the [EventSource]. *)
Inductive ReadyState : Type :=
| CONNECTING
| OPEN
| CLOSED.

Record SseTransport : Type := {
  url : string;
  timeout : Z;                      (* [this.config.timeout] *)
  eventSource : option ReadyState;
  requestId : Z;
  pendingRequests : gset Z;
  (* the event loop around the object *)
  posted : list JSONRPCRequest;     (* bodies handed to [fetch], oldest first *)
  settled : list (Z * Settlement);
  timers : list (Z * Z);            (* request timeouts: due time, request id *)
  clock : Z
}.

(** The constructor: [{ timeout: 30000, reconnectInterval: 1000, ...config }]. *)
Definition new_SseTransport (config_url : string) (config_timeout : option Z)
  : SseTransport :=
  {| url := config_url;
     timeout := match config_timeout with Some ms => ms | None => 30000 end;
     eventSource := None; requestId := 0; pendingRequests := ∅; posted := [];
     settled := []; timers := []; clock := 0 |}.

Definition set_eventSource (e : option ReadyState) (t : SseTransport)
  : SseTransport :=
  {| url := url t; timeout := timeout t; eventSource := e;
     requestId := requestId t; pendingRequests := pendingRequests t;
     posted := posted t; settled := settled t; timers := timers t;
     clock := clock t |}.

Definition set_pending (p : gset Z) (t : SseTransport) : SseTransport :=
  {| url := url t; timeout := timeout t; eventSource := eventSource t;
     requestId := requestId t; pendingRequests := p;
     posted := posted t; settled := settled t; timers := timers t;
     clock := clock t |}.

Definition settle (e : list (Z * Settlement)) (t : SseTransport) : SseTransport :=
  {| url := url t; timeout := timeout t; eventSource := eventSource t;
     requestId := requestId t; pendingRequests := pendingRequests t;
     posted := posted t; settled := settled t ++ e; timers := timers t;
     clock := clock t |}.

Definition set_timers (l : list (Z * Z)) (c : Z) (t : SseTransport)
  : SseTransport :=
  {| url := url t; timeout := timeout t; eventSource := eventSource t;
     requestId := requestId t; pendingRequests := pendingRequests t;
     posted := posted t; settled := settled t; timers := l; clock := c |}.

(** [connect] creates the [EventSource]; [on_open] is its [onopen]. *)
Definition connect (t : SseTransport) : SseTransport :=
  match eventSource t with
  | Some _ => t
  | None => set_eventSource (Some CONNECTING) t
  end.

Definition on_open (t : SseTransport) : SseTransport :=
  match eventSource t with
  | Some _ => set_eventSource (Some OPEN) t
  | None => t
  end.

(** [sendRequest], up to the return of the promise: the request is
    registered and handed to [fetch] (whose failure is [post_failed]
    below), and the timer is set, due after the delay [setTimeout] runs it
    after. *)
Definition sendRequest (method : string) (params : option JSON)
    (t : SseTransport) : Result Z * SseTransport :=
  match eventSource t with
  | Some OPEN =>
    let id := requestId t + 1 in
    let request := {| rpc_id := id; rpc_method := method; rpc_params := params |} in
    (Ok id,
     {| url := url t; timeout := timeout t; eventSource := eventSource t;
        requestId := id; pendingRequests := {[id]} ∪ pendingRequests t;
        posted := posted t ++ [request]; settled := settled t;
        timers := timers t ++ [(clock t + timer_delay (timeout t), id)];
        clock := clock t |})
  | _ => (Throw "Not connected to server", t)
  end.

(** The callback of [fetch(...).catch(reject)] for request [id], which
    [sendRequest] installs: the POST has failed with [message].  The
    promise is rejected; the entry of the id and its timer are left as
    they are.  Only a request that was posted has such a callback. *)
Definition post_failed (id : Z) (message : string) (t : SseTransport)
  : SseTransport :=
  if bool_decide (id ∈ map rpc_id (posted t))
  then settle [(id, Rejected message)] t
  else t.

Definition handleResponse (response : JSONRPCResponse) (t : SseTransport)
  : SseTransport :=
  if decide (res_id response ∈ pendingRequests t) then
    settle [(res_id response, settlement_of response)]
      (set_pending (pendingRequests t ∖ {[res_id response]}) t)
  else t.

(** The callback [sendRequest] hands to [setTimeout] for request [id]. *)
Definition timeout_callback (id : Z) (t : SseTransport) : SseTransport :=
  if decide (id ∈ pendingRequests t) then
    settle [(id, Rejected "Request timeout")]
      (set_pending (pendingRequests t ∖ {[id]}) t)
  else t.

(** [disconnect] closes the channel. *)
Definition disconnect (t : SseTransport) : SseTransport :=
  set_pending ∅
    (match eventSource t with
     | Some _ => set_eventSource None t
     | None => t
     end).

(** [ms] milliseconds pass: the timeouts that have come due run. *)
Definition advance (ms : Z) (t : SseTransport) : SseTransport :=
  let now := clock t + ms in
  let due := List.filter (fun tm => fst tm <=? now) (timers t) in
  let later := List.filter (fun tm => negb (fst tm <=? now)) (timers t) in
  foldl (fun t tm => timeout_callback (snd tm) t) (set_timers later now t) due.

(** The promise of request [id] has been rejected by its timeout. *)
Definition timed_out (id : Z) (t : SseTransport) : Prop :=
  (id ∉ pendingRequests t)
  /\ (id, Rejected "Request timeout") ∈ settled t.

Definition sample_open : SseTransport :=
  on_open (connect (new_SseTransport "http://localhost:3000/sse" None)).

End Sse.

(** ** The socket client of the callers (socket-client.ts) *)

Module SocketClient.

(** Where [net.createConnection] is pointed. *)
Inductive Address : Type :=
| tcp_address (port : Z) (host : string)
| unix_address (path : string).

(** [getSocketPath] followed by the platform test of [connect]; the port
    goes through [String] and [parseInt] unchanged. *)
Definition getSocketPath (isWindows : bool) (tmpdir session : string) : Address :=
  if isWindows
  then tcp_address (socket_client.getPortForSession (code_units session)) "127.0.0.1"
  else unix_address (tmpdir +:+ "/mcp-daemon-" +:+ session +:+ ".sock").

(** What the client does to the [net] module and to its sockets. *)
Inductive NetOp : Type :=
| createConnection (handle : nat) (address : Address)
| socket_write (handle : nat) (command : SocketCommand)
| socket_destroy (handle : nat)
| socket_end (handle : nat).

(** How a connection attempt ends: the ['connect'] event, the ['error']
    event, or neither within the five seconds of the connection timeout. *)
Inductive ConnectOutcome : Type :=
| connect_event
| error_event (message : string)
| no_event.

Record SocketClient : Type := {
  session : string;
  socket : option nat;                 (* handle of a [net.Socket] *)
  connected : bool;
  timeout : Z;
  pendingRequests : gmap string Z;     (* id to the due time of its timer *)
  requestId : Z;
  (* the surroundings *)
  net : list NetOp;                    (* operations so far, oldest first *)
  sockets_created : nat;
  clock : Z;
  isWindows : bool;
  tmpdir : string
}.

(** The constructor; [options.timeout || 30000]. *)
Definition new_SocketClient (options_session : option string)
    (options_timeout : option Z) (onWindows : bool) (tmp : string) : SocketClient :=
  {| session := if truthy options_session then show options_session else "default";
     socket := None; connected := false;
     timeout := match options_timeout with
                | Some ms => if ms =? 0 then 30000 else ms
                | None => 30000
                end;
     pendingRequests := ∅; requestId := 0; net := []; sockets_created := 0;
     clock := 0; isWindows := onWindows; tmpdir := tmp |}.

Definition set_connected (b : bool) (c : SocketClient) : SocketClient :=
  {| session := session c; socket := socket c; connected := b;
     timeout := timeout c; pendingRequests := pendingRequests c;
     requestId := requestId c; net := net c;
     sockets_created := sockets_created c; clock := clock c;
     isWindows := isWindows c; tmpdir := tmpdir c |}.

Definition do_net (op : NetOp) (c : SocketClient) : SocketClient :=
  {| session := session c; socket := socket c; connected := connected c;
     timeout := timeout c; pendingRequests := pendingRequests c;
     requestId := requestId c; net := net c ++ [op];
     sockets_created := sockets_created c; clock := clock c;
     isWindows := isWindows c; tmpdir := tmpdir c |}.

(** [this.socket = net.createConnection(...)]. *)
Definition open_socket (c : SocketClient) : SocketClient :=
  {| session := session c; socket := Some (sockets_created c);
     connected := connected c; timeout := timeout c;
     pendingRequests := pendingRequests c; requestId := requestId c;
     net := net c ++ [createConnection (sockets_created c)
                        (getSocketPath (isWindows c) (tmpdir c) (session c))];
     sockets_created := S (sockets_created c); clock := clock c;
     isWindows := isWindows c; tmpdir := tmpdir c |}.

Definition set_request (i : Z) (p : gmap string Z) (c : SocketClient)
  : SocketClient :=
  {| session := session c; socket := socket c; connected := connected c;
     timeout := timeout c; pendingRequests := p; requestId := i;
     net := net c; sockets_created := sockets_created c; clock := clock c;
     isWindows := isWindows c; tmpdir := tmpdir c |}.

(** [connect], run until its promise settles. *)
Definition connect (attempt : ConnectOutcome) : M SocketClient unit :=
  c <- get ;;
  if connected c then ret tt
  else
    _ <- modify open_socket ;;
    match attempt with
    | connect_event => modify (set_connected true)
    | error_event message =>
      _ <- modify (set_connected false) ;;
      throw ("Failed to connect to daemon: " +:+ message)
    | no_event =>
      _ <- modify (fun c => match socket c with
                            | Some h => do_net (socket_destroy h) c
                            | None => c
                            end) ;;
      throw "Connection timeout"
    end.

(** [send], run until the line has been handed to the socket: [Ok id] is
    a promise waiting under [id] for its response, its timer or the close
    of the socket; [write_error] is what the callback of [write] receives. *)
Definition send (attempt : ConnectOutcome) (write_error : option string)
    (command : SocketCommand) : M SocketClient string :=
  c <- get ;;
  _ <- (if negb (connected c) || negb (bool_decide (is_Some (socket c)))
        then connect attempt else ret tt) ;;
  c <- get ;;
  let id := pretty (requestId c + 1) in
  let fullCommand :=
    {| cmd_id := Some id; cmd_action := cmd_action command;
       cmd_server := cmd_server command; cmd_tool := cmd_tool command;
       cmd_arguments := cmd_arguments command |} in
  _ <- modify (set_request (requestId c + 1)
                 (<[id := clock c + timer_delay (timeout c)]>
                    (pendingRequests c))) ;;
  match socket c with
  | None => throw "Cannot read properties of null (reading 'write')"
  | Some h =>
    _ <- modify (do_net (socket_write h fullCommand)) ;;
    match write_error with
    | Some e =>
      _ <- modify (fun c => set_request (requestId c)
                              (delete id (pendingRequests c)) c) ;;
      throw e
    | None => ret id
    end
  end.

(** The lines written to any socket, oldest first. *)
Definition transmitted (ops : list NetOp) : list SocketCommand :=
  omap (fun op => match op with
                  | socket_write _ command => Some command
                  | _ => None
                  end) ops.

Definition sample_client : SocketClient :=
  new_SocketClient None None false "/tmp".

End SocketClient.

(** ** A sample deployment

    Concrete providers, configurations and daemon states on which the
    statements below are exercised. *)

Module Sample.

Definition echo_tool : Client.CachedTool :=
  {| Client.tool_name := "echo";
     Client.tool_description := "Echo the input";
     Client.tool_inputSchema := JObj [("type", JStr "object")] |}.

Definition add_tool : Client.CachedTool :=
  {| Client.tool_name := "add";
     Client.tool_description := "Add two numbers";
     Client.tool_inputSchema :=
       JObj [("type", JStr "object"); ("required", JArr [JStr "a"; JStr "b"])] |}.

(** A provider that answers the handshake and lists two tools. *)
Definition good_sdk : Client.Sdk :=
  {| Client.new_URL := fun _ => Ok tt;
     Client.sdk_connect := fun _ =>
       Ok {| Client.serverVersion := Some ("echo-server", "1.0.0");
             Client.serverCapabilities := None |};
     Client.sdk_listTools := Ok [echo_tool; add_tool];
     Client.sdk_callTool := fun _ args => Ok args;
     Client.sdk_close := Ok tt |}.

Definition stdio_config (command : string) : MCPServerConfig :=
  {| cfg_type := Some "stdio"; cfg_url := None; cfg_headers := None;
     cfg_command := Some command; cfg_args := None; cfg_env := None;
     cfg_description := None |}.

Definition world (t : Z) (file : Daemon.ConfigFile) : Daemon.World :=
  {| Daemon.now := t; Daemon.config_file := file;
     Daemon.sdk_of := fun _ => good_sdk |}.

Definition two_servers : list (string * MCPServerConfig) :=
  [("alpha", stdio_config "alpha-server"); ("beta", stdio_config "beta-server")].

Definition only_beta : list (string * MCPServerConfig) :=
  [("beta", stdio_config "beta-server")].

(** The daemon as constructed, before [start]. *)
Definition daemon0 : Daemon.MCPDaemon :=
  {| Daemon.sessions := ∅; Daemon.predefinedServers := ["playwright"];
     Daemon.serverConfigs := two_servers; Daemon.session := "default";
     Daemon.configPath := None; Daemon.listening := true;
     Daemon.created := 0 |}.

(** The daemon after [preconnectServers] at time 1000. *)
Definition daemon1 : Daemon.MCPDaemon :=
  snd (Daemon.preconnectServers (world 1000 (Daemon.config_servers two_servers))
         daemon0).

(** A connected client, as [connect] leaves it. *)
Definition connected_client : Client.ProgressiveMCPClient :=
  snd (Client.connect
         (Client.new_ProgressiveMCPClient 0 good_sdk (stdio_config "echo-server"))).

Definition request (i action : string) (server tool : option string)
  : SocketCommand :=
  {| cmd_id := Some i; cmd_action := Some action; cmd_server := server;
     cmd_tool := tool; cmd_arguments := None |}.

(** The text of a [ping] request with id 1. *)
Definition ping_line : string :=
  "{" +:+ quoted "id" +:+ ":" +:+ quoted "1" +:+ ","
      +:+ quoted "action" +:+ ":" +:+ quoted "ping" +:+ "}".

(** [JSON.parse] on the lines used below; every other line counts as
    malformed here, and the message stands for the one the parser gives. *)
Definition JSON_parse (line : string) : Parsed :=
  if String.eqb line ping_line
  then parsed (request "1" "ping" None None)
  else if String.eqb line "null" then parsed_null
  else SyntaxError "Unexpected token in JSON".

(** The daemon after a [reload] at time 2000 that finds only "beta"
    configured. *)
Definition daemon2 : Daemon.MCPDaemon :=
  snd (Daemon.handleSocketRequest (world 2000 (Daemon.config_servers only_beta))
         (request "7" "reload" None None) daemon1).

Definition connection0 : Daemon.Connection :=
  {| Daemon.buffer := ""; Daemon.written := []; Daemon.ended := false |}.

End Sample.

(** ** Runs of the transports

    What can happen to a transport object, one event at a time: the calls
    of its methods and the events of the process, the channel and the
    clock around it. *)

Module StdioRun.

Inductive Event : Type :=
| Connect
| Send (method : string) (params : option JSON)
| Response (response : JSONRPCResponse)
| Disconnect
| Exit (h : nat)
| Elapse (ms : Z).

Definition step (t : Stdio.StdioTransport) (e : Event) : Stdio.StdioTransport :=
  match e with
  | Connect => Stdio.connect t
  | Send method params => snd (Stdio.sendRequest method params t)
  | Response response => Stdio.handleResponse response t
  | Disconnect => Stdio.disconnect t
  | Exit h => Stdio.on_exit h t
  | Elapse ms => Stdio.advance ms t
  end.

Definition run (events : list Event) (t : Stdio.StdioTransport)
  : Stdio.StdioTransport :=
  foldl step t events.

Definition is_send (e : Event) : bool :=
  match e with
  | Send _ _ => true
  | _ => false
  end.

(** No id in use exceeds the counter: neither a pending one, nor a
    settled one, nor one written to a child. *)
Definition ids_below (t : Stdio.StdioTransport) : Prop :=
  (forall id, id ∈ Stdio.pendingRequests t -> id <= Stdio.requestId t)
  /\ (forall id s, (id, s) ∈ Stdio.settled t -> id <= Stdio.requestId t)
  /\ (forall p r, p ∈ Stdio.children t -> r ∈ Stdio.stdin p ->
        rpc_id r <= Stdio.requestId t).

End StdioRun.

Module SseRun.

Inductive Event : Type :=
| Connect
| Open
| Send (method : string) (params : option JSON)
| Response (response : JSONRPCResponse)
| PostFailed (id : Z) (message : string)
| Disconnect
| Elapse (ms : Z).

Definition step (t : Sse.SseTransport) (e : Event) : Sse.SseTransport :=
  match e with
  | Connect => Sse.connect t
  | Open => Sse.on_open t
  | Send method params => snd (Sse.sendRequest method params t)
  | Response response => Sse.handleResponse response t
  | PostFailed id message => Sse.post_failed id message t
  | Disconnect => Sse.disconnect t
  | Elapse ms => Sse.advance ms t
  end.

Definition run (events : list Event) (t : Sse.SseTransport) : Sse.SseTransport :=
  foldl step t events.

Definition is_send (e : Event) : bool :=
  match e with
  | Send _ _ => true
  | _ => false
  end.

Definition is_post_failed (e : Event) : bool :=
  match e with
  | PostFailed _ _ => true
  | _ => false
  end.

(** No id in use exceeds the counter: neither a pending one, nor a
    settled one, nor a posted one. *)
Definition ids_below (t : Sse.SseTransport) : Prop :=
  (forall id, id ∈ Sse.pendingRequests t -> id <= Sse.requestId t)
  /\ (forall id s, (id, s) ∈ Sse.settled t -> id <= Sse.requestId t)
  /\ (forall r, r ∈ Sse.posted t -> rpc_id r <= Sse.requestId t).

End SseRun.

(** ** The event handlers of the socket client (socket-client.ts)

    [send] leaves a promise waiting under its id.  What settles it is the
    response handler, the ['close'] listener that [setupSocket] installs,
    or the timer of the request.  A promise settles once: a later [resolve]
    or [reject] is without effect.  The ids are never reused (the counter
    only grows), so that a promise is named by its id; the order in which
    the timers of one instant run is not modelled. *)

Module Caller.

Inductive Reply : Type :=
| Answered (response : SocketResponse)
| Failed (message : string).

Record Caller : Type := {
  client : SocketClient.SocketClient;
  orphans : gmap string Z;      (* running timers whose entry [disconnect]
                                   has cleared: id to due time *)
  outcomes : gmap string Reply  (* how the promise of each id was settled *)
}.

Definition new_Caller (c : SocketClient.SocketClient) : Caller :=
  {| client := c; orphans := ∅; outcomes := ∅ |}.

Definition set_state (s : option nat) (b : bool) (p : gmap string Z) (now : Z)
    (c : SocketClient.SocketClient) : SocketClient.SocketClient :=
  {| SocketClient.session := SocketClient.session c; SocketClient.socket := s;
     SocketClient.connected := b; SocketClient.timeout := SocketClient.timeout c;
     SocketClient.pendingRequests := p;
     SocketClient.requestId := SocketClient.requestId c;
     SocketClient.net := SocketClient.net c;
     SocketClient.sockets_created := SocketClient.sockets_created c;
     SocketClient.clock := now; SocketClient.isWindows := SocketClient.isWindows c;
     SocketClient.tmpdir := SocketClient.tmpdir c |}.

(** [reject] or [resolve] on the promises of [ids]. *)
Definition settle (r : Reply) (ids : gmap string Z) (o : gmap string Reply)
  : gmap string Reply :=
  o ∪ ((fun _ => r) <$> ids).

(** [send]: when it throws after an id was drawn, the promise of that id
    is rejected with what was thrown. *)
Definition send (attempt : SocketClient.ConnectOutcome)
    (write_error : option string) (command : SocketCommand) (k : Caller)
  : Result string * Caller :=
  let '(r, c') := SocketClient.send attempt write_error command (client k) in
  (r,
   {| client := c'; orphans := orphans k;
      outcomes :=
        match r with
        | Ok _ => outcomes k
        | Throw e =>
          if SocketClient.requestId c' =? SocketClient.requestId (client k)
          then outcomes k
          else settle (Failed e) {[pretty (SocketClient.requestId c') := 0]}
                 (outcomes k)
        end |}).

Definition handleResponse (response : SocketResponse) (k : Caller) : Caller :=
  match resp_id response with
  | id_string i =>
    let c := client k in
    match SocketClient.pendingRequests c !! i with
    | Some _ =>
      {| client := set_state (SocketClient.socket c) (SocketClient.connected c)
                     (delete i (SocketClient.pendingRequests c))
                     (SocketClient.clock c) c;
         orphans := orphans k;
         outcomes := settle (Answered response) {[i := 0]} (outcomes k) |}
    | None => k
    end
  | _ => k
  end.

(** The ['close'] listener. *)
Definition on_close (k : Caller) : Caller :=
  let c := client k in
  {| client := set_state (SocketClient.socket c) false ∅ (SocketClient.clock c) c;
     orphans := orphans k;
     outcomes := settle (Failed "Connection closed")
                   (SocketClient.pendingRequests c) (outcomes k) |}.

(** The ['error'] listener that [setupSocket] installs. *)
Definition on_error (k : Caller) : Caller :=
  let c := client k in
  {| client := set_state (SocketClient.socket c) false
                 (SocketClient.pendingRequests c) (SocketClient.clock c) c;
     orphans := orphans k; outcomes := outcomes k |}.

Definition disconnect (k : Caller) : Caller :=
  let c := client k in
  let c1 := match SocketClient.socket c with
            | Some h => SocketClient.do_net (SocketClient.socket_end h) c
            | None => c
            end in
  {| client := set_state None false ∅ (SocketClient.clock c1) c1;
     orphans := orphans k ∪ SocketClient.pendingRequests c;
     outcomes := outcomes k |}.

(** [ms] milliseconds pass: the timers that have come due delete the
    entry of their id and reject with "Request timeout".  The time a
    timer is due was fixed by [send], from the delay [setTimeout] runs it
    after. *)
Definition advance (ms : Z) (k : Caller) : Caller :=
  let c := client k in
  let now := SocketClient.clock c + ms in
  let due (m : gmap string Z) : gmap string Z :=
    filter (fun kv : string * Z => snd kv <= now) m in
  let later (m : gmap string Z) : gmap string Z :=
    filter (fun kv : string * Z => ~ snd kv <= now) m in
  {| client := set_state (SocketClient.socket c) (SocketClient.connected c)
                 (later (SocketClient.pendingRequests c) ∖ due (orphans k)) now c;
     orphans := later (orphans k);
     outcomes := settle (Failed "Request timeout")
                   (due (SocketClient.pendingRequests c) ∪ due (orphans k))
                   (outcomes k) |}.

Inductive Event : Type :=
| Send (attempt : SocketClient.ConnectOutcome) (write_error : option string)
       (command : SocketCommand)
| Response (response : SocketResponse)
| Close
| Error
| Disconnect
| Elapse (ms : Z).

Definition step (k : Caller) (e : Event) : Caller :=
  match e with
  | Send attempt write_error command => snd (send attempt write_error command k)
  | Response response => handleResponse response k
  | Close => on_close k
  | Error => on_error k
  | Disconnect => disconnect k
  | Elapse ms => advance ms k
  end.

Definition run (events : list Event) (k : Caller) : Caller := foldl step k events.

(** Every id in use was drawn from the counter. *)
Definition ids_drawn (k : Caller) : Prop :=
  forall id : string,
    is_Some (SocketClient.pendingRequests (client k) !! id)
    \/ is_Some (orphans k !! id) \/ is_Some (outcomes k !! id) ->
    exists n : Z, id = pretty n /\ n <= SocketClient.requestId (client k).

(** What holds of every state the client can reach: the ids in use were
    drawn from the counter; a client that counts as connected has a
    socket; and a pending request is unsettled, with its own timer. *)
Definition well_formed (k : Caller) : Prop :=
  ids_drawn k
  /\ (SocketClient.connected (client k) = true ->
      is_Some (SocketClient.socket (client k)))
  /\ (forall id : string,
        is_Some (SocketClient.pendingRequests (client k) !! id) ->
        outcomes k !! id = None /\ orphans k !! id = None).

End Caller.

(** ** The command-line client (cli/client/socket-client.ts, cli/errors.ts) *)

Module MCPClient.

(** What [sendCommand] can catch and throw: a plain [Error], as
    [SocketClient.send] rejects with, or one of the two [CommandError]s it
    constructs. *)
Inductive CliError : Type :=
| Error (message : string)
| DaemonNotRunningError
| ConnectionFailedError (detail : string).

(** [error.message], as the constructors pass it to [super]. *)
Definition message (error : CliError) : string :=
  match error with
  | Error m => m
  | DaemonNotRunningError => "MCP daemon is not running"
  | ConnectionFailedError detail => "Failed to connect to daemon: " +:+ detail
  end.

(** The [catch] block of [sendCommand]. *)
Definition rethrow (error : CliError) : CliError :=
  if includes (message error) "Failed to connect to daemon"
  then DaemonNotRunningError
  else match error with
       | ConnectionFailedError _ => error
       | _ => ConnectionFailedError (message error)
       end.

(** [sendCommand], given how the promise of [socketClient.send] settled. *)
Definition sendCommand (sent : Result SocketResponse)
  : CliError + option ResponseData :=
  let attempt : CliError + option ResponseData :=
    match sent with
    | Throw m => inl (Error m)
    | Ok response =>
      if negb (resp_success response)
      then inl (ConnectionFailedError
                  (if truthy (resp_error response)
                   then show (resp_error response) else "Unknown error"))
      else inr (resp_data response)
    end in
  match attempt with
  | inl error => inl (rethrow error)
  | inr data => inr data
  end.

End MCPClient.

(** ** The files of a session (socket.ts)

    The file system is a map from the paths that exist to their contents;
    a file that exists can be read.  [parseInt] of a trimmed content,
    whether [process.kill(pid, 0)] returns, and whether [unlinkSync]
    succeeds on a path belong to the surroundings. *)

Module socket_fs.

Record Os : Type := {
  isWindows : bool;
  tmpdir : string;
  parseInt : string -> option Z;     (* [None] is [NaN] *)
  process_exists : Z -> bool;
  unlinkable : string -> bool
}.

Definition Fs : Type := gmap string string.

Definition getPidFile (os : Os) (sess : string) : string :=
  tmpdir os +:+ "/mcp-daemon-" +:+ sess +:+ ".pid".

Definition getPortFile (os : Os) (sess : string) : string :=
  tmpdir os +:+ "/mcp-daemon-" +:+ sess +:+ ".port".

(** [getSocketPath] where there are domain sockets. *)
Definition getSocketFile (os : Os) (sess : string) : string :=
  tmpdir os +:+ "/mcp-daemon-" +:+ sess +:+ ".sock".

(** [if (fs.existsSync(p)) fs.unlinkSync(p)]. *)
Definition unlink_if_exists (os : Os) (p : string) : M Fs unit :=
  fs <- get ;;
  match fs !! p with
  | Some _ => if unlinkable os p then modify (delete p) else throw "EPERM"
  | None => ret tt
  end.

Definition cleanupSocket (os : Os) (sess : string) (fs : Fs) : Fs :=
  snd (try_catch
         (_ <- unlink_if_exists os (getPidFile os sess) ;;
          if isWindows os then unlink_if_exists os (getPortFile os sess)
          else unlink_if_exists os (getSocketFile os sess))
         (fun _ => ret tt) fs).

Definition isDaemonRunning (os : Os) (sess : string) (fs : Fs) : bool * Fs :=
  match fs !! getPidFile os sess with
  | None => (false, fs)
  | Some content =>
    match parseInt os content with
    | Some pid =>
      if process_exists os pid then (true, fs)
      else (false, cleanupSocket os sess fs)
    | None => (false, cleanupSocket os sess fs)
    end
  end.

End socket_fs.

(** ** Further sample data *)

Module Fixtures.

(** A provider whose handshake is refused. *)
Definition refusing_sdk : Client.Sdk :=
  {| Client.new_URL := fun _ => Ok tt;
     Client.sdk_connect := fun _ => Throw "ECONNREFUSED";
     Client.sdk_listTools := Ok [];
     Client.sdk_callTool := fun _ _ => Throw "not reached";
     Client.sdk_close := Ok tt |}.

(** A provider whose transport cannot be closed. *)
Definition stuck_sdk : Client.Sdk :=
  {| Client.new_URL := fun _ => Ok tt;
     Client.sdk_connect := fun _ =>
       Ok {| Client.serverVersion := None; Client.serverCapabilities := None |};
     Client.sdk_listTools := Ok [Sample.echo_tool];
     Client.sdk_callTool := fun _ args => Ok args;
     Client.sdk_close := Throw "close failed" |}.

Definition refused_client : Client.ProgressiveMCPClient :=
  Client.new_ProgressiveMCPClient 0 refusing_sdk (Sample.stdio_config "echo-server").

Definition stuck_client : Client.ProgressiveMCPClient :=
  snd (Client.connect
         (Client.new_ProgressiveMCPClient 0 stuck_sdk
            (Sample.stdio_config "echo-server"))).

(** A configuration that names its transport in capitals and carries a
    description. *)
Definition shouting_config : MCPServerConfig :=
  {| cfg_type := Some "SSE"; cfg_url := Some "http://localhost:3000/sse";
     cfg_headers := None; cfg_command := None; cfg_args := None;
     cfg_env := None; cfg_description := Some "Documentation search" |}.

(** The name of the kind of a transport, as the [type] field spells it. *)
Definition kind (t : Client.Transport) : string :=
  match t with
  | Client.StdioClientTransport _ _ _ => "stdio"
  | Client.StreamableHTTPClientTransport _ _ => "http"
  | Client.SSEClientTransport _ _ => "sse"
  end.

(** A deployment in which the provider behind the first client object
    refuses the handshake and every later one answers. *)
Definition flaky_world (t : Z) : Daemon.World :=
  {| Daemon.now := t; Daemon.config_file := Daemon.config_missing;
     Daemon.sdk_of := fun o => if Nat.eqb o 0 then refusing_sdk
                               else Sample.good_sdk |}.

(** A daemon whose configuration file lists no server. *)
Definition unconfigured_daemon : Daemon.MCPDaemon :=
  {| Daemon.sessions := ∅; Daemon.predefinedServers := ["playwright"];
     Daemon.serverConfigs := []; Daemon.session := "default";
     Daemon.configPath := None; Daemon.listening := true;
     Daemon.created := 0 |}.

(** The text of a [reload] request with id 7, and a parser that knows
    it beside the lines of [Sample.JSON_parse]. *)
Definition reload_line : string :=
  "{" +:+ quoted "id" +:+ ":" +:+ quoted "7" +:+ ","
      +:+ quoted "action" +:+ ":" +:+ quoted "reload" +:+ "}".

Definition JSON_parse (line : string) : Parsed :=
  if String.eqb line reload_line
  then parsed (Sample.request "7" "reload" None None)
  else Sample.JSON_parse line.

(** A [ping] command as a caller hands it to [send], without an id, and
    the caller of the sample client after sending it. *)
Definition ping_command : SocketCommand :=
  {| cmd_id := None; cmd_action := Some "ping"; cmd_server := None;
     cmd_tool := None; cmd_arguments := None |}.

Definition waiting_caller : Caller.Caller :=
  snd (Caller.send SocketClient.connect_event None ping_command
         (Caller.new_Caller SocketClient.sample_client)).

Definition pong : SocketResponse :=
  success_response (id_string "1") (PingData "ok" "default" []).

(** A machine on which process 4242 has gone and has left its files. *)
Definition unix_os : socket_fs.Os :=
  {| socket_fs.isWindows := false; socket_fs.tmpdir := "/tmp";
     socket_fs.parseInt := fun content =>
       if String.eqb content "4242" then Some 4242 else None;
     socket_fs.process_exists := fun _ => false;
     socket_fs.unlinkable := fun _ => true |}.

Definition stale_files : socket_fs.Fs :=
  {[ "/tmp/mcp-daemon-default.pid" := "4242";
     "/tmp/mcp-daemon-default.sock" := "" ]}.

(** A deployment one of whose servers is named as a member of
    [Object.prototype]: the daemon after its bootstrap at time 1000, and
    after a reload at time 2000 that finds only "beta" configured. *)
Definition prototype_servers : list (string * MCPServerConfig) :=
  [("toString", Sample.stdio_config "text-server");
   ("beta", Sample.stdio_config "beta-server")].

Definition prototype_daemon1 : Daemon.MCPDaemon :=
  snd (Daemon.preconnectServers
         (Sample.world 1000 (Daemon.config_servers prototype_servers))
         {| Daemon.sessions := ∅; Daemon.predefinedServers := ["playwright"];
            Daemon.serverConfigs := prototype_servers;
            Daemon.session := "default"; Daemon.configPath := None;
            Daemon.listening := true; Daemon.created := 0 |}).

Definition prototype_daemon2 : Daemon.MCPDaemon :=
  snd (Daemon.handleSocketRequest
         (Sample.world 2000 (Daemon.config_servers Sample.only_beta))
         (Sample.request "7" "reload" None None) prototype_daemon1).

(** The caller of the sample client with two requests in flight. *)
Definition busy_caller : Caller.Caller :=
  snd (Caller.send SocketClient.connect_event None ping_command waiting_caller).

(** [Buffer.toString] on chunks that hold ASCII characters only: every
    byte stands for the character of its number.  And the bytes of a
    [ping] request with its newline. *)
Definition ascii_text (chunk : list Byte.byte) : string :=
  String.string_of_list_byte chunk.

Definition ping_bytes : list Byte.byte :=
  String.list_byte_of_string (Sample.ping_line +:+ String newline "").

End Fixtures.

(** * Properties *)

(** ** Socket addressing *)

Lemma to_int32_range (x : Z) : - 2 ^ 31 <= to_int32 x < 2 ^ 31.
Proof.
  unfold to_int32.
  pose proof (Z.mod_pos_bound (x + 2 ^ 31) (2 ^ 32) ltac:(lia)).
  lia.
Qed.

Lemma to_int32_id (x : Z) : - 2 ^ 31 <= x < 2 ^ 31 -> to_int32 x = x.
Proof.
  intros Hx. unfold to_int32.
  rewrite Z.mod_small by lia. lia.
Qed.

Lemma hash_loop_range (session : list Z) (hash : Z) :
  - 2 ^ 31 <= hash < 2 ^ 31 ->
  - 2 ^ 31 <= hash_loop hash session < 2 ^ 31.
Proof.
  revert hash. induction session as [|c rest IH]; intros hash Hh; simpl.
  - exact Hh.
  - apply IH, to_int32_range.
Qed.

Example port_default :
  socket.getPortForSession (code_units "default") = 50838.
Proof. vm_compute. reflexivity. Qed.

(** C8. The TCP port of a session name is 49152 plus the (absolute value of
    the 32-bit rolling) hash of the name modulo 16383; it lies in the
    dynamic/private range 49152..65535; the daemon-side and the
    caller-side copies of the computation agree on every name, so on a
    platform without domain sockets the address the daemon listens on and
    the address a caller connects to are the same function of the session
    name alone. *)
Theorem C8_port_for_session (session : list Z) (name tmp : string) :
  socket.getPortForSession session
    = 49152 + (Z.abs (hash_loop 0 session)) mod 16383
  /\ - 2 ^ 31 <= hash_loop 0 session < 2 ^ 31
  /\ 49152 <= socket.getPortForSession session <= 65535
  /\ socket_client.getPortForSession session
       = socket.getPortForSession session
  /\ socket.getConnectionInfo true tmp name
       = socket.tcp (socket.getPortForSession (code_units name)) "127.0.0.1"
  /\ SocketClient.getSocketPath true tmp name
       = SocketClient.tcp_address (socket.getPortForSession (code_units name))
           "127.0.0.1".
Proof.
  unfold socket.getPortForSession, socket_client.getPortForSession. cbv zeta.
  assert (Hrem : Z.rem (Z.abs (hash_loop 0 session)) 16383
                 = Z.abs (hash_loop 0 session) mod 16383).
  { apply Z.rem_mod_nonneg; lia. }
  rewrite Hrem.
  pose proof (Z.mod_pos_bound (Z.abs (hash_loop 0 session)) 16383 ltac:(lia)).
  pose proof (hash_loop_range session 0 ltac:(lia)).
  repeat split; lia.
Qed.

(** ** The progressive client *)

Lemma find_first_match {A : Type} (p : A -> bool) (l : list A) (i : nat) (x : A) :
  l !! i = Some x -> p x = true ->
  exists (j : nat) (y : A),
    (j <= i)%nat /\ l !! j = Some y /\ p y = true /\ List.find p l = Some y
    /\ (forall (k : nat) (z : A), (k < j)%nat -> l !! k = Some z -> p z = false).
Proof.
  revert i. induction l as [|a l IH]; intros i Hi Hp.
  - destruct i; discriminate.
  - simpl. destruct (p a) eqn:Hpa.
    + exists 0%nat, a. repeat split; [lia | assumption |].
      intros k z Hk. lia.
    + destruct i as [|i]; simpl in Hi.
      * congruence.
      * destruct (IH i Hi Hp) as (j & y & Hji & Hj & Hpy & Hfind & Hmin).
        exists (S j), y. repeat split; [lia | assumption..|].
        intros [|k] z Hk Hz; simpl in Hz; [congruence|].
        apply (Hmin k); [lia | assumption].
Qed.

Lemma find_none_iff {A : Type} (p : A -> bool) (l : list A) :
  List.find p l = None <-> forall x, x ∈ l -> p x = false.
Proof.
  split.
  - intros Hnone x Hx. apply list_elem_of_In in Hx.
    exact (List.find_none p l Hnone x Hx).
  - intros Hall. induction l as [|a l IH]; [reflexivity|]. simpl.
    rewrite (Hall a) by constructor.
    apply IH. intros x Hx. apply Hall. now constructor.
Qed.

(** C5. On a connected client, for every entry of the cached catalogue:
    [listTools] returns, without touching the client or the provider, one
    object per cached entry carrying exactly the fields [name] and
    [description]; and [getToolSchema] for that entry's name returns, again
    without touching the client or the provider, the name, description and
    input schema of the first cached entry of that name (the entry itself
    when names are unique), the same entry [listTools] projects at that
    position. *)
Theorem C5_progressive_views (c : Client.ProgressiveMCPClient) (i : nat) (t : Client.CachedTool) :
  Client.isConnected c = true ->
  Client._toolsCache c !! i = Some t ->
  exists infos : list MCPToolInfo,
    Client.listTools c = (Ok infos, c)
    /\ infos = map Client.tool_info (Client._toolsCache c)
    /\ (forall info, info ∈ infos ->
          object_keys (MCPToolInfo_json info) = ["name"; "description"])
    /\ infos !! i = Some (Client.tool_info t)
    /\ exists (j : nat) (e : Client.CachedTool),
         (j <= i)%nat
         /\ Client._toolsCache c !! j = Some e
         /\ Client.tool_name e = Client.tool_name t
         /\ (forall (k : nat) (e' : Client.CachedTool),
               (k < j)%nat -> Client._toolsCache c !! k = Some e' ->
               Client.tool_name e' <> Client.tool_name t)
         /\ infos !! j = Some (Client.tool_info e)
         /\ Client.getToolSchema (Client.tool_name t) c = (Ok (Client.tool_schema e), c).
Proof.
  intros Hconn Hi.
  exists (map Client.tool_info (Client._toolsCache c)).
  assert (Hlist : Client.listTools c = (Ok (map Client.tool_info (Client._toolsCache c)), c)).
  { unfold Client.listTools, bind, get. rewrite Hconn. reflexivity. }
  split; [exact Hlist|].
  split; [reflexivity|].
  split; [intros info _; reflexivity|].
  split; [rewrite list_lookup_fmap, Hi; reflexivity|].
  destruct (find_first_match (fun e => String.eqb (Client.tool_name e) (Client.tool_name t))
              (Client._toolsCache c) i t Hi (String.eqb_refl _))
    as (j & e & Hji & Hj & Hname & Hfind & Hmin).
  exists j, e.
  apply String.eqb_eq in Hname.
  repeat split; try assumption.
  - intros k e' Hk He' Heq.
    specialize (Hmin k e' Hk He'). apply String.eqb_neq in Hmin. contradiction.
  - rewrite list_lookup_fmap, Hj. reflexivity.
  - unfold Client.getToolSchema, bind, get. rewrite Hconn. simpl.
    rewrite Hfind. reflexivity.
Qed.

(** C5 on the sample client: the entry at index 1 is the tool "add". *)
Lemma C5_progressive_views_witness :
  Client.isConnected Sample.connected_client = true
  /\ Client._toolsCache Sample.connected_client !! 1%nat = Some Sample.add_tool
  /\ exists infos : list MCPToolInfo,
       Client.listTools Sample.connected_client
       = (Ok infos, Sample.connected_client)
       /\ infos !! 1%nat = Some (Client.tool_info Sample.add_tool)
       /\ Client.getToolSchema "add" Sample.connected_client
          = (Ok (Client.tool_schema Sample.add_tool), Sample.connected_client).
Proof.
  split; [reflexivity|]. split; [reflexivity|].
  destruct (C5_progressive_views Sample.connected_client 1 Sample.add_tool
              eq_refl eq_refl)
    as (infos & Hlist & _ & _ & Hinfo & _).
  exists infos. split; [exact Hlist|]. split; [exact Hinfo|].
  reflexivity.
Defined.

(** ** The daemon: routing *)

Ltac run_monad :=
  unfold bind, ret, throw, get, modify, lift, try_catch in *; cbn beta iota.

Lemma find_absent_tool (tools : list Client.CachedTool) (tool : string) :
  (forall t, t ∈ tools -> Client.tool_name t <> tool) ->
  List.find (fun t => String.eqb (Client.tool_name t) tool) tools = None.
Proof.
  intros Habsent. apply find_none_iff. intros t Ht.
  apply String.eqb_neq. exact (Habsent t Ht).
Qed.

Lemma truthy_Some (s : string) : s <> "" -> truthy (Some s) = true.
Proof.
  intros Hs. unfold truthy. apply negb_true_iff, String.eqb_neq. exact Hs.
Qed.

(** C3 (as the code has it). A per-server action (metadata, list, schema,
    call, health) whose [server] names no registered session (or is
    missing) leaves the daemon untouched and returns the failure response
    whose error is "Server '<server>' not found or not connected": it names
    the requested server, not the available ones. *)
Theorem C3_unregistered_server (w : Daemon.World) (d : Daemon.MCPDaemon)
    (request : SocketCommand) (action : string) :
  cmd_action request = Some action ->
  action ∈ ["metadata"; "list"; "schema"; "call"; "health"] ->
  (forall name, cmd_server request = Some name ->
                Daemon.sessions d !! name = None) ->
  Daemon.handleSocketRequest w request d
    = (Ok (failure_response (wire_id (cmd_id request))
             ("Server '" +:+ show (cmd_server request)
              +:+ "' not found or not connected")), d).
Proof.
  intros Haction Hin Hnone.
  assert (Hlookup : cmd_server request
                      ≫= (fun sessionId => Daemon.sessions d !! sessionId)
                    = None).
  { destruct (cmd_server request) as [name|]; [|reflexivity].
    exact (Hnone name eq_refl). }
  unfold Daemon.handleSocketRequest. rewrite Haction.
  repeat (apply elem_of_cons in Hin as [-> | Hin]);
    try (apply elem_of_nil in Hin; contradiction);
    cbn [Daemon.is_action String.eqb Ascii.eqb Bool.eqb];
    run_monad; rewrite Hlookup; reflexivity.
Qed.

(** C3 on the sample daemon: a [list] for the unregistered "gamma". *)
Lemma C3_unregistered_server_witness :
  cmd_action (Sample.request "7" "list" (Some "gamma") None) = Some "list"
  /\ "list" ∈ ["metadata"; "list"; "schema"; "call"; "health"]
  /\ Daemon.sessions Sample.daemon1 !! "gamma" = None
  /\ Daemon.handleSocketRequest (Sample.world 2000 Daemon.config_missing)
       (Sample.request "7" "list" (Some "gamma") None) Sample.daemon1
     = (Ok (failure_response (id_string "7")
              "Server 'gamma' not found or not connected"), Sample.daemon1).
Proof.
  assert (Hin : "list" ∈ ["metadata"; "list"; "schema"; "call"; "health"]).
  { apply elem_of_cons; right. apply elem_of_cons; left. reflexivity. }
  assert (Hnone : Daemon.sessions Sample.daemon1 !! "gamma" = None).
  { vm_compute. reflexivity. }
  split; [reflexivity|]. split; [exact Hin|]. split; [exact Hnone|].
  apply (C3_unregistered_server (Sample.world 2000 Daemon.config_missing)
           Sample.daemon1 (Sample.request "7" "list" (Some "gamma") None)
           "list" eq_refl Hin).
  intros name Hname. injection Hname as <-. exact Hnone.
Defined.

(** C3 as stated fails: with sessions "alpha" and "beta" registered, a
    [list] for the unregistered "gamma" fails with an error that mentions
    neither available name. *)
Lemma C3_counterexample :
  Daemon.sessions Sample.daemon1 !! "gamma" = None
  /\ map fst (map_to_list (Daemon.sessions Sample.daemon1)) = ["alpha"; "beta"]
  /\ exists message : string,
       fst (Daemon.handleSocketRequest (Sample.world 2000 Daemon.config_missing)
              (Sample.request "7" "list" (Some "gamma") None) Sample.daemon1)
         = Ok (failure_response (id_string "7") message)
       /\ includes message "alpha" = false
       /\ includes message "beta" = false.
Proof.
  split; [vm_compute; reflexivity|].
  split; [vm_compute; reflexivity|].
  exists "Server 'gamma' not found or not connected".
  repeat split; vm_compute; reflexivity.
Qed.

(** C6 (as the code has it). A [schema] request for a registered server
    that names a tool absent from the session's cached catalogue is
    answered with success false and the error "Tool '<name>' not found";
    the only change to the daemon is the session's activity stamp. *)
Theorem C6_schema_unknown_tool (w : Daemon.World) (d : Daemon.MCPDaemon)
    (request : SocketCommand) (name tool : string) (found : Daemon.SessionInfo) :
  cmd_action request = Some "schema" ->
  cmd_server request = Some name ->
  Daemon.sessions d !! name = Some found ->
  cmd_tool request = Some tool ->
  tool <> "" ->
  (forall t, t ∈ Client._toolsCache (Daemon.client found) ->
             Client.tool_name t <> tool) ->
  Daemon.handleSocketRequest w request d
    = (Ok (failure_response (wire_id (cmd_id request))
             ("Tool '" +:+ tool +:+ "' not found")),
       Daemon.set_sessions
         (<[name := Daemon.touch (Daemon.now w) found]> (Daemon.sessions d)) d).
Proof.
  intros Haction Hserver Hfound Htool Hne Habsent.
  unfold Daemon.handleSocketRequest. rewrite Haction, Hserver, Htool.
  cbn [Daemon.is_action String.eqb Ascii.eqb Bool.eqb].
  run_monad. cbn [mbind option_bind]. rewrite Hfound.
  rewrite (truthy_Some tool Hne). cbn [negb show].
  unfold Client.getToolSchema. run_monad.
  cbn [Daemon.client Daemon.touch].
  destruct (Client.isConnected (Daemon.client found)); cbn [negb fst].
  - rewrite (find_absent_tool _ tool Habsent). reflexivity.
  - reflexivity.
Qed.

(** C6 on the sample daemon: the schema of the unknown tool "nosuch". *)
Lemma C6_schema_unknown_tool_witness :
  exists found : Daemon.SessionInfo,
    Daemon.sessions Sample.daemon1 !! "alpha" = Some found
    /\ Daemon.handleSocketRequest (Sample.world 2000 Daemon.config_missing)
         (Sample.request "7" "schema" (Some "alpha") (Some "nosuch"))
         Sample.daemon1
       = (Ok (failure_response (id_string "7") "Tool 'nosuch' not found"),
          Daemon.set_sessions
            (<["alpha" := Daemon.touch 2000 found]>
               (Daemon.sessions Sample.daemon1)) Sample.daemon1).
Proof.
  destruct (Daemon.sessions Sample.daemon1 !! "alpha") as [found|] eqn:Hfound;
    [|vm_compute in Hfound; discriminate].
  exists found. split; [reflexivity|].
  apply (C6_schema_unknown_tool (Sample.world 2000 Daemon.config_missing)
           Sample.daemon1
           (Sample.request "7" "schema" (Some "alpha") (Some "nosuch"))
           "alpha" "nosuch" found eq_refl eq_refl Hfound eq_refl).
  - discriminate.
  - intros t Ht.
    assert (Hcache : Client._toolsCache (Daemon.client found)
                     = [Sample.echo_tool; Sample.add_tool]).
    { vm_compute in Hfound. injection Hfound as <-. reflexivity. }
    rewrite Hcache in Ht.
    apply elem_of_cons in Ht as [-> | Ht]; [discriminate|].
    apply elem_of_cons in Ht as [-> | Ht]; [discriminate|].
    apply elem_of_nil in Ht. contradiction.
Defined.

(** C6 as stated fails: the session of "alpha" has cached the tools "echo"
    and "add"; the error for the unknown tool "nosuch" is
    "Tool 'nosuch' not found", not "Tool not found: nosuch". *)
Lemma C6_counterexample :
  exists found : Daemon.SessionInfo,
    Daemon.sessions Sample.daemon1 !! "alpha" = Some found
    /\ map Client.tool_name (Client._toolsCache (Daemon.client found))
       = ["echo"; "add"]
    /\ fst (Daemon.handleSocketRequest (Sample.world 2000 Daemon.config_missing)
              (Sample.request "7" "schema" (Some "alpha") (Some "nosuch"))
              Sample.daemon1)
       = Ok (failure_response (id_string "7") "Tool 'nosuch' not found")
    /\ "Tool 'nosuch' not found" <> "Tool not found: nosuch".
Proof.
  destruct (Daemon.sessions Sample.daemon1 !! "alpha") as [found|] eqn:Hfound;
    [|vm_compute in Hfound; discriminate].
  exists found. split; [reflexivity|]. split.
  { vm_compute in Hfound. injection Hfound as <-. reflexivity. }
  split; [vm_compute; reflexivity | discriminate].
Qed.

(** ** The daemon: the connection handler *)

Lemma append_nil_l (s : string) : "" +:+ s = s.
Proof. reflexivity. Qed.

Lemma append_cons (c : ascii) (s t : string) :
  String c s +:+ t = String c (s +:+ t).
Proof. reflexivity. Qed.

Lemma append_nil_r (s : string) : s +:+ "" = s.
Proof.
  induction s as [|c s IH]; [reflexivity|].
  rewrite append_cons, IH. reflexivity.
Qed.

Lemma append_snoc (s : string) (c : ascii) (t : string) :
  (s +:+ String c "") +:+ t = s +:+ String c t.
Proof.
  induction s as [|a s IH]; [reflexivity|].
  rewrite !append_cons, IH. reflexivity.
Qed.

Lemma take_lines_line (line rest buffer : string) :
  no_newline line = true ->
  Daemon.take_lines buffer (line +:+ String newline rest)
    = ((buffer +:+ line) :: fst (Daemon.take_lines "" rest),
       snd (Daemon.take_lines "" rest)).
Proof.
  revert buffer. induction line as [|c line IH]; intros buffer Hline.
  - rewrite append_nil_l. cbn [Daemon.take_lines]. rewrite Ascii.eqb_refl.
    rewrite append_nil_r. destruct (Daemon.take_lines "" rest). reflexivity.
  - cbn [no_newline] in Hline. apply andb_true_iff in Hline as [Hc Hline].
    apply negb_true_iff in Hc.
    rewrite append_cons. cbn [Daemon.take_lines]. rewrite Hc.
    rewrite (IH _ Hline), append_snoc. reflexivity.
Qed.

(** A line that [trim] empties is skipped without an answer: so a line
    made of a tab, a no-break space, a carriage return and a space. *)
Example blank_line_is_skipped (w : Daemon.World) (JSON_parse : string -> Parsed)
    (d : Daemon.MCPDaemon) :
  let line := String (ascii_of_nat 9)
                (String (ascii_of_nat 160)
                   (String (ascii_of_nat 13) (String (ascii_of_nat 32) ""))) in
  is_blank line = true
  /\ Daemon.on_data w JSON_parse (line +:+ String newline "")
       (Sample.connection0, d)
     = (Sample.connection0, d).
Proof. split; reflexivity. Qed.

(** C9 (as the code has it). A line, whether it arrives whole or completes
    what the buffer holds, that is not blank and that [JSON.parse] rejects
    is answered with one failure response, with id null and the parser's
    message; the daemon is untouched, the handler does not end the
    connection, and the data after the line is processed as on a connection
    on which that response has just been written. *)
Theorem C9_malformed_line (w : Daemon.World) (JSON_parse : string -> Parsed)
    (line message rest : string) (conn : Daemon.Connection)
    (d : Daemon.MCPDaemon) :
  JSON_parse (Daemon.buffer conn +:+ line) = SyntaxError message ->
  is_blank (Daemon.buffer conn +:+ line) = false ->
  no_newline line = true ->
  Daemon.handle_line w JSON_parse (Daemon.buffer conn +:+ line) (conn, d)
    = (Daemon.write (failure_response id_null message) conn, d)
  /\ Daemon.ended (Daemon.write (failure_response id_null message) conn)
     = Daemon.ended conn
  /\ Daemon.on_data w JSON_parse (line +:+ String newline rest) (conn, d)
     = Daemon.on_data w JSON_parse rest
         (Daemon.write (failure_response id_null message)
            (Daemon.set_buffer "" conn), d).
Proof.
  intros Hparse Hblank Hline.
  assert (Hone : forall c,
            Daemon.handle_line w JSON_parse (Daemon.buffer conn +:+ line) (c, d)
            = (Daemon.write (failure_response id_null message) c, d)).
  { intros c. unfold Daemon.handle_line. rewrite Hblank, Hparse. reflexivity. }
  split; [apply Hone|]. split; [reflexivity|].
  unfold Daemon.on_data.
  rewrite (take_lines_line line rest (Daemon.buffer conn) Hline).
  cbn [Daemon.buffer Daemon.write Daemon.set_buffer].
  destruct (Daemon.take_lines "" rest) as [lines remainder].
  cbn [fst snd foldl]. rewrite Hone. reflexivity.
Qed.

(** C9 on the sample daemon: the malformed line "{oops" followed by a
    [ping]. *)
Lemma C9_malformed_line_witness :
  Sample.JSON_parse (Daemon.buffer Sample.connection0 +:+ "{oops")
    = SyntaxError "Unexpected token in JSON"
  /\ Daemon.on_data (Sample.world 2000 Daemon.config_missing) Sample.JSON_parse
       ("{oops" +:+ String newline (Sample.ping_line +:+ String newline ""))
       (Sample.connection0, Sample.daemon1)
     = Daemon.on_data (Sample.world 2000 Daemon.config_missing)
         Sample.JSON_parse (Sample.ping_line +:+ String newline "")
         (Daemon.write (failure_response id_null "Unexpected token in JSON")
            (Daemon.set_buffer "" Sample.connection0), Sample.daemon1)
  /\ Daemon.written
       (fst (Daemon.on_data (Sample.world 2000 Daemon.config_missing)
               Sample.JSON_parse
               ("{oops" +:+ String newline
                            (Sample.ping_line +:+ String newline ""))
               (Sample.connection0, Sample.daemon1)))
     = [failure_response id_null "Unexpected token in JSON";
        success_response (id_string "1")
          (PingData "ok" "default" ["alpha"; "beta"])].
Proof.
  split; [reflexivity|]. split.
  - apply (C9_malformed_line (Sample.world 2000 Daemon.config_missing)
             Sample.JSON_parse "{oops" "Unexpected token in JSON"
             (Sample.ping_line +:+ String newline "")
             Sample.connection0 Sample.daemon1);
      reflexivity.
  - vm_compute. reflexivity.
Defined.

(** C9 as stated fails: the malformed line "{oops" is not dropped, a
    response is written for it. *)
Lemma C9_counterexample :
  Sample.JSON_parse "{oops" = SyntaxError "Unexpected token in JSON"
  /\ Daemon.written
       (fst (Daemon.on_data (Sample.world 2000 Daemon.config_missing)
               Sample.JSON_parse ("{oops" +:+ String newline "")
               (Sample.connection0, Sample.daemon1)))
     = [failure_response id_null "Unexpected token in JSON"]
  /\ Daemon.written
       (fst (Daemon.on_data (Sample.world 2000 Daemon.config_missing)
               Sample.JSON_parse ("{oops" +:+ String newline "")
               (Sample.connection0, Sample.daemon1)))
     <> Daemon.written Sample.connection0.
Proof.
  split; [reflexivity|]. split; [vm_compute; reflexivity|].
  vm_compute. discriminate.
Qed.

(** ** The daemon: idle eviction *)

Lemma cleanup_step_evictable (w : Daemon.World)
    (cfgs : list (string * MCPServerConfig))
    (acc : gmap string Daemon.SessionInfo
           * list (string * Client.ProgressiveMCPClient))
    (k : string) (s : Daemon.SessionInfo) :
  Daemon.cleanup_step w cfgs acc (k, s)
    = if Daemon.evictable w cfgs s
      then (delete k (fst acc),
            (snd acc ++ [(k, snd (Client.disconnect (Daemon.client s)))])%list)
      else acc.
Proof.
  unfold Daemon.cleanup_step, Daemon.evictable.
  destruct (Daemon.lookup_config cfgs (Daemon.server s)); [reflexivity|].
  destruct (Daemon.IDLE_TIMEOUT <? Daemon.now w - Daemon.lastActivityAt s);
    reflexivity.
Qed.

Section Cleanup.

Variable w : Daemon.World.
Variable cfgs : list (string * MCPServerConfig).

Local Abbreviation sweep := (foldl (Daemon.cleanup_step w cfgs)).

Lemma sweep_absent (l : list (string * Daemon.SessionInfo))
    (m : gmap string Daemon.SessionInfo)
    (ev : list (string * Client.ProgressiveMCPClient)) (k : string) :
  m !! k = None -> fst (sweep (m, ev) l) !! k = None.
Proof.
  revert m ev. induction l as [|[k' s] l IH]; intros m ev Hk; [exact Hk|].
  cbn [foldl]. rewrite cleanup_step_evictable.
  destruct (Daemon.evictable w cfgs s); cbn [fst snd].
  - apply IH. rewrite lookup_delete. case_decide; [reflexivity | exact Hk].
  - apply IH, Hk.
Qed.

Lemma sweep_evicts (l : list (string * Daemon.SessionInfo))
    (m : gmap string Daemon.SessionInfo)
    (ev : list (string * Client.ProgressiveMCPClient))
    (k : string) (s : Daemon.SessionInfo) :
  (k, s) ∈ l -> Daemon.evictable w cfgs s = true ->
  fst (sweep (m, ev) l) !! k = None
  /\ (k, snd (Client.disconnect (Daemon.client s))) ∈ snd (sweep (m, ev) l).
Proof.
  revert m ev. induction l as [|[k' s'] l IH]; intros m ev Hin Hev.
  - apply elem_of_nil in Hin. contradiction.
  - assert (Hgrow : forall l' m' ev' x,
                      x ∈ ev' -> x ∈ snd (sweep (m', ev') l')).
    { clear. induction l' as [|[k0 s0] l' IH']; intros m' ev' x Hx; [exact Hx|].
      cbn [foldl]. rewrite cleanup_step_evictable.
      destruct (Daemon.evictable w cfgs s0); cbn [fst snd].
      - apply IH'. apply elem_of_app. left. exact Hx.
      - apply IH', Hx. }
    cbn [foldl]. rewrite cleanup_step_evictable.
    apply elem_of_cons in Hin as [Heq | Hin].
    + injection Heq as <- <-. rewrite Hev. cbn [fst snd]. split.
      * apply sweep_absent, lookup_delete_eq.
      * apply Hgrow. apply elem_of_app. right. apply list_elem_of_singleton.
        reflexivity.
    + destruct (Daemon.evictable w cfgs s'); apply IH; assumption.
Qed.

Lemma sweep_keeps (l : list (string * Daemon.SessionInfo))
    (m : gmap string Daemon.SessionInfo)
    (ev : list (string * Client.ProgressiveMCPClient)) (k : string) :
  (forall s, (k, s) ∈ l -> Daemon.evictable w cfgs s = false) ->
  fst (sweep (m, ev) l) !! k = m !! k
  /\ (k ∉ map fst ev -> k ∉ map fst (snd (sweep (m, ev) l))).
Proof.
  revert m ev. induction l as [|[k' s'] l IH]; intros m ev Hkeep.
  - split; [reflexivity | tauto].
  - cbn [foldl]. rewrite cleanup_step_evictable.
    assert (Hrest : forall s, (k, s) ∈ l -> Daemon.evictable w cfgs s = false).
    { intros s Hs. apply Hkeep. apply elem_of_cons. right. exact Hs. }
    destruct (Daemon.evictable w cfgs s') eqn:Hev; cbn [fst snd].
    + assert (Hne : k' <> k).
      { intros ->. rewrite (Hkeep s') in Hev; [discriminate|].
        apply elem_of_cons. left. reflexivity. }
      destruct (IH (delete k' m)
                  (ev ++ [(k', snd (Client.disconnect (Daemon.client s')))])%list
                  Hrest) as [Hlook Hev'].
      split.
      * rewrite Hlook. apply lookup_delete_ne. exact Hne.
      * intros Hnot. apply Hev'. rewrite map_app. cbn [map fst].
        intros Hin. apply elem_of_app in Hin as [Hin | Hin]; [tauto|].
        apply list_elem_of_singleton in Hin. congruence.
    + apply IH, Hrest.
Qed.

End Cleanup.

(** What the sweep does.  The sweep, which [startSessionCleanupTimer]
    schedules every five minutes, leaves every session for whose server
    [this.serverConfigs[name]] finds something (an own entry or an
    inherited member) in the session map and does not call [disconnect]
    on it, however long it has been idle; and it removes from the map,
    and calls [disconnect] on the client of, every session for whose
    server it finds nothing and whose last activity lies more than thirty
    minutes before the sweep. *)
Lemma sweep_spec (w : Daemon.World) (d : Daemon.MCPDaemon)
    (sessionId : string) (s : Daemon.SessionInfo) :
  Daemon.sessions d !! sessionId = Some s ->
  Daemon.CLEANUP_INTERVAL = 300000
  /\ Daemon.IDLE_TIMEOUT = 1800000
  /\ (is_Some (Daemon.lookup_config (Daemon.serverConfigs d) (Daemon.server s)) ->
      Daemon.sessions (fst (Daemon.cleanupIdleSessions w d)) !! sessionId = Some s
      /\ sessionId ∉ map fst (snd (Daemon.cleanupIdleSessions w d)))
  /\ (Daemon.lookup_config (Daemon.serverConfigs d) (Daemon.server s) = None ->
      Daemon.now w - Daemon.lastActivityAt s > 1800000 ->
      Daemon.sessions (fst (Daemon.cleanupIdleSessions w d)) !! sessionId = None
      /\ (sessionId, snd (Client.disconnect (Daemon.client s)))
           ∈ snd (Daemon.cleanupIdleSessions w d)).
Proof.
  intros Hs. split; [reflexivity|]. split; [reflexivity|].
  unfold Daemon.cleanupIdleSessions. cbn [fst snd Daemon.sessions Daemon.set_sessions].
  split.
  - intros [cfg Hcfg].
    destruct (sweep_keeps w (Daemon.serverConfigs d)
                (map_to_list (Daemon.sessions d)) (Daemon.sessions d) []
                sessionId) as [Hlook Hev].
    { intros s' Hs'. apply elem_of_map_to_list in Hs'.
      assert (s' = s) as -> by congruence.
      unfold Daemon.evictable. rewrite Hcfg. reflexivity. }
    split.
    + rewrite Hlook. exact Hs.
    + apply Hev. cbn [map]. apply not_elem_of_nil.
  - intros Hcfg Hidle.
    apply sweep_evicts.
    + apply elem_of_map_to_list. exact Hs.
    + unfold Daemon.evictable. rewrite Hcfg. apply Z.ltb_lt.
      change Daemon.IDLE_TIMEOUT with 1800000. lia.
Qed.

(** [sweep_spec] on the sample daemon after the reload: half an hour and a second
    after its last activity the unconfigured "alpha" is evicted, the
    configured "beta" is kept. *)
Lemma sweep_spec_sample :
  exists alpha beta : Daemon.SessionInfo,
    Daemon.sessions Sample.daemon2 !! "alpha" = Some alpha
    /\ Daemon.sessions Sample.daemon2 !! "beta" = Some beta
    /\ Daemon.lookup_config (Daemon.serverConfigs Sample.daemon2) "alpha" = None
    /\ is_Some (Daemon.lookup_config (Daemon.serverConfigs Sample.daemon2) "beta")
    /\ Daemon.sessions
         (fst (Daemon.cleanupIdleSessions
                 (Sample.world 1801001 Daemon.config_missing) Sample.daemon2))
         !! "alpha" = None
    /\ Daemon.sessions
         (fst (Daemon.cleanupIdleSessions
                 (Sample.world 1801001 Daemon.config_missing) Sample.daemon2))
         !! "beta" = Some beta.
Proof.
  destruct (Daemon.sessions Sample.daemon2 !! "alpha") as [alpha|] eqn:Halpha;
    [|vm_compute in Halpha; discriminate].
  destruct (Daemon.sessions Sample.daemon2 !! "beta") as [beta|] eqn:Hbeta;
    [|vm_compute in Hbeta; discriminate].
  exists alpha, beta.
  assert (Hserver_a : Daemon.server alpha = "alpha").
  { vm_compute in Halpha. injection Halpha as <-. reflexivity. }
  assert (Hserver_b : Daemon.server beta = "beta").
  { vm_compute in Hbeta. injection Hbeta as <-. reflexivity. }
  assert (Hlast : Daemon.lastActivityAt alpha = 1000).
  { vm_compute in Halpha. injection Halpha as <-. reflexivity. }
  assert (Hcfg_a : Daemon.lookup_config (Daemon.serverConfigs Sample.daemon2)
                     "alpha" = None) by reflexivity.
  assert (Hcfg_b : is_Some (Daemon.lookup_config
                              (Daemon.serverConfigs Sample.daemon2) "beta")).
  { eexists. reflexivity. }
  split; [reflexivity|]. split; [reflexivity|].
  split; [exact Hcfg_a|]. split; [exact Hcfg_b|].
  split.
  - apply (sweep_spec (Sample.world 1801001 Daemon.config_missing)
             Sample.daemon2 "alpha" alpha Halpha).
    + rewrite Hserver_a. exact Hcfg_a.
    + rewrite Hlast. cbn [Daemon.now Sample.world]. lia.
  - apply (sweep_spec (Sample.world 1801001 Daemon.config_missing)
             Sample.daemon2 "beta" beta Hbeta).
    rewrite Hserver_b. exact Hcfg_b.
Defined.

Lemma lookup_config_inherited (cfgs : list (string * MCPServerConfig))
    (name : string) :
  name ∈ Daemon.Object_prototype -> is_Some (Daemon.lookup_config cfgs name).
Proof.
  intros Hin. unfold Daemon.lookup_config.
  destruct (Daemon.own_config cfgs name); [eauto|].
  rewrite bool_decide_eq_true_2 by exact Hin. eauto.
Qed.

(** C4 at its failing input, in general.  A session whose server bears the
    name of a member of [Object.prototype] is never evicted: the sweep
    leaves it in the session map and does not call [disconnect] on it,
    however long it has been idle and whether or not the configuration
    has an entry for it, because [this.serverConfigs[session.server]]
    finds the inherited member and the loop takes the session for a
    configured one. *)
Theorem C4_inherited_name_is_never_evicted (w : Daemon.World)
    (d : Daemon.MCPDaemon) (sessionId : string) (s : Daemon.SessionInfo) :
  Daemon.sessions d !! sessionId = Some s ->
  Daemon.server s ∈ Daemon.Object_prototype ->
  Daemon.sessions (fst (Daemon.cleanupIdleSessions w d)) !! sessionId = Some s
  /\ sessionId ∉ map fst (snd (Daemon.cleanupIdleSessions w d)).
Proof.
  intros Hs Hname.
  unfold Daemon.cleanupIdleSessions.
  cbn [fst snd Daemon.sessions Daemon.set_sessions].
  destruct (sweep_keeps w (Daemon.serverConfigs d)
              (map_to_list (Daemon.sessions d)) (Daemon.sessions d) []
              sessionId) as [Hlook Hev].
  { intros s' Hs'. apply elem_of_map_to_list in Hs'.
    assert (s' = s) as -> by congruence.
    unfold Daemon.evictable.
    destruct (lookup_config_inherited (Daemon.serverConfigs d) (Daemon.server s)
                Hname) as [config ->].
    reflexivity. }
  split; [rewrite Hlook; exact Hs|].
  apply Hev. cbn [map]. apply not_elem_of_nil.
Qed.

(** C4 at its failing input: the servers "toString" and "beta" are
    connected at start-up, at time 1000; a reload finds only "beta"
    configured and leaves the session of "toString" registered; half an
    hour and a second after its last activity that session, for which
    the configuration has no entry, is still registered after the sweep. *)
Lemma C4_inherited_name_is_never_evicted_witness :
  Daemon.own_config (Daemon.serverConfigs Fixtures.prototype_daemon2) "toString"
  = None
  /\ exists s : Daemon.SessionInfo,
       Daemon.sessions Fixtures.prototype_daemon2 !! "toString" = Some s
       /\ Daemon.now (Sample.world 1801001 Daemon.config_missing)
          - Daemon.lastActivityAt s > 1800000
       /\ Daemon.sessions
            (fst (Daemon.cleanupIdleSessions
                    (Sample.world 1801001 Daemon.config_missing)
                    Fixtures.prototype_daemon2)) !! "toString" = Some s.
Proof.
  split; [reflexivity|].
  destruct (Daemon.sessions Fixtures.prototype_daemon2 !! "toString")
    as [s|] eqn:Hs; [|vm_compute in Hs; discriminate].
  assert (Hserver : Daemon.server s = "toString").
  { vm_compute in Hs. injection Hs as <-. reflexivity. }
  assert (Hlast : Daemon.lastActivityAt s = 1000).
  { vm_compute in Hs. injection Hs as <-. reflexivity. }
  exists s. split; [reflexivity|]. split.
  - rewrite Hlast. cbn [Daemon.now Sample.world]. lia.
  - apply (C4_inherited_name_is_never_evicted
             (Sample.world 1801001 Daemon.config_missing)
             Fixtures.prototype_daemon2 "toString" s Hs).
    rewrite Hserver. apply (bool_decide_unpack _). vm_compute. exact I.
Defined.

(** ** The daemon: reload *)

Lemma connect_new (o : nat) (sdk : Client.Sdk) (cfg : MCPServerConfig)
    (u : unit) (c' : Client.ProgressiveMCPClient) :
  Client.connect (Client.new_ProgressiveMCPClient o sdk cfg) = (Ok u, c') ->
  Client.oid c' = o /\ Client.isConnected c' = true.
Proof.
  unfold Client.connect. run_monad.
  cbn [Client.transport Client.new_ProgressiveMCPClient].
  destruct (Client.createTransport _) as [t|e]; [|discriminate].
  cbn [Client.client Client.config Client.new_ProgressiveMCPClient].
  destruct (Client.sdk_connect sdk t) as [hello|e]; [|discriminate].
  destruct (Client.sdk_listTools sdk) as [tools|e]; [|discriminate].
  intros Heq. injection Heq as _ <-. split; reflexivity.
Qed.

Lemma disconnect_oid (c : Client.ProgressiveMCPClient) :
  Client.oid (snd (Client.disconnect c)) = Client.oid c.
Proof.
  unfold Client.disconnect. run_monad.
  destruct (Client.transport c); [|reflexivity].
  cbn [Client.client Client.log_call].
  destruct (Client.sdk_close (Client.client c)); reflexivity.
Qed.

Lemma callTool_oid (toolName : string) (args : JSON)
    (c : Client.ProgressiveMCPClient) :
  Client.oid (snd (Client.callTool toolName args c)) = Client.oid c.
Proof.
  unfold Client.callTool. run_monad.
  destruct (negb (Client.isConnected c)); [reflexivity|].
  cbn [Client.client Client.log_call].
  destruct (Client.sdk_callTool _ _ _); reflexivity.
Qed.

Lemma fresh_session_mono (w : Daemon.World) (lo lo' hi' hi : nat)
    (s : Daemon.SessionInfo) :
  (lo <= lo')%nat -> (hi' <= hi)%nat ->
  Daemon.fresh_session w lo' hi' s -> Daemon.fresh_session w lo hi s.
Proof.
  intros Hlo Hhi (Hoid & Hconn & Hat). repeat split; [lia | lia | assumption..].
Qed.

Lemma connect_and_register_spec (w : Daemon.World) (serverName : string)
    (d d' : Daemon.MCPDaemon) (r : Result unit) :
  Daemon.connect_and_register w serverName d = (r, d') ->
  Daemon.serverConfigs d' = Daemon.serverConfigs d
  /\ (Daemon.created d <= Daemon.created d')%nat
  /\ match r with
     | Ok _ =>
       exists s, Daemon.sessions d' = <[serverName := s]> (Daemon.sessions d)
                 /\ Daemon.fresh_session w (Daemon.created d) (Daemon.created d') s
     | Throw _ => Daemon.sessions d' = Daemon.sessions d
     end.
Proof.
  unfold Daemon.connect_and_register. run_monad.
  destruct (Daemon.getServerConfig d serverName None) as [cfg|e].
  - destruct (Client.connect _) as [[u|e] c'] eqn:Hconnect.
    + intros Heq. injection Heq as <- <-.
      cbn [Daemon.serverConfigs Daemon.created Daemon.sessions
             Daemon.set_sessions Daemon.bump_created].
      split; [reflexivity|]. split; [lia|].
      eexists. split; [reflexivity|].
      apply connect_new in Hconnect as [Hoid Hconn].
      unfold Daemon.fresh_session. cbn [Daemon.client Daemon.createdAt].
      rewrite Hoid. repeat split; [lia | lia | exact Hconn].
    + intros Heq. injection Heq as <- <-.
      cbn [Daemon.serverConfigs Daemon.created Daemon.sessions
             Daemon.bump_created].
      repeat split; lia.
  - intros Heq. injection Heq as <- <-. repeat split; lia.
Qed.

Lemma try_reconnect_spec (w : Daemon.World) (serverName : string)
    (acc r : list string) (d d' : Daemon.MCPDaemon) :
  Daemon.try_reconnect w serverName acc d = (Ok r, d') ->
  Daemon.serverConfigs d' = Daemon.serverConfigs d
  /\ (Daemon.created d <= Daemon.created d')%nat
  /\ ((r = (acc ++ [serverName])%list
       /\ exists s, Daemon.sessions d' = <[serverName := s]> (Daemon.sessions d)
                    /\ Daemon.fresh_session w (Daemon.created d)
                         (Daemon.created d') s)
      \/ (r = acc /\ Daemon.sessions d' = Daemon.sessions d)).
Proof.
  unfold Daemon.try_reconnect. run_monad.
  destruct (Daemon.connect_and_register w serverName d) as [[u|e] d2] eqn:Hreg;
    intros Heq; injection Heq as <- <-;
    apply connect_and_register_spec in Hreg as (Hcfg & Hcreated & Hsess).
  - split; [exact Hcfg|]. split; [exact Hcreated|]. left. split; [reflexivity|].
    exact Hsess.
  - split; [exact Hcfg|]. split; [exact Hcreated|]. right. split; [reflexivity|].
    exact Hsess.
Qed.

Lemma reconnect_body_spec (w : Daemon.World) (serverName : string)
    (acc r : list string) (d d' : Daemon.MCPDaemon) :
  Daemon.reconnect_body w serverName acc d = (Ok r, d') ->
  Daemon.serverConfigs d' = Daemon.serverConfigs d
  /\ (Daemon.created d <= Daemon.created d')%nat
  /\ (forall k, k <> serverName ->
        Daemon.sessions d' !! k = Daemon.sessions d !! k)
  /\ ((r = (acc ++ [serverName])%list
       /\ exists s, Daemon.sessions d' !! serverName = Some s
                    /\ Daemon.fresh_session w (Daemon.created d)
                         (Daemon.created d') s)
      \/ (r = acc /\ Daemon.sessions d' !! serverName = None)).
Proof.
  assert (Hstep :
    forall d0 : Daemon.MCPDaemon,
      Daemon.serverConfigs d0 = Daemon.serverConfigs d ->
      Daemon.created d0 = Daemon.created d ->
      Daemon.sessions d0 = delete serverName (Daemon.sessions d) ->
      Daemon.try_reconnect w serverName acc d0 = (Ok r, d') ->
      Daemon.serverConfigs d' = Daemon.serverConfigs d
      /\ (Daemon.created d <= Daemon.created d')%nat
      /\ (forall k, k <> serverName ->
            Daemon.sessions d' !! k = Daemon.sessions d !! k)
      /\ ((r = (acc ++ [serverName])%list
           /\ exists s, Daemon.sessions d' !! serverName = Some s
                        /\ Daemon.fresh_session w (Daemon.created d)
                             (Daemon.created d') s)
          \/ (r = acc /\ Daemon.sessions d' !! serverName = None))).
  { intros d0 Hcfg Hcreated Hsessions Htry.
    apply try_reconnect_spec in Htry as (Hcfg2 & Hcreated2 & Hcases).
    split; [congruence|]. split; [lia|].
    destruct Hcases as [(-> & s & Hsess2 & Hfresh) | (-> & Hsess2)].
    - split.
      + intros k Hk. rewrite Hsess2, Hsessions.
        rewrite lookup_insert_ne by congruence. apply lookup_delete_ne. congruence.
      + left. split; [reflexivity|]. exists s. split.
        * rewrite Hsess2. apply lookup_insert_eq.
        * rewrite <- Hcreated. exact Hfresh.
    - split.
      + intros k Hk. rewrite Hsess2, Hsessions. apply lookup_delete_ne. congruence.
      + right. split; [reflexivity|]. rewrite Hsess2, Hsessions.
        apply lookup_delete_eq. }
  unfold Daemon.reconnect_body. run_monad.
  destruct (Daemon.sessions d !! serverName) as [existing|] eqn:Hexisting.
  - destruct (Client.disconnect (Daemon.client existing)) as [[u|e] c'];
      [|discriminate].
    apply Hstep; reflexivity.
  - apply Hstep; try reflexivity.
    symmetry. apply delete_id. exact Hexisting.
Qed.

Lemma reconnect_loop_spec (w : Daemon.World) (names : list string) :
  forall (acc r : list string) (d d' : Daemon.MCPDaemon),
    Daemon.reconnect_loop w names acc d = (Ok r, d') ->
    Daemon.serverConfigs d' = Daemon.serverConfigs d
    /\ (Daemon.created d <= Daemon.created d')%nat
    /\ (forall k, k ∉ names ->
          Daemon.sessions d' !! k = Daemon.sessions d !! k
          /\ (k ∈ r <-> k ∈ acc))
    /\ (forall (base : nat) (k : string) (s : Daemon.SessionInfo),
          (base <= Daemon.created d)%nat ->
          k ∈ names
          \/ (forall s0, Daemon.sessions d !! k = Some s0 ->
                         Daemon.fresh_session w base (Daemon.created d) s0) ->
          Daemon.sessions d' !! k = Some s ->
          Daemon.fresh_session w base (Daemon.created d') s)
    /\ (NoDup names -> (forall k, k ∈ names -> k ∉ acc) ->
        forall k, k ∈ names -> (k ∈ r <-> is_Some (Daemon.sessions d' !! k))).
Proof.
  induction names as [|n rest IH]; intros acc r d d' Hrun.
  - cbn [Daemon.reconnect_loop] in Hrun. unfold ret in Hrun.
    injection Hrun as <- <-.
    split; [reflexivity|]. split; [lia|]. split; [tauto|]. split.
    + intros base k s _ [Hin | Hfresh] Hs.
      * apply elem_of_nil in Hin. contradiction.
      * exact (Hfresh s Hs).
    + intros _ _ k Hin. apply elem_of_nil in Hin. contradiction.
  - cbn [Daemon.reconnect_loop] in Hrun. unfold bind in Hrun.
    destruct (Daemon.reconnect_body w n acc d) as [[r1|e] d1] eqn:Hbody;
      [|discriminate].
    apply reconnect_body_spec in Hbody as (Hcfg1 & Hcreated1 & Hother1 & Hcase1).
    destruct (IH r1 r d1 d' Hrun) as (Hcfg & Hcreated & Hout & Hfresh & Hlist).
    split; [congruence|]. split; [lia|].
    assert (Hr1 : forall k, k <> n -> (k ∈ r1 <-> k ∈ acc)).
    { intros k Hk.
      destruct Hcase1 as [(-> & _) | (-> & _)]; [|tauto].
      rewrite elem_of_app, list_elem_of_singleton. tauto. }
    split; [|split].
    + intros k Hk. apply not_elem_of_cons in Hk as [Hkn Hkrest].
      destruct (Hout k Hkrest) as [Hsess Hmem]. split.
      * rewrite Hsess. apply Hother1, Hkn.
      * rewrite Hmem. apply Hr1, Hkn.
    + intros base k s Hbase Hk Hs.
      apply (Hfresh base k s); [lia | | exact Hs].
      destruct (decide (k ∈ rest)) as [Hin | Hnotin]; [left; exact Hin|].
      right. intros s0 Hs0.
      destruct (decide (k = n)) as [-> | Hkn].
      * destruct Hcase1 as [(_ & s1 & Hs1 & Hfresh1) | (_ & Hnone)];
          [|congruence].
        assert (s0 = s1) as -> by congruence.
        apply (fresh_session_mono w base (Daemon.created d)
                 (Daemon.created d1) (Daemon.created d1) s1);
          [exact Hbase | lia | exact Hfresh1].
      * rewrite (Hother1 k Hkn) in Hs0.
        destruct Hk as [Hk | Hk].
        -- apply elem_of_cons in Hk as [Hk | Hk]; contradiction.
        -- apply (fresh_session_mono w base base (Daemon.created d)
                    (Daemon.created d1) s0); [lia | exact Hcreated1 |].
           exact (Hk s0 Hs0).
    + intros Hnodup Hacc k Hk.
      apply NoDup_cons in Hnodup as [Hn Hnodup].
      apply elem_of_cons in Hk as [-> | Hk].
      * destruct (Hout n Hn) as [Hsess Hmem]. rewrite Hsess, Hmem.
        assert (Hnacc : n ∉ acc). { apply Hacc. apply elem_of_cons. now left. }
        destruct Hcase1 as [(-> & s1 & Hs1 & _) | (-> & Hnone)].
        -- rewrite Hs1, elem_of_app, list_elem_of_singleton.
           split; [eauto | tauto].
        -- rewrite Hnone. split; [contradiction|].
           intros [x Hx]. discriminate.
      * apply Hlist; [exact Hnodup | | exact Hk].
        intros k' Hk' Hin.
        assert (Hne : k' <> n) by (intros ->; contradiction).
        apply (Hr1 k' Hne) in Hin.
        apply (Hacc k'); [apply elem_of_cons; now right | exact Hin].
Qed.

(** What a successful [reload] does.  When the action succeeds, the
    configuration has been replaced by the one found on disk (or the
    built-in default), and for every name of that configuration routing
    resolves either to no session or to a session whose client was
    constructed and connected during this reload, hence to none of the
    sessions that existed before it; the sessions of names that are not in
    the reloaded configuration are left as they were; the response
    carries one list, [reconnected], which holds exactly the configured
    names that now resolve to a session. *)
Lemma reload_spec (w : Daemon.World) (d d' : Daemon.MCPDaemon)
    (request : SocketCommand) (response : SocketResponse) :
  cmd_action request = Some "reload" ->
  Daemon.handleSocketRequest w request d = (Ok response, d') ->
  exists reconnected : list string,
    response = success_response (wire_id (cmd_id request))
                 (ReloadData "Configuration reloaded" reconnected)
    /\ Daemon.serverConfigs d'
       = match Daemon.config_file w with
         | Daemon.config_servers servers => servers
         | _ => Daemon.builtin_default
         end
    /\ (forall (name : string) (s : Daemon.SessionInfo),
          name ∈ map fst (Daemon.serverConfigs d') ->
          Daemon.sessions d' !! name = Some s ->
          Daemon.fresh_session w (Daemon.created d) (Daemon.created d') s
          /\ (Daemon.clients_known d ->
              forall (name0 : string) (s0 : Daemon.SessionInfo),
                Daemon.sessions d !! name0 = Some s0 ->
                Client.oid (Daemon.client s) <> Client.oid (Daemon.client s0)))
    /\ (forall name : string,
          name ∉ map fst (Daemon.serverConfigs d') ->
          Daemon.sessions d' !! name = Daemon.sessions d !! name)
    /\ (NoDup (map fst (Daemon.serverConfigs d')) ->
        forall name : string,
          name ∈ reconnected
          <-> name ∈ map fst (Daemon.serverConfigs d')
              /\ is_Some (Daemon.sessions d' !! name)).
Proof.
  intros Haction. unfold Daemon.handleSocketRequest. rewrite Haction.
  cbn [Daemon.is_action String.eqb Ascii.eqb Bool.eqb].
  unfold bind at 1.
  destruct (Daemon.loadServerConfigs w d) as [[u|e] d0] eqn:Hload;
    [|discriminate].
  assert (Hd0 : Daemon.sessions d0 = Daemon.sessions d
                /\ Daemon.created d0 = Daemon.created d
                /\ Daemon.serverConfigs d0
                   = match Daemon.config_file w with
                     | Daemon.config_servers servers => servers
                     | _ => Daemon.builtin_default
                     end).
  { unfold Daemon.loadServerConfigs in Hload.
    destruct (Daemon.config_file w); run_monad;
      (discriminate || injection Hload as _ <-); repeat split. }
  destruct Hd0 as (Hsess0 & Hcreated0 & Hcfg0).
  unfold bind at 1. unfold Daemon.reconnectServers. run_monad.
  destruct (Daemon.reconnect_loop w (map fst (Daemon.serverConfigs d0)) [] d0)
    as [[reconnected|e] d1] eqn:Hloop; [|discriminate].
  intros Heq. injection Heq as <- <-.
  apply reconnect_loop_spec in Hloop as (Hcfg & Hcreated & Hout & Hfresh & Hlist).
  exists reconnected. split; [reflexivity|].
  rewrite Hcfg. split; [exact Hcfg0|]. split; [|split].
  - intros name s Hname Hs.
    assert (Hf : Daemon.fresh_session w (Daemon.created d) (Daemon.created d1) s).
    { apply (Hfresh (Daemon.created d) name s);
        [lia | left; exact Hname | exact Hs]. }
    split; [exact Hf|].
    intros Hknown name0 s0 Hs0 Heq.
    specialize (Hknown name0 s0 Hs0). destruct Hf as ([Hlo _] & _). lia.
  - intros name Hname. rewrite <- Hsess0. apply Hout, Hname.
  - intros Hnodup name. split.
    + intros Hin.
      destruct (decide (name ∈ map fst (Daemon.serverConfigs d0))) as [Hname|Hname].
      * split; [exact Hname|]. apply Hlist; try assumption.
        intros k _. apply not_elem_of_nil.
      * apply Hout in Hname as [_ Hmem]. apply Hmem in Hin.
        apply elem_of_nil in Hin. contradiction.
    + intros [Hname Hsome]. apply Hlist; try assumption.
      intros k _. apply not_elem_of_nil.
Qed.

(** The hypothesis [clients_known] of [reload_spec] holds of the daemon as constructed
    and is kept by [preconnectServers]. *)
Lemma clients_known_preconnect_loop (w : Daemon.World) (names : list string)
    (d : Daemon.MCPDaemon) :
  Daemon.clients_known d ->
  Daemon.clients_known (snd (Daemon.preconnect_loop w names d)).
Proof.
  revert d. induction names as [|n rest IH]; intros d Hknown; [exact Hknown|].
  cbn [Daemon.preconnect_loop]. unfold bind, try_catch, ret.
  destruct (Daemon.connect_and_register w n d) as [[u|e] d1] eqn:Hreg;
    apply connect_and_register_spec in Hreg as (_ & Hcreated & Hsess);
    apply IH.
  - destruct Hsess as (s & Hsess & ([_ Hhi] & _)).
    intros k s0 Hs0. rewrite Hsess in Hs0.
    destruct (decide (n = k)) as [-> | Hne].
    + rewrite lookup_insert_eq in Hs0. injection Hs0 as <-. exact Hhi.
    + rewrite lookup_insert_ne in Hs0 by exact Hne.
      specialize (Hknown k s0 Hs0). lia.
  - intros k s0 Hs0. rewrite Hsess in Hs0. specialize (Hknown k s0 Hs0). lia.
Qed.

Lemma clients_known_preconnect (w : Daemon.World) (d : Daemon.MCPDaemon) :
  Daemon.clients_known d ->
  Daemon.clients_known (snd (Daemon.preconnectServers w d)).
Proof.
  intros Hknown. unfold Daemon.preconnectServers, bind, get.
  apply clients_known_preconnect_loop, Hknown.
Qed.

Lemma clients_known_sample : Daemon.clients_known Sample.daemon1.
Proof.
  apply clients_known_preconnect. intros name s Hs.
  cbn in Hs. rewrite lookup_empty in Hs. discriminate.
Qed.

(** [clients_known] is kept by every request. *)
Lemma clients_known_same (d d' : Daemon.MCPDaemon) :
  Daemon.sessions d' = Daemon.sessions d ->
  (Daemon.created d <= Daemon.created d')%nat ->
  Daemon.clients_known d -> Daemon.clients_known d'.
Proof.
  intros Hsess Hcreated Hknown k s Hs. rewrite Hsess in Hs.
  specialize (Hknown k s Hs). lia.
Qed.

Lemma clients_known_insert (d : Daemon.MCPDaemon) (k : string)
    (s : Daemon.SessionInfo) :
  (Client.oid (Daemon.client s) < Daemon.created d)%nat ->
  Daemon.clients_known d ->
  Daemon.clients_known (Daemon.set_sessions (<[k := s]> (Daemon.sessions d)) d).
Proof.
  intros Hs Hknown k' s' Hs'. cbn in Hs'.
  destruct (decide (k = k')) as [-> | Hne].
  - rewrite lookup_insert_eq in Hs'. injection Hs' as <-. exact Hs.
  - rewrite lookup_insert_ne in Hs' by exact Hne. exact (Hknown k' s' Hs').
Qed.

Lemma clients_known_delete (d : Daemon.MCPDaemon) (k : string) :
  Daemon.clients_known d ->
  Daemon.clients_known (Daemon.set_sessions (delete k (Daemon.sessions d)) d).
Proof.
  intros Hknown k' s' Hs'. cbn in Hs'.
  apply lookup_delete_Some in Hs' as [_ Hs']. exact (Hknown k' s' Hs').
Qed.

Lemma clients_known_register (w : Daemon.World) (n : string)
    (d : Daemon.MCPDaemon) :
  Daemon.clients_known d ->
  Daemon.clients_known (snd (Daemon.connect_and_register w n d)).
Proof.
  intros Hknown.
  destruct (Daemon.connect_and_register w n d) as [[u|e] d1] eqn:Hreg;
    apply connect_and_register_spec in Hreg as (_ & Hcreated & Hsess);
    cbn [snd].
  - destruct Hsess as (s & Hsess & ([_ Hhi] & _)).
    intros k s0 Hs0. rewrite Hsess in Hs0.
    destruct (decide (n = k)) as [-> | Hne].
    + rewrite lookup_insert_eq in Hs0. injection Hs0 as <-. exact Hhi.
    + rewrite lookup_insert_ne in Hs0 by exact Hne.
      specialize (Hknown k s0 Hs0). lia.
  - exact (clients_known_same d d1 Hsess Hcreated Hknown).
Qed.

Lemma clients_known_reconnect_body (w : Daemon.World) (n : string)
    (acc : list string) (d : Daemon.MCPDaemon) :
  Daemon.clients_known d ->
  Daemon.clients_known (snd (Daemon.reconnect_body w n acc d)).
Proof.
  intros Hknown.
  assert (Htry : forall d0, Daemon.clients_known d0 ->
            Daemon.clients_known (snd (Daemon.try_reconnect w n acc d0))).
  { intros d0 Hd0. unfold Daemon.try_reconnect. run_monad.
    pose proof (clients_known_register w n d0 Hd0) as Hreg.
    destruct (Daemon.connect_and_register w n d0) as [[u|e] d1]; exact Hreg. }
  unfold Daemon.reconnect_body. run_monad.
  destruct (Daemon.sessions d !! n) as [existing|] eqn:Hexisting.
  - pose proof (disconnect_oid (Daemon.client existing)) as Hoid.
    destruct (Client.disconnect (Daemon.client existing)) as [[u|e] c'];
      cbn [snd] in Hoid.
    + apply Htry, clients_known_delete, Hknown.
    + cbn [snd]. apply clients_known_insert; [|exact Hknown].
      cbn [Daemon.client Daemon.with_client]. rewrite Hoid.
      exact (Hknown n existing Hexisting).
  - apply Htry, Hknown.
Qed.

Lemma clients_known_reconnect_loop (w : Daemon.World) (names acc : list string)
    (d : Daemon.MCPDaemon) :
  Daemon.clients_known d ->
  Daemon.clients_known (snd (Daemon.reconnect_loop w names acc d)).
Proof.
  revert acc d. induction names as [|n rest IH]; intros acc d Hknown;
    [exact Hknown|].
  cbn [Daemon.reconnect_loop]. unfold bind.
  pose proof (clients_known_reconnect_body w n acc d Hknown) as Hbody.
  destruct (Daemon.reconnect_body w n acc d) as [[r1|e] d1]; cbn [snd] in *.
  - apply IH, Hbody.
  - exact Hbody.
Qed.

Lemma clients_known_request (w : Daemon.World) (request : SocketCommand)
    (d : Daemon.MCPDaemon) :
  Daemon.clients_known d ->
  Daemon.clients_known (snd (Daemon.handleSocketRequest w request d)).
Proof.
  intros Hknown. unfold Daemon.handleSocketRequest.
  destruct (Daemon.is_action (cmd_action request) "ping"); [exact Hknown|].
  destruct (Daemon.is_action (cmd_action request) "reload").
  { unfold bind at 1.
    assert (Hload : Daemon.clients_known (snd (Daemon.loadServerConfigs w d))).
    { unfold Daemon.loadServerConfigs.
      destruct (Daemon.config_file w); exact Hknown. }
    destruct (Daemon.loadServerConfigs w d) as [[u|e] d0]; cbn [snd] in Hload;
      [|exact Hload].
    unfold bind at 1. unfold Daemon.reconnectServers. run_monad.
    pose proof (clients_known_reconnect_loop w
                  (map fst (Daemon.serverConfigs d0)) [] d0 Hload) as Hloop.
    destruct (Daemon.reconnect_loop w _ [] d0) as [[r|e] d1]; exact Hloop. }
  destruct (Daemon.is_action (cmd_action request) "shutdown").
  { unfold Daemon.stop. run_monad. intros k s Hs.
    cbn [snd Daemon.sessions Daemon.created Daemon.set_listening
           Daemon.set_sessions] in Hs |- *.
    rewrite lookup_fmap in Hs.
    destruct (Daemon.sessions d !! k) as [s0|] eqn:Hs0; [|discriminate].
    injection Hs as <-. cbn [Daemon.client Daemon.with_client].
    rewrite disconnect_oid. exact (Hknown k s0 Hs0). }
  run_monad.
  destruct (cmd_server request ≫= _) as [found|] eqn:Hfound; [|exact Hknown].
  assert (Hoid : (Client.oid (Daemon.client found) < Daemon.created d)%nat).
  { destruct (cmd_server request) as [name|]; [|discriminate].
    exact (Hknown name found Hfound). }
  pose proof (clients_known_insert d (show (cmd_server request))
                (Daemon.touch (Daemon.now w) found) Hoid Hknown) as Htouched.
  destruct (Daemon.is_action (cmd_action request) "metadata").
  { destruct (Client.getCachedMetadata _); exact Htouched. }
  destruct (Daemon.is_action (cmd_action request) "list").
  { destruct (Client.listTools _).1; exact Htouched. }
  destruct (Daemon.is_action (cmd_action request) "schema").
  { destruct (negb (truthy (cmd_tool request))); [exact Htouched|].
    destruct (Client.getToolSchema _ _).1; exact Htouched. }
  destruct (Daemon.is_action (cmd_action request) "call").
  { destruct (negb (truthy (cmd_tool request))); [exact Htouched|].
    match goal with
    | |- context [Client.callTool ?n ?a ?c] =>
      pose proof (callTool_oid n a c) as Hcall;
      destruct (Client.callTool n a c) as [result c']
    end.
    cbn [snd] in Hcall.
    assert (Hknown' : Daemon.clients_known
              (Daemon.set_sessions
                 (<[show (cmd_server request) :=
                      Daemon.with_client c' (Daemon.touch (Daemon.now w) found)]>
                    (Daemon.sessions
                       (Daemon.set_sessions
                          (<[show (cmd_server request) :=
                               Daemon.touch (Daemon.now w) found]>
                             (Daemon.sessions d)) d)))
                 (Daemon.set_sessions
                    (<[show (cmd_server request) :=
                         Daemon.touch (Daemon.now w) found]>
                       (Daemon.sessions d)) d))).
    { apply clients_known_insert; [|exact Htouched].
      cbn [Daemon.client Daemon.with_client Daemon.created Daemon.set_sessions].
      rewrite Hcall. exact Hoid. }
    destruct result; exact Hknown'. }
  destruct (Daemon.is_action (cmd_action request) "health"); [exact Htouched|].
  destruct (Daemon.is_action (cmd_action request) "sessions"); exact Htouched.
Qed.

(** [reload_spec] on the sample daemon: the reload that finds only "beta"
    configured. *)
Lemma reload_spec_sample :
  Daemon.handleSocketRequest
    (Sample.world 2000 (Daemon.config_servers Sample.only_beta))
    (Sample.request "7" "reload" None None) Sample.daemon1
  = (Ok (success_response (id_string "7")
           (ReloadData "Configuration reloaded" ["beta"])), Sample.daemon2)
  /\ exists reconnected : list string,
       success_response (id_string "7")
         (ReloadData "Configuration reloaded" ["beta"])
       = success_response (id_string "7")
           (ReloadData "Configuration reloaded" reconnected)
       /\ Daemon.serverConfigs Sample.daemon2 = Sample.only_beta
       /\ (forall (name : string) (s : Daemon.SessionInfo),
             name ∈ map fst (Daemon.serverConfigs Sample.daemon2) ->
             Daemon.sessions Sample.daemon2 !! name = Some s ->
             Daemon.fresh_session
               (Sample.world 2000 (Daemon.config_servers Sample.only_beta))
               (Daemon.created Sample.daemon1) (Daemon.created Sample.daemon2) s
             /\ (Daemon.clients_known Sample.daemon1 ->
                 forall (name0 : string) (s0 : Daemon.SessionInfo),
                   Daemon.sessions Sample.daemon1 !! name0 = Some s0 ->
                   Client.oid (Daemon.client s)
                   <> Client.oid (Daemon.client s0)))
       /\ (forall name : string,
             name ∉ map fst (Daemon.serverConfigs Sample.daemon2) ->
             Daemon.sessions Sample.daemon2 !! name
             = Daemon.sessions Sample.daemon1 !! name)
       /\ (NoDup (map fst (Daemon.serverConfigs Sample.daemon2)) ->
           forall name : string,
             name ∈ reconnected
             <-> name ∈ map fst (Daemon.serverConfigs Sample.daemon2)
                 /\ is_Some (Daemon.sessions Sample.daemon2 !! name)).
Proof.
  assert (Hrun :
    Daemon.handleSocketRequest
      (Sample.world 2000 (Daemon.config_servers Sample.only_beta))
      (Sample.request "7" "reload" None None) Sample.daemon1
    = (Ok (success_response (id_string "7")
             (ReloadData "Configuration reloaded" ["beta"])), Sample.daemon2)).
  { vm_compute. reflexivity. }
  split; [exact Hrun|].
  exact (reload_spec (Sample.world 2000 (Daemon.config_servers Sample.only_beta))
           Sample.daemon1 Sample.daemon2
           (Sample.request "7" "reload" None None) _ eq_refl Hrun).
Defined.

(** C1 at its failing input, in general.  A [reload] that succeeds
    leaves every session whose name is no longer in the configuration as
    it was: after the reload that name still resolves to the session that
    existed before it, with the client object it had, which was not
    disconnected, and a [health] request to it is answered by that
    session; and the response carries the one list [reconnected], in
    which the name does not occur, not a list of the names before and a
    list of the names after. *)
Theorem C1_reload_keeps_dropped_session (w w' : Daemon.World)
    (d d' : Daemon.MCPDaemon) (request request' : SocketCommand)
    (response : SocketResponse) (name : string) (stale : Daemon.SessionInfo) :
  cmd_action request = Some "reload" ->
  Daemon.handleSocketRequest w request d = (Ok response, d') ->
  Daemon.sessions d !! name = Some stale ->
  name ∉ map fst (Daemon.serverConfigs d') ->
  cmd_action request' = Some "health" ->
  cmd_server request' = Some name ->
  Daemon.sessions d' !! name = Some stale
  /\ (exists reconnected : list string,
        response = success_response (wire_id (cmd_id request))
                     (ReloadData "Configuration reloaded" reconnected)
        /\ name ∉ reconnected)
  /\ fst (Daemon.handleSocketRequest w' request' d')
     = Ok (success_response (wire_id (cmd_id request'))
             (HealthData "healthy" name (Daemon.createdAt stale)
                ((Daemon.now w' - Daemon.createdAt stale) / 1000))).
Proof.
  intros Haction Hrun Hstale Hdropped Haction' Hserver'.
  assert (Hkept : Daemon.sessions d' !! name = Some stale
                  /\ exists reconnected : list string,
                       response = success_response (wire_id (cmd_id request))
                                    (ReloadData "Configuration reloaded"
                                       reconnected)
                       /\ name ∉ reconnected).
  { unfold Daemon.handleSocketRequest in Hrun. rewrite Haction in Hrun.
    cbn [Daemon.is_action String.eqb Ascii.eqb Bool.eqb] in Hrun.
    unfold bind at 1 in Hrun.
    destruct (Daemon.loadServerConfigs w d) as [[u|e] d0] eqn:Hload;
      [|discriminate].
    assert (Hsess0 : Daemon.sessions d0 = Daemon.sessions d).
    { unfold Daemon.loadServerConfigs in Hload.
      destruct (Daemon.config_file w); run_monad;
        (discriminate || injection Hload as _ <-); reflexivity. }
    unfold bind at 1 in Hrun. unfold Daemon.reconnectServers in Hrun.
    run_monad.
    destruct (Daemon.reconnect_loop w (map fst (Daemon.serverConfigs d0)) [] d0)
      as [[reconnected|e] d1] eqn:Hloop; [|discriminate].
    injection Hrun as <- <-.
    apply reconnect_loop_spec in Hloop as (Hcfg & _ & Hout & _).
    rewrite Hcfg in Hdropped. destruct (Hout name Hdropped) as [Hsame Hmem].
    split; [congruence|]. exists reconnected. split; [reflexivity|].
    intros Hin. apply Hmem in Hin. apply elem_of_nil in Hin. exact Hin. }
  destruct Hkept as [Hsession Hresponse].
  split; [exact Hsession|]. split; [exact Hresponse|].
  unfold Daemon.handleSocketRequest. rewrite Haction', Hserver'.
  cbn [Daemon.is_action String.eqb Ascii.eqb Bool.eqb]. run_monad.
  cbn [mbind option_bind]. rewrite Hsession. reflexivity.
Qed.

(** C1 at its failing input: "alpha" and "beta" are connected at
    start-up; the configuration file is changed to hold only "beta"; the
    reload succeeds and reports the one list ["beta"]; afterwards "alpha"
    still resolves to the session that existed before the reload, which
    answers [health] with the time of the start-up. *)
Lemma C1_reload_keeps_dropped_session_witness :
  Daemon.handleSocketRequest
    (Sample.world 2000 (Daemon.config_servers Sample.only_beta))
    (Sample.request "7" "reload" None None) Sample.daemon1
  = (Ok (success_response (id_string "7")
           (ReloadData "Configuration reloaded" ["beta"])), Sample.daemon2)
  /\ is_Some (Daemon.sessions Sample.daemon1 !! "alpha")
  /\ Daemon.sessions Sample.daemon2 !! "alpha"
     = Daemon.sessions Sample.daemon1 !! "alpha"
  /\ fst (Daemon.handleSocketRequest
            (Sample.world 3000 (Daemon.config_servers Sample.only_beta))
            (Sample.request "8" "health" (Some "alpha") None) Sample.daemon2)
     = Ok (success_response (id_string "8")
             (HealthData "healthy" "alpha" 1000 2)).
Proof.
  assert (Hrun :
    Daemon.handleSocketRequest
      (Sample.world 2000 (Daemon.config_servers Sample.only_beta))
      (Sample.request "7" "reload" None None) Sample.daemon1
    = (Ok (success_response (id_string "7")
             (ReloadData "Configuration reloaded" ["beta"])), Sample.daemon2)).
  { vm_compute. reflexivity. }
  destruct (Daemon.sessions Sample.daemon1 !! "alpha") as [stale|] eqn:Hstale;
    [|vm_compute in Hstale; discriminate].
  assert (Hcreated : Daemon.createdAt stale = 1000).
  { vm_compute in Hstale. injection Hstale as <-. reflexivity. }
  assert (Hdropped : "alpha" ∉ map fst (Daemon.serverConfigs Sample.daemon2)).
  { apply (bool_decide_unpack _). vm_compute. exact I. }
  destruct (C1_reload_keeps_dropped_session
              (Sample.world 2000 (Daemon.config_servers Sample.only_beta))
              (Sample.world 3000 (Daemon.config_servers Sample.only_beta))
              Sample.daemon1 Sample.daemon2
              (Sample.request "7" "reload" None None)
              (Sample.request "8" "health" (Some "alpha") None)
              _ "alpha" stale eq_refl Hrun Hstale Hdropped eq_refl eq_refl)
    as (Hkept & _ & Hhealth).
  split; [exact Hrun|]. split; [eauto|]. split; [exact Hkept|].
  rewrite Hhealth, Hcreated. reflexivity.
Defined.

(** ** The transports *)

Lemma stdio_callback_frame (t : Stdio.StdioTransport) :
  Stdio.pendingRequests (Stdio.force_kill_callback t) = Stdio.pendingRequests t
  /\ Stdio.settled (Stdio.force_kill_callback t) = Stdio.settled t
  /\ Stdio.process (Stdio.force_kill_callback t) = Stdio.process t.
Proof.
  unfold Stdio.force_kill_callback.
  destruct (Stdio.process t) as [h|] eqn:Hp; [|now rewrite Hp].
  destruct (Stdio.children t !! h) as [p|]; [|now rewrite Hp].
  destruct (negb (Stdio.killed p)); [|now rewrite Hp].
  cbn. now rewrite Hp.
Qed.

Lemma stdio_callbacks_frame {A : Type} (due : list A) (t : Stdio.StdioTransport) :
  Stdio.pendingRequests (foldl (fun t _ => Stdio.force_kill_callback t) t due)
    = Stdio.pendingRequests t
  /\ Stdio.settled (foldl (fun t _ => Stdio.force_kill_callback t) t due)
     = Stdio.settled t
  /\ Stdio.process (foldl (fun t _ => Stdio.force_kill_callback t) t due)
     = Stdio.process t.
Proof.
  revert t. induction due as [|x due IH]; intros t; [repeat split|].
  cbn [foldl]. destruct (IH (Stdio.force_kill_callback t)) as (Hp & Hs & Hproc).
  destruct (stdio_callback_frame t) as (Hp1 & Hs1 & Hproc1).
  repeat split; congruence.
Qed.

(** The passage of time settles no promise of a stdio transport and takes
    nothing out of its pending map. *)
Lemma stdio_advance_frame (ms : Z) (t : Stdio.StdioTransport) :
  Stdio.pendingRequests (Stdio.advance ms t) = Stdio.pendingRequests t
  /\ Stdio.settled (Stdio.advance ms t) = Stdio.settled t.
Proof.
  unfold Stdio.advance.
  match goal with
  | |- context [foldl _ ?t0 ?due] =>
    destruct (stdio_callbacks_frame due t0) as (Hp & Hs & _)
  end.
  rewrite Hp, Hs. split; reflexivity.
Qed.

Lemma stdio_callbacks_no_process {A : Type} (due : list A)
    (t : Stdio.StdioTransport) :
  Stdio.process t = None ->
  foldl (fun t _ => Stdio.force_kill_callback t) t due = t.
Proof.
  intros Hnone. induction due as [|x due IH]; [reflexivity|].
  cbn [foldl]. unfold Stdio.force_kill_callback at 2. rewrite Hnone. exact IH.
Qed.

(** Once [this.process] is [null], the timeouts that come due change no
    child process. *)
Lemma stdio_advance_no_process (ms : Z) (t : Stdio.StdioTransport) :
  Stdio.process t = None ->
  Stdio.children (Stdio.advance ms t) = Stdio.children t.
Proof.
  intros Hnone. unfold Stdio.advance.
  rewrite stdio_callbacks_no_process; [reflexivity | exact Hnone].
Qed.

Lemma stdio_disconnect_process (t : Stdio.StdioTransport) :
  Stdio.process (Stdio.disconnect t) = None.
Proof.
  unfold Stdio.disconnect.
  destruct (Stdio.process t) eqn:Hp; [reflexivity | exact Hp].
Qed.

(** A stdio request stays pending, whatever time passes. *)
Lemma stdio_request_never_times_out (t t1 : Stdio.StdioTransport)
    (method : string) (params : option JSON) (id ms : Z) :
  Stdio.sendRequest method params t = (Ok id, t1) ->
  id ∈ Stdio.pendingRequests (Stdio.advance ms t1)
  /\ Stdio.settled (Stdio.advance ms t1) = Stdio.settled t.
Proof.
  unfold Stdio.sendRequest.
  destruct (Stdio.process t) as [h|]; [|discriminate].
  intros Heq. injection Heq as <- <-.
  destruct (stdio_advance_frame ms
              (Stdio.on_child h
                 (Stdio.write_stdin
                    {| rpc_id := Stdio.requestId t + 1; rpc_method := method;
                       rpc_params := params |})
                 (Stdio.set_pending
                    ({[Stdio.requestId t + 1]} ∪ Stdio.pendingRequests t)
                    (Stdio.set_requestId (Stdio.requestId t + 1) t))))
    as [Hp Hs].
  rewrite Hp, Hs. cbn. split; [|reflexivity].
  apply elem_of_union_l, elem_of_singleton. reflexivity.
Qed.

(** Responses are matched to pending calls by id, in any order; a
    response that matches no pending id is discarded. *)
Lemma stdio_response_correlation (t : Stdio.StdioTransport)
    (response : JSONRPCResponse) :
  (res_id response ∈ Stdio.pendingRequests t ->
   Stdio.pendingRequests (Stdio.handleResponse response t)
     = Stdio.pendingRequests t ∖ {[res_id response]}
   /\ Stdio.settled (Stdio.handleResponse response t)
      = (Stdio.settled t ++ [(res_id response, settlement_of response)])%list)
  /\ (res_id response ∉ Stdio.pendingRequests t ->
      Stdio.handleResponse response t = t).
Proof.
  unfold Stdio.handleResponse. split; intros Hin; case_decide; try contradiction.
  - split; reflexivity.
  - reflexivity.
Qed.

Lemma sse_callback_keeps (id id' : Z) (t : Sse.SseTransport) :
  Sse.timed_out id t -> Sse.timed_out id (Sse.timeout_callback id' t).
Proof.
  intros [Hp Hs]. unfold Sse.timeout_callback. case_decide; [|now split].
  split; cbn.
  - intros [Hin _]%elem_of_difference. contradiction.
  - apply elem_of_app. now left.
Qed.

Lemma sse_callback_own (id : Z) (t : Sse.SseTransport) :
  id ∈ Sse.pendingRequests t \/ Sse.timed_out id t ->
  Sse.timed_out id (Sse.timeout_callback id t).
Proof.
  intros [Hin | Hout].
  - unfold Sse.timeout_callback. case_decide; [|contradiction].
    split; cbn.
    + intros [_ Hnot]%elem_of_difference. apply Hnot, elem_of_singleton.
      reflexivity.
    + apply elem_of_app. right. apply list_elem_of_singleton. reflexivity.
  - apply sse_callback_keeps, Hout.
Qed.

Lemma sse_callbacks_keep (id : Z) (due : list (Z * Z)) (t : Sse.SseTransport) :
  Sse.timed_out id t ->
  Sse.timed_out id (foldl (fun t tm => Sse.timeout_callback (snd tm) t) t due).
Proof.
  revert t. induction due as [|tm due IH]; intros t Ht; [exact Ht|].
  cbn [foldl]. apply IH, sse_callback_keeps, Ht.
Qed.

Lemma sse_callbacks_fire (id : Z) (due : list (Z * Z)) (t : Sse.SseTransport) :
  id ∈ map snd due ->
  id ∈ Sse.pendingRequests t \/ Sse.timed_out id t ->
  Sse.timed_out id (foldl (fun t tm => Sse.timeout_callback (snd tm) t) t due).
Proof.
  revert t. induction due as [|[d id'] due IH]; intros t Hin Hpre.
  - apply elem_of_nil in Hin. contradiction.
  - cbn [foldl snd]. cbn [map snd] in Hin.
    destruct (decide (id' = id)) as [-> | Hne].
    + apply sse_callbacks_keep, sse_callback_own, Hpre.
    + apply elem_of_cons in Hin as [Hin | Hin]; [congruence|].
      apply IH; [exact Hin|].
      destruct Hpre as [Hp | Hout].
      * left. unfold Sse.timeout_callback. case_decide; [|exact Hp].
        cbn. apply elem_of_difference. split; [exact Hp|].
        intros Heq%elem_of_singleton. congruence.
      * right. apply sse_callback_keeps, Hout.
Qed.

(** The sibling: on the SSE transport a request that is still pending when
    its deadline passes is rejected with "Request timeout". *)
Lemma sse_request_times_out (t t1 : Sse.SseTransport) (method : string)
    (params : option JSON) (id : Z) :
  Sse.sendRequest method params t = (Ok id, t1) ->
  Sse.timed_out id (Sse.advance (timer_delay (Sse.timeout t1)) t1).
Proof.
  unfold Sse.sendRequest.
  destruct (Sse.eventSource t) as [[| |]|]; try discriminate.
  intros Heq. injection Heq as <- <-.
  unfold Sse.advance. cbn [Sse.timers Sse.clock Sse.timeout].
  apply sse_callbacks_fire.
  - rewrite List.filter_app, map_app. apply elem_of_app. right.
    cbn [List.filter fst snd].
    rewrite (proj2 (Z.leb_le _ _) (Z.le_refl _)).
    cbn [map snd]. apply list_elem_of_singleton. reflexivity.
  - left. cbn. apply elem_of_union_l, elem_of_singleton. reflexivity.
Qed.

Example sse_default_deadline :
  Sse.timeout (Sse.new_SseTransport "http://localhost:3000/sse" None) = 30000.
Proof. reflexivity. Qed.

(** The generic request of the progressive client sets no timer either,
    and its one-time handlers nest: with two calls outstanding, the
    response to the first call meets the handler of the second and is
    dropped, so the first call is never settled. *)
Example client_request_response_lost :
  let first := (6800000000001 # 4)%Q in
  let second := (6800000000002 # 4)%Q in
  let t2 :=
    snd (GenericRequest.sendRequest true second None "tools/list" None
           (snd (GenericRequest.sendRequest true first None "tools/list" None
                   GenericRequest.new_transport))) in
  let answer (i : Q) :=
    {| GenericRequest.msg_id := i; GenericRequest.msg_result := Some JNull;
       GenericRequest.msg_error := None |} in
  GenericRequest.deliver (answer first) t2 = t2
  /\ GenericRequest.settled
       (GenericRequest.deliver (answer first)
          (GenericRequest.deliver (answer second)
             (GenericRequest.deliver (answer first) t2)))
     = [(second, Resolved (Some JNull)); (first, Resolved (Some JNull))]
  /\ GenericRequest.settled
       (GenericRequest.deliver (answer second)
          (GenericRequest.deliver (answer first) t2))
     = [(second, Resolved (Some JNull))].
Proof. repeat split. Qed.

(** C2 at its failing input. A stdio transport is connected to a child
    that never answers; [sendRequest] returns the promise of request 1, and
    however many milliseconds pass, request 1 is still pending and its
    promise has met no [reject]: there is no timeout. *)
Theorem C2_stdio_request_hangs (ms : nat) :
  fst (Stdio.sendRequest "tools/list" None Stdio.sample_connected) = Ok 1
  /\ 1 ∈ Stdio.pendingRequests
           (Stdio.advance (Z.of_nat ms)
              (snd (Stdio.sendRequest "tools/list" None Stdio.sample_connected)))
  /\ outcome 1
       (Stdio.settled
          (Stdio.advance (Z.of_nat ms)
             (snd (Stdio.sendRequest "tools/list" None Stdio.sample_connected))))
     = None.
Proof.
  split; [reflexivity|].
  destruct (stdio_request_never_times_out Stdio.sample_connected
              (snd (Stdio.sendRequest "tools/list" None Stdio.sample_connected))
              "tools/list" None 1 (Z.of_nat ms) eq_refl) as [Hp Hs].
  split; [exact Hp|]. rewrite Hs. reflexivity.
Qed.

(** After [disconnect] the child that was connected has been sent SIGTERM
    and nothing else, whatever time passes: the callback of the two-second
    timeout finds [this.process] cleared. *)
Lemma stdio_disconnect_only_sigterm (t : Stdio.StdioTransport) (h : nat)
    (p : Stdio.ChildProcess) (ms : Z) :
  Stdio.process t = Some h ->
  Stdio.children t !! h = Some p ->
  Stdio.exited p = false ->
  exists p' : Stdio.ChildProcess,
    Stdio.children (Stdio.advance ms (Stdio.disconnect t)) !! h = Some p'
    /\ Stdio.signals p' = (Stdio.signals p ++ [Stdio.SIGTERM])%list
    /\ Stdio.exited p' = false.
Proof.
  intros Hprocess Hchild Hexited.
  rewrite stdio_advance_no_process by apply stdio_disconnect_process.
  unfold Stdio.disconnect. rewrite Hprocess.
  assert (Hsame : (if Stdio.win32 t
                   then Stdio.on_child h (Stdio.kill Stdio.SIGTERM) t
                   else Stdio.on_child h (Stdio.kill Stdio.SIGTERM) t)
                  = Stdio.on_child h (Stdio.kill Stdio.SIGTERM) t).
  { destruct (Stdio.win32 t); reflexivity. }
  rewrite Hsame. cbn.
  rewrite !list_lookup_alter, Hchild. cbn.
  rewrite !decide_True by reflexivity. cbn.
  eexists. split; [reflexivity|].
  unfold Stdio.kill. rewrite Hexited. split; reflexivity.
Qed.

(** When the transport is connected again within the two seconds, the
    callback finds the new child in [this.process] and kills that one. *)
Example stdio_force_kill_hits_new_child :
  map Stdio.signals
    (Stdio.children
       (Stdio.advance 2000
          (Stdio.connect (Stdio.disconnect Stdio.sample_connected))))
  = [[Stdio.SIGTERM]; [Stdio.SIGKILL]].
Proof. reflexivity. Qed.

(** C7 at its failing input. A stdio transport on a POSIX platform is
    connected to a child that ignores SIGTERM; [disconnect] sends SIGTERM,
    and however many milliseconds pass afterwards (the two-second timeout
    included) the child has received nothing else and has not exited: the
    force kill never happens. *)
Theorem C7_stdio_disconnect_never_force_kills (ms : nat) :
  Stdio.process Stdio.sample_connected = Some 0%nat
  /\ Stdio.children Stdio.sample_connected = [Stdio.spawned]
  /\ Stdio.timers (Stdio.disconnect Stdio.sample_connected) = [(0%nat, 2000)]
  /\ exists child : Stdio.ChildProcess,
       Stdio.children
         (Stdio.advance (Z.of_nat ms) (Stdio.disconnect Stdio.sample_connected))
       = [child]
       /\ Stdio.signals child = [Stdio.SIGTERM]
       /\ Stdio.exited child = false.
Proof.
  split; [reflexivity|]. split; [reflexivity|]. split; [reflexivity|].
  rewrite stdio_advance_no_process by apply stdio_disconnect_process.
  eexists. split; [reflexivity|]. split; reflexivity.
Qed.

(** The network half of C7 holds: [disconnect] closes the SSE channel. *)
Lemma sse_disconnect_closes (t : Sse.SseTransport) :
  Sse.eventSource (Sse.disconnect t) = None.
Proof.
  unfold Sse.disconnect. destruct (Sse.eventSource t) eqn:He; cbn; congruence.
Qed.

(** ** The socket client *)

Lemma transmitted_app (a b : list SocketClient.NetOp) :
  SocketClient.transmitted (a ++ b)
  = (SocketClient.transmitted a ++ SocketClient.transmitted b)%list.
Proof. unfold SocketClient.transmitted. apply omap_app. Qed.

(** C10. [send] on a client that is not connected first makes the
    connection attempt.  When the attempt succeeds the command, completed
    with the next id, is written to the new socket right after it was
    opened, and [send] fails only if that write itself fails; when the
    attempt fails, with an error or by the connection timeout, [send]
    fails with the error of the attempt, nothing is written and no request
    is registered. *)
Theorem C10_send_connects_first (c : SocketClient.SocketClient)
    (attempt : SocketClient.ConnectOutcome) (write_error : option string)
    (command : SocketCommand) :
  SocketClient.connected c = false ->
  exists c' : SocketClient.SocketClient,
    snd (SocketClient.send attempt write_error command c) = c'
    /\ match attempt with
       | SocketClient.connect_event =>
         fst (SocketClient.send attempt write_error command c)
         = match write_error with
           | None => Ok (pretty (SocketClient.requestId c + 1))
           | Some e => Throw e
           end
         /\ SocketClient.connected c' = true
         /\ SocketClient.net c'
            = (SocketClient.net c ++
               [SocketClient.createConnection (SocketClient.sockets_created c)
                  (SocketClient.getSocketPath (SocketClient.isWindows c)
                     (SocketClient.tmpdir c) (SocketClient.session c));
                SocketClient.socket_write (SocketClient.sockets_created c)
                  {| cmd_id := Some (pretty (SocketClient.requestId c + 1));
                     cmd_action := cmd_action command;
                     cmd_server := cmd_server command;
                     cmd_tool := cmd_tool command;
                     cmd_arguments := cmd_arguments command |}])%list
       | SocketClient.error_event message =>
         fst (SocketClient.send attempt write_error command c)
         = Throw ("Failed to connect to daemon: " +:+ message)
         /\ SocketClient.transmitted (SocketClient.net c')
            = SocketClient.transmitted (SocketClient.net c)
         /\ SocketClient.requestId c' = SocketClient.requestId c
         /\ SocketClient.pendingRequests c' = SocketClient.pendingRequests c
       | SocketClient.no_event =>
         fst (SocketClient.send attempt write_error command c)
         = Throw "Connection timeout"
         /\ SocketClient.transmitted (SocketClient.net c')
            = SocketClient.transmitted (SocketClient.net c)
         /\ SocketClient.requestId c' = SocketClient.requestId c
         /\ SocketClient.pendingRequests c' = SocketClient.pendingRequests c
       end.
Proof.
  intros Hconn. eexists. split; [reflexivity|].
  unfold SocketClient.send, SocketClient.connect. run_monad.
  rewrite Hconn. cbn [negb orb].
  destruct attempt as [|message|]; cbn; rewrite Hconn; cbn.
  - destruct write_error as [e|]; cbn; repeat split;
      rewrite <- app_assoc; reflexivity.
  - repeat split. rewrite transmitted_app. cbn. apply app_nil_r.
  - repeat split. rewrite !transmitted_app. cbn. rewrite !app_nil_r. reflexivity.
Qed.

(** C10 on a new client: the first [send] opens the socket and writes the
    command with id 1. *)
Lemma C10_send_connects_first_witness :
  SocketClient.connected SocketClient.sample_client = false
  /\ exists c' : SocketClient.SocketClient,
       snd (SocketClient.send SocketClient.connect_event None
              (Sample.request "" "ping" None None) SocketClient.sample_client)
       = c'
       /\ fst (SocketClient.send SocketClient.connect_event None
                 (Sample.request "" "ping" None None) SocketClient.sample_client)
          = Ok "1"
       /\ SocketClient.connected c' = true
       /\ SocketClient.net c'
          = [SocketClient.createConnection 0
               (SocketClient.unix_address "/tmp/mcp-daemon-default.sock");
             SocketClient.socket_write 0 (Sample.request "1" "ping" None None)].
Proof.
  split; [reflexivity|].
  destruct (C10_send_connects_first SocketClient.sample_client
              SocketClient.connect_event None
              (Sample.request "" "ping" None None) eq_refl)
    as (c' & Hsnd & Hfst & Hconn & Hnet).
  exists c'. split; [exact Hsnd|]. split; [exact Hfst|].
  split; [exact Hconn|]. rewrite Hnet. reflexivity.
Defined.

(** * Further properties of the code *)

(** ** The progressive client: connecting and disconnecting *)

Lemma cached_tool_eta (tools : list Client.CachedTool) :
  map (fun tool => {| Client.tool_name := Client.tool_name tool;
                      Client.tool_description := Client.tool_description tool;
                      Client.tool_inputSchema := Client.tool_inputSchema tool |})
    tools = tools.
Proof.
  induction tools as [|[n d i] tools IH]; [reflexivity|].
  cbn [map Client.tool_name Client.tool_description Client.tool_inputSchema].
  now rewrite IH.
Qed.

(** X1. Once [connect] has created its transport it is never attempted
    again: whatever the first call returned, even a failed handshake or a
    failed catalogue fetch, the client reports connected and a second
    [connect] returns successfully without a request to the provider. *)
Theorem X1_connect_not_retried (c : Client.ProgressiveMCPClient)
    (t : Client.Transport) :
  Client.transport c = None ->
  Client.createTransport c = Ok t ->
  Client.isConnected (snd (Client.connect c)) = true
  /\ Client.connect (snd (Client.connect c)) = (Ok tt, snd (Client.connect c))
  /\ (forall e, Client.sdk_connect (Client.client c) t = Throw e ->
        fst (Client.connect c) = Throw e
        /\ Client._metadata (snd (Client.connect c)) = Client._metadata c
        /\ Client._toolsCache (snd (Client.connect c)) = Client._toolsCache c).
Proof.
  intros Hnone Hcreate.
  assert (Htransport : Client.transport (snd (Client.connect c)) = Some t).
  { unfold Client.connect. run_monad. rewrite Hnone, Hcreate.
    destruct (Client.sdk_connect (Client.client c) t) as [hello|e]; [|reflexivity].
    destruct (Client.sdk_listTools (Client.client c)); reflexivity. }
  split; [unfold Client.isConnected; now rewrite Htransport|].
  split.
  - unfold Client.connect at 1. run_monad. rewrite Htransport. reflexivity.
  - intros e He. unfold Client.connect. run_monad.
    rewrite Hnone, Hcreate, He. repeat split.
Qed.

(** X1 on a client whose provider refuses the handshake. *)
Lemma X1_connect_not_retried_witness :
  Client.transport Fixtures.refused_client = None
  /\ fst (Client.connect Fixtures.refused_client) = Throw "ECONNREFUSED"
  /\ Client.isConnected (snd (Client.connect Fixtures.refused_client)) = true
  /\ Client.connect (snd (Client.connect Fixtures.refused_client))
     = (Ok tt, snd (Client.connect Fixtures.refused_client)).
Proof.
  split; [reflexivity|]. split; [reflexivity|].
  destruct (X1_connect_not_retried Fixtures.refused_client
              (Client.StdioClientTransport "echo-server" None None)
              eq_refl eq_refl) as (Hconn & Hagain & _).
  split; [exact Hconn | exact Hagain].
Defined.

(** X2. A [connect] that succeeds on a new client has asked the provider
    for the handshake and for the tool list once each, in that order; the
    cache is the provider's list, the metadata are the provider's name and
    version (or "unknown" and "0.0.0"), and the description is the
    configured one if there is one and absent otherwise. *)
Theorem X2_connect_caches_catalog (o : nat) (sdk : Client.Sdk)
    (cfg : MCPServerConfig) (t : Client.Transport) (hello : Client.ServerHello)
    (tools : list Client.CachedTool) :
  Client.createTransport (Client.new_ProgressiveMCPClient o sdk cfg) = Ok t ->
  Client.sdk_connect sdk t = Ok hello ->
  Client.sdk_listTools sdk = Ok tools ->
  exists (c' : Client.ProgressiveMCPClient) (m : MCPServerMetadata),
    Client.connect (Client.new_ProgressiveMCPClient o sdk cfg) = (Ok tt, c')
    /\ Client.transport c' = Some t
    /\ Client._toolsCache c' = tools
    /\ Client.sdk_log c' = [Client.SdkConnect; Client.SdkListTools]
    /\ Client.getCachedMetadata c' = Some m
    /\ meta_name m = match Client.serverVersion hello with
                     | Some (n, _) => n | None => "unknown" end
    /\ meta_version m = match Client.serverVersion hello with
                        | Some (_, v) => v | None => "0.0.0" end
    /\ meta_description m = (if truthy (cfg_description cfg)
                             then cfg_description cfg else None)
    /\ fst (Client.listTools c') = Ok (map Client.tool_info tools).
Proof.
  intros Hcreate Hhello Htools.
  eexists. eexists.
  unfold Client.connect. run_monad.
  cbn [Client.transport Client.new_ProgressiveMCPClient].
  rewrite Hcreate.
  cbn [Client.client Client.config Client.new_ProgressiveMCPClient].
  rewrite Hhello, Htools. rewrite cached_tool_eta.
  split; [reflexivity|]. repeat split.
Qed.

(** X2 on the sample provider, with a configured description. *)
Lemma X2_connect_caches_catalog_witness :
  exists (c' : Client.ProgressiveMCPClient) (m : MCPServerMetadata),
    Client.connect
      (Client.new_ProgressiveMCPClient 0 Sample.good_sdk Fixtures.shouting_config)
    = (Ok tt, c')
    /\ Client._toolsCache c' = [Sample.echo_tool; Sample.add_tool]
    /\ Client.sdk_log c' = [Client.SdkConnect; Client.SdkListTools]
    /\ Client.getCachedMetadata c' = Some m
    /\ meta_name m = "echo-server"
    /\ meta_description m = Some "Documentation search".
Proof.
  destruct (X2_connect_caches_catalog 0 Sample.good_sdk Fixtures.shouting_config
              (Client.SSEClientTransport "http://localhost:3000/sse" None)
              {| Client.serverVersion := Some ("echo-server", "1.0.0");
                 Client.serverCapabilities := None |}
              [Sample.echo_tool; Sample.add_tool] eq_refl eq_refl eq_refl)
    as (c' & m & Hc & _ & Hcache & Hlog & Hm & Hname & _ & Hdesc & _).
  exists c', m. repeat split; assumption.
Defined.

(** X3. After a [disconnect] that could close the transport (or found
    none) the client is not connected, its metadata and its catalogue are
    gone, and every layer, [listTools], [getToolSchema] and [callTool],
    fails with the not-connected error without a request to the provider. *)
Theorem X3_disconnect_then_not_connected (c : Client.ProgressiveMCPClient)
    (toolName : string) (args : JSON) :
  Client.transport c = None \/ Client.sdk_close (Client.client c) = Ok tt ->
  fst (Client.disconnect c) = Ok tt
  /\ Client.isConnected (snd (Client.disconnect c)) = false
  /\ Client.getCachedMetadata (snd (Client.disconnect c)) = None
  /\ Client._toolsCache (snd (Client.disconnect c)) = []
  /\ Client.listTools (snd (Client.disconnect c))
     = (Throw Client.not_connected_message, snd (Client.disconnect c))
  /\ Client.getToolSchema toolName (snd (Client.disconnect c))
     = (Throw Client.not_connected_message, snd (Client.disconnect c))
  /\ Client.callTool toolName args (snd (Client.disconnect c))
     = (Throw Client.not_connected_message, snd (Client.disconnect c)).
Proof.
  intros Hclose.
  assert (Hstate : fst (Client.disconnect c) = Ok tt
                   /\ Client.transport (snd (Client.disconnect c)) = None
                   /\ Client._metadata (snd (Client.disconnect c)) = None
                   /\ Client._toolsCache (snd (Client.disconnect c)) = []).
  { unfold Client.disconnect. run_monad.
    destruct (Client.transport c) as [t|] eqn:Ht.
    - destruct Hclose as [Hnone | Hok]; [discriminate|].
      cbn [Client.client Client.log_call]. rewrite Hok. repeat split.
    - repeat split. cbn. exact Ht. }
  destruct Hstate as (Hres & Htransport & Hmeta & Hcache).
  split; [exact Hres|].
  assert (Hconn : Client.isConnected (snd (Client.disconnect c)) = false).
  { unfold Client.isConnected. now rewrite Htransport. }
  split; [exact Hconn|]. split; [exact Hmeta|]. split; [exact Hcache|].
  unfold Client.listTools, Client.getToolSchema, Client.callTool. run_monad.
  rewrite Hconn. repeat split.
Qed.

(** X3 on the sample client. *)
Lemma X3_disconnect_then_not_connected_witness :
  Client.sdk_close (Client.client Sample.connected_client) = Ok tt
  /\ Client.isConnected Sample.connected_client = true
  /\ Client.isConnected (snd (Client.disconnect Sample.connected_client)) = false
  /\ fst (Client.listTools (snd (Client.disconnect Sample.connected_client)))
     = Throw "Not connected to server, please call connect() first".
Proof.
  split; [reflexivity|]. split; [reflexivity|].
  destruct (X3_disconnect_then_not_connected Sample.connected_client "echo" JNull
              (or_intror eq_refl)) as (_ & Hconn & _ & _ & Hlist & _).
  split; [exact Hconn|]. rewrite Hlist. reflexivity.
Defined.

(** X4. When the transport cannot be closed, [disconnect] fails with the
    error of the close and clears nothing: the client stays connected and
    keeps its metadata and its catalogue, so the views keep answering. *)
Theorem X4_failed_close_keeps_cache (c : Client.ProgressiveMCPClient)
    (t : Client.Transport) (e : string) :
  Client.transport c = Some t ->
  Client.sdk_close (Client.client c) = Throw e ->
  fst (Client.disconnect c) = Throw e
  /\ Client.isConnected (snd (Client.disconnect c)) = true
  /\ Client.getCachedMetadata (snd (Client.disconnect c))
     = Client.getCachedMetadata c
  /\ Client._toolsCache (snd (Client.disconnect c)) = Client._toolsCache c
  /\ fst (Client.listTools (snd (Client.disconnect c)))
     = fst (Client.listTools c).
Proof.
  intros Ht He.
  assert (Hstate : Client.disconnect c
                   = (Throw e, Client.log_call Client.SdkClose c)).
  { unfold Client.disconnect. run_monad. rewrite Ht.
    cbn [Client.client Client.log_call]. rewrite He. reflexivity. }
  rewrite Hstate. cbn [fst snd].
  split; [reflexivity|].
  unfold Client.isConnected, Client.listTools. run_monad.
  unfold Client.isConnected. cbn. rewrite Ht. repeat split.
Qed.

(** X4 on a client whose transport cannot be closed. *)
Lemma X4_failed_close_keeps_cache_witness :
  Client.sdk_close (Client.client Fixtures.stuck_client) = Throw "close failed"
  /\ fst (Client.disconnect Fixtures.stuck_client) = Throw "close failed"
  /\ Client._toolsCache (snd (Client.disconnect Fixtures.stuck_client))
     = [Sample.echo_tool].
Proof.
  split; [reflexivity|].
  destruct (X4_failed_close_keeps_cache Fixtures.stuck_client
              (Client.StdioClientTransport "echo-server" None None)
              "close failed" eq_refl eq_refl) as (Hres & _ & _ & Hcache & _).
  split; [exact Hres|]. rewrite Hcache. reflexivity.
Defined.

(** ** The progressive client: choosing the transport *)

Lemma truthy_inv (o : option string) :
  truthy o = true -> exists s, o = Some s /\ s <> "" /\ show o = s.
Proof.
  destruct o as [s|]; [|discriminate]. cbn [truthy show]. intros H.
  exists s. repeat split. apply negb_true_iff, String.eqb_neq in H. exact H.
Qed.

(** X5. [createTransport] never builds a transport without what it needs:
    a stdio transport carries the configured, non-empty command with the
    configured arguments and environment; an http or sse transport carries
    the configured, non-empty URL, which the [URL] constructor accepted,
    with the configured headers. *)
Theorem X5_transport_has_its_parameter (c : Client.ProgressiveMCPClient)
    (t : Client.Transport) :
  Client.createTransport c = Ok t ->
  match t with
  | Client.StdioClientTransport command args env =>
    cfg_command (Client.config c) = Some command /\ command <> ""
    /\ args = cfg_args (Client.config c) /\ env = cfg_env (Client.config c)
  | Client.StreamableHTTPClientTransport url headers
  | Client.SSEClientTransport url headers =>
    cfg_url (Client.config c) = Some url /\ url <> ""
    /\ Client.new_URL (Client.client c) url = Ok tt
    /\ headers = cfg_headers (Client.config c)
  end.
Proof.
  unfold Client.createTransport. cbv zeta.
  assert (Hbody : forall ty : string,
    (if String.eqb ty "stdio"
     then if negb (truthy (cfg_command (Client.config c)))
          then Throw "stdio transport requires command parameter"
          else Ok (Client.StdioClientTransport
                     (show (cfg_command (Client.config c)))
                     (cfg_args (Client.config c)) (cfg_env (Client.config c)))
     else if String.eqb ty "http"
     then if negb (truthy (cfg_url (Client.config c)))
          then Throw "http transport requires url parameter"
          else match Client.new_URL (Client.client c)
                       (show (cfg_url (Client.config c))) with
               | Ok _ => Ok (Client.StreamableHTTPClientTransport
                               (show (cfg_url (Client.config c)))
                               (cfg_headers (Client.config c)))
               | Throw e => Throw e
               end
     else if String.eqb ty "sse"
     then if negb (truthy (cfg_url (Client.config c)))
          then Throw "sse transport requires url parameter"
          else match Client.new_URL (Client.client c)
                       (show (cfg_url (Client.config c))) with
               | Ok _ => Ok (Client.SSEClientTransport
                               (show (cfg_url (Client.config c)))
                               (cfg_headers (Client.config c)))
               | Throw e => Throw e
               end
     else Throw ("Unsupported transport type: " +:+ ty
                 +:+ ". Supported types: stdio, http, sse")) = Ok t ->
    match t with
    | Client.StdioClientTransport command args env =>
      cfg_command (Client.config c) = Some command /\ command <> ""
      /\ args = cfg_args (Client.config c) /\ env = cfg_env (Client.config c)
    | Client.StreamableHTTPClientTransport url headers
    | Client.SSEClientTransport url headers =>
      cfg_url (Client.config c) = Some url /\ url <> ""
      /\ Client.new_URL (Client.client c) url = Ok tt
      /\ headers = cfg_headers (Client.config c)
    end).
  { intros ty.
    destruct (String.eqb ty "stdio").
    - destruct (truthy (cfg_command (Client.config c))) eqn:Hcmd;
        cbn [negb]; [|discriminate].
      intros Heq. injection Heq as <-.
      apply truthy_inv in Hcmd as (cmd & Hsome & Hne & Hshow).
      rewrite Hshow. repeat split; assumption.
    - destruct (String.eqb ty "http").
      + destruct (truthy (cfg_url (Client.config c))) eqn:Hurl;
          cbn [negb]; [|discriminate].
        destruct (Client.new_URL _ _) as [[]|e] eqn:Hnew; [|discriminate].
        intros Heq. injection Heq as <-.
        apply truthy_inv in Hurl as (url & Hsome & Hne & Hshow).
        rewrite Hshow in *. repeat split; assumption.
      + destruct (String.eqb ty "sse"); [|discriminate].
        destruct (truthy (cfg_url (Client.config c))) eqn:Hurl;
          cbn [negb]; [|discriminate].
        destruct (Client.new_URL _ _) as [[]|e] eqn:Hnew; [|discriminate].
        intros Heq. injection Heq as <-.
        apply truthy_inv in Hurl as (url & Hsome & Hne & Hshow).
        rewrite Hshow in *. repeat split; assumption. }
  destruct (truthy (Client.toLowerCase <$> cfg_type (Client.config c)));
    [apply Hbody|].
  destruct (truthy (cfg_command (Client.config c))); [apply Hbody|].
  destruct (truthy (cfg_url (Client.config c))); [apply Hbody | discriminate].
Qed.

(** X5 on a configuration for the sse transport. *)
Lemma X5_transport_has_its_parameter_witness :
  Client.createTransport
    (Client.new_ProgressiveMCPClient 0 Sample.good_sdk Fixtures.shouting_config)
  = Ok (Client.SSEClientTransport "http://localhost:3000/sse" None)
  /\ cfg_url Fixtures.shouting_config = Some "http://localhost:3000/sse"
  /\ "http://localhost:3000/sse" <> "".
Proof.
  split; [reflexivity|].
  destruct (X5_transport_has_its_parameter
              (Client.new_ProgressiveMCPClient 0 Sample.good_sdk
                 Fixtures.shouting_config)
              (Client.SSEClientTransport "http://localhost:3000/sse" None)
              eq_refl) as (Hurl & Hne & _).
  split; [exact Hurl | exact Hne].
Defined.

(** X6. The kind of the transport [createTransport] builds is the [type]
    of the configuration in lower case, whatever its capitals, when a type
    is given; without a type it is stdio when there is a command, whatever
    else is configured, otherwise http when there are headers and sse when
    there are none. *)
Theorem X6_transport_kind (c : Client.ProgressiveMCPClient) (t : Client.Transport) :
  Client.createTransport c = Ok t ->
  Fixtures.kind t
  = if truthy (Client.toLowerCase <$> cfg_type (Client.config c))
    then show (Client.toLowerCase <$> cfg_type (Client.config c))
    else if truthy (cfg_command (Client.config c)) then "stdio"
    else match cfg_headers (Client.config c) with
         | Some _ => "http"
         | None => "sse"
         end.
Proof.
  unfold Client.createTransport. cbv zeta.
  assert (Hbody : forall ty : string,
    (if String.eqb ty "stdio"
     then if negb (truthy (cfg_command (Client.config c)))
          then Throw "stdio transport requires command parameter"
          else Ok (Client.StdioClientTransport
                     (show (cfg_command (Client.config c)))
                     (cfg_args (Client.config c)) (cfg_env (Client.config c)))
     else if String.eqb ty "http"
     then if negb (truthy (cfg_url (Client.config c)))
          then Throw "http transport requires url parameter"
          else match Client.new_URL (Client.client c)
                       (show (cfg_url (Client.config c))) with
               | Ok _ => Ok (Client.StreamableHTTPClientTransport
                               (show (cfg_url (Client.config c)))
                               (cfg_headers (Client.config c)))
               | Throw e => Throw e
               end
     else if String.eqb ty "sse"
     then if negb (truthy (cfg_url (Client.config c)))
          then Throw "sse transport requires url parameter"
          else match Client.new_URL (Client.client c)
                       (show (cfg_url (Client.config c))) with
               | Ok _ => Ok (Client.SSEClientTransport
                               (show (cfg_url (Client.config c)))
                               (cfg_headers (Client.config c)))
               | Throw e => Throw e
               end
     else Throw ("Unsupported transport type: " +:+ ty
                 +:+ ". Supported types: stdio, http, sse")) = Ok t ->
    Fixtures.kind t = ty).
  { intros ty.
    destruct (String.eqb ty "stdio") eqn:Hstdio.
    - apply String.eqb_eq in Hstdio as ->.
      destruct (negb (truthy (cfg_command (Client.config c)))); [discriminate|].
      intros Heq. injection Heq as <-. reflexivity.
    - destruct (String.eqb ty "http") eqn:Hhttp.
      + apply String.eqb_eq in Hhttp as ->.
        destruct (negb (truthy (cfg_url (Client.config c)))); [discriminate|].
        destruct (Client.new_URL _ _); [|discriminate].
        intros Heq. injection Heq as <-. reflexivity.
      + destruct (String.eqb ty "sse") eqn:Hsse; [|discriminate].
        apply String.eqb_eq in Hsse as ->.
        destruct (negb (truthy (cfg_url (Client.config c)))); [discriminate|].
        destruct (Client.new_URL _ _); [|discriminate].
        intros Heq. injection Heq as <-. reflexivity. }
  destruct (truthy (Client.toLowerCase <$> cfg_type (Client.config c)));
    [apply Hbody|].
  destruct (truthy (cfg_command (Client.config c))); [apply Hbody|].
  destruct (truthy (cfg_url (Client.config c))); [|discriminate].
  destruct (cfg_headers (Client.config c)); apply Hbody.
Qed.

(** X6 on a configuration that spells its type in capitals. *)
Lemma X6_transport_kind_witness :
  cfg_type Fixtures.shouting_config = Some "SSE"
  /\ Client.createTransport
       (Client.new_ProgressiveMCPClient 0 Sample.good_sdk Fixtures.shouting_config)
     = Ok (Client.SSEClientTransport "http://localhost:3000/sse" None)
  /\ Fixtures.kind (Client.SSEClientTransport "http://localhost:3000/sse" None)
     = "sse".
Proof.
  split; [reflexivity|]. split; [reflexivity|].
  exact (X6_transport_kind
           (Client.new_ProgressiveMCPClient 0 Sample.good_sdk
              Fixtures.shouting_config)
           (Client.SSEClientTransport "http://localhost:3000/sse" None) eq_refl).
Defined.

(** ** The progressive client: generic requests *)

(** X7. The one-time handlers of [sendRequest] nest.  A call that is
    alone is settled by the response carrying its id, and the handler it
    replaced comes back; but while a later call is outstanding the
    response to the earlier call is handed to the later call's handler and
    dropped, and only the response to the later call gets through. *)
Theorem X7_nested_handlers (t : GenericRequest.TransportObject) (a b : Q)
    (m1 m2 : string) (p1 p2 : option JSON) (ra rb : option JSON) :
  Qeq_bool a b = false ->
  let answer (i : Q) (r : option JSON) :=
    {| GenericRequest.msg_id := i; GenericRequest.msg_result := r;
       GenericRequest.msg_error := None |} in
  let t1 := snd (GenericRequest.sendRequest true a None m1 p1 t) in
  let t2 := snd (GenericRequest.sendRequest true b None m2 p2 t1) in
  GenericRequest.settled (GenericRequest.deliver (answer a ra) t1)
    = (GenericRequest.settled t ++ [(a, Resolved ra)])%list
  /\ GenericRequest.onmessage (GenericRequest.deliver (answer a ra) t1)
     = GenericRequest.onmessage t
  /\ GenericRequest.deliver (answer a ra) t2 = t2
  /\ GenericRequest.settled (GenericRequest.deliver (answer b rb) t2)
     = (GenericRequest.settled t ++ [(b, Resolved rb)])%list
  /\ GenericRequest.onmessage (GenericRequest.deliver (answer b rb) t2)
     = GenericRequest.one_time a (GenericRequest.onmessage t).
Proof.
  intros Hab answer t1 t2.
  assert (Haa : Qeq_bool a a = true) by (apply Qeq_bool_iff; reflexivity).
  assert (Hbb : Qeq_bool b b = true) by (apply Qeq_bool_iff; reflexivity).
  unfold t2, t1, answer, GenericRequest.deliver, GenericRequest.sendRequest.
  cbn. rewrite Haa, Hab, Hbb. cbn. repeat split.
Qed.

(** X7 with two ids drawn in the same millisecond. *)
Lemma X7_nested_handlers_witness :
  Qeq_bool (6800000000001 # 4) (6800000000002 # 4) = false
  /\ GenericRequest.deliver
       {| GenericRequest.msg_id := 6800000000001 # 4;
          GenericRequest.msg_result := Some JNull;
          GenericRequest.msg_error := None |}
       (snd (GenericRequest.sendRequest true (6800000000002 # 4) None
               "tools/call" None
               (snd (GenericRequest.sendRequest true (6800000000001 # 4) None
                       "tools/list" None GenericRequest.new_transport))))
     = snd (GenericRequest.sendRequest true (6800000000002 # 4) None
              "tools/call" None
              (snd (GenericRequest.sendRequest true (6800000000001 # 4) None
                      "tools/list" None GenericRequest.new_transport))).
Proof.
  split; [reflexivity|].
  exact (proj1 (proj2 (proj2
    (X7_nested_handlers GenericRequest.new_transport
       (6800000000001 # 4) (6800000000002 # 4) "tools/list" "tools/call"
       None None (Some JNull) (Some JNull) eq_refl)))).
Defined.

(** ** The daemon: bootstrap *)

Lemma connect_and_register_unfold (w : Daemon.World) (n : string)
    (d : Daemon.MCPDaemon) :
  Daemon.connect_and_register w n d
  = match Daemon.getServerConfig d n None with
    | Throw e => (Throw e, d)
    | Ok cfg =>
      match Client.connect
              (Client.new_ProgressiveMCPClient (Daemon.created d)
                 (Daemon.sdk_of w (Daemon.created d)) cfg) with
      | (Throw e, _) => (Throw e, Daemon.bump_created d)
      | (Ok _, c') =>
        (Ok tt,
         Daemon.set_sessions
           (<[n := {| Daemon.id := n; Daemon.server := n; Daemon.client := c';
                      Daemon.createdAt := Daemon.now w;
                      Daemon.lastActivityAt := Daemon.now w |}]>
              (Daemon.sessions d))
           (Daemon.bump_created d))
      end
    end.
Proof.
  unfold Daemon.connect_and_register. run_monad.
  destruct (Daemon.getServerConfig d n None) as [cfg|e]; [|reflexivity].
  destruct (Client.connect _) as [[u|e] c']; reflexivity.
Qed.

Lemma getServerConfig_same (d d' : Daemon.MCPDaemon) (n : string)
    (env : option (list (string * string))) :
  Daemon.serverConfigs d' = Daemon.serverConfigs d ->
  Daemon.getServerConfig d' n env = Daemon.getServerConfig d n env.
Proof. intros H. unfold Daemon.getServerConfig. now rewrite H. Qed.

Lemma preconnect_loop_lookup (w : Daemon.World) (names : list string) :
  forall d : Daemon.MCPDaemon,
    NoDup names ->
    (forall n, n ∈ names -> exists cfg, Daemon.getServerConfig d n None = Ok cfg) ->
    fst (Daemon.preconnect_loop w names d) = Ok tt
    /\ Daemon.serverConfigs (snd (Daemon.preconnect_loop w names d))
       = Daemon.serverConfigs d
    /\ (forall k, k ∉ names ->
          Daemon.sessions (snd (Daemon.preconnect_loop w names d)) !! k
          = Daemon.sessions d !! k)
    /\ (forall (i : nat) (n : string) (cfg : MCPServerConfig),
          names !! i = Some n ->
          Daemon.getServerConfig d n None = Ok cfg ->
          Daemon.sessions (snd (Daemon.preconnect_loop w names d)) !! n
          = match Client.connect
                    (Client.new_ProgressiveMCPClient (Daemon.created d + i)
                       (Daemon.sdk_of w (Daemon.created d + i)) cfg) with
            | (Ok _, c') =>
              Some {| Daemon.id := n; Daemon.server := n; Daemon.client := c';
                      Daemon.createdAt := Daemon.now w;
                      Daemon.lastActivityAt := Daemon.now w |}
            | (Throw _, _) => Daemon.sessions d !! n
            end).
Proof.
  induction names as [|n0 rest IH]; intros d Hnodup Hcfg.
  - repeat split. intros i n cfg Hi. destruct i; discriminate.
  - apply NoDup_cons in Hnodup as [Hn0 Hnodup].
    destruct (Hcfg n0 ltac:(apply elem_of_cons; now left)) as [cfg0 Hcfg0].
    cbn [Daemon.preconnect_loop]. unfold bind, try_catch, ret.
    rewrite connect_and_register_unfold, Hcfg0.
    set (d1 := match Client.connect
                       (Client.new_ProgressiveMCPClient (Daemon.created d)
                          (Daemon.sdk_of w (Daemon.created d)) cfg0) with
               | (Ok _, c') =>
                 Daemon.set_sessions
                   (<[n0 := {| Daemon.id := n0; Daemon.server := n0;
                               Daemon.client := c';
                               Daemon.createdAt := Daemon.now w;
                               Daemon.lastActivityAt := Daemon.now w |}]>
                      (Daemon.sessions d))
                   (Daemon.bump_created d)
               | (Throw _, _) => Daemon.bump_created d
               end).
    assert (Hrun :
      (let (r, s') :=
         let (r0, s'0) :=
           match Client.connect
                   (Client.new_ProgressiveMCPClient (Daemon.created d)
                      (Daemon.sdk_of w (Daemon.created d)) cfg0) with
           | (Ok _, c') =>
             (Ok tt,
              Daemon.set_sessions
                (<[n0 := {| Daemon.id := n0; Daemon.server := n0;
                            Daemon.client := c';
                            Daemon.createdAt := Daemon.now w;
                            Daemon.lastActivityAt := Daemon.now w |}]>
                   (Daemon.sessions d))
                (Daemon.bump_created d))
           | (Throw e, _) => (Throw e, Daemon.bump_created d)
           end in
         match r0 with
         | Ok a => (Ok a, s'0)
         | Throw _ => (Ok tt, s'0)
         end in
       match r with
       | Ok _ => Daemon.preconnect_loop w rest s'
       | Throw e => (Throw e, s')
       end) = Daemon.preconnect_loop w rest d1).
    { unfold d1. destruct (Client.connect _) as [[u|e] c']; reflexivity. }
    rewrite Hrun.
    assert (Hcfg1 : Daemon.serverConfigs d1 = Daemon.serverConfigs d).
    { unfold d1. destruct (Client.connect _) as [[u|e] c']; reflexivity. }
    assert (Hcreated1 : Daemon.created d1 = S (Daemon.created d)).
    { unfold d1. destruct (Client.connect _) as [[u|e] c']; reflexivity. }
    assert (Hother1 : forall k, k <> n0 ->
              Daemon.sessions d1 !! k = Daemon.sessions d !! k).
    { intros k Hk. unfold d1.
      destruct (Client.connect _) as [[u|e] c']; cbn; [|reflexivity].
      apply lookup_insert_ne. congruence. }
    destruct (IH d1 Hnodup) as (Hres & Hsame & Hout & Hin).
    { intros n Hn. destruct (Hcfg n) as [cfg Hc]; [apply elem_of_cons; now right|].
      exists cfg. rewrite <- Hc. apply getServerConfig_same, Hcfg1. }
    split; [exact Hres|]. split; [congruence|]. split.
    + intros k Hk. apply not_elem_of_cons in Hk as [Hk0 Hk].
      rewrite (Hout k Hk). apply Hother1, Hk0.
    + intros [|i] n cfg Hi Hc.
      * cbn in Hi. injection Hi as <-.
        assert (cfg = cfg0) as -> by congruence.
        rewrite (Hout n0 Hn0), Nat.add_0_r. unfold d1.
        destruct (Client.connect _) as [[u|e] c']; cbn; [|reflexivity].
        apply lookup_insert_eq.
      * cbn in Hi.
        assert (Hne : n <> n0).
        { intros ->. apply Hn0. apply list_elem_of_lookup. eauto. }
        rewrite (Hin i n cfg Hi).
        -- rewrite Hcreated1, (Hother1 n Hne).
           replace (S (Daemon.created d) + i)%nat
             with (Daemon.created d + S i)%nat by lia.
           reflexivity.
        -- rewrite <- Hc. apply getServerConfig_same, Hcfg1.
Qed.

Lemma getServerConfig_configured (d : Daemon.MCPDaemon) (n : string) :
  n ∈ map fst (Daemon.serverConfigs d) ->
  exists cfg, Daemon.getServerConfig d n None = Ok cfg.
Proof.
  intros Hin.
  unfold Daemon.getServerConfig, Daemon.lookup_config, Daemon.own_config.
  destruct (List.find _ (Daemon.serverConfigs d)) as [[k c]|] eqn:Hfind.
  - cbn. eexists. reflexivity.
  - exfalso. apply list_elem_of_fmap in Hin as ([k c] & -> & Hkc).
    apply list_elem_of_In in Hkc.
    pose proof (List.find_none _ _ Hfind _ Hkc) as Hfalse.
    cbn in Hfalse. rewrite String.eqb_refl in Hfalse. discriminate.
Qed.

(** X8. Bootstrap isolates failures.  [preconnectServers] over a
    configuration with distinct names never fails as a whole; the i-th
    configured name is tried with the i-th client object, and afterwards
    it resolves to the session of that client, stamped with the time of
    the bootstrap, exactly when that client's [connect] succeeded;
    otherwise the name is left as it was, whatever happened to the names
    before and after it. *)
Theorem X8_bootstrap_isolates_failures (w : Daemon.World) (d : Daemon.MCPDaemon)
    (i : nat) (n : string) (cfg : MCPServerConfig) :
  NoDup (map fst (Daemon.serverConfigs d)) ->
  map fst (Daemon.serverConfigs d) !! i = Some n ->
  Daemon.getServerConfig d n None = Ok cfg ->
  fst (Daemon.preconnectServers w d) = Ok tt
  /\ Daemon.sessions (snd (Daemon.preconnectServers w d)) !! n
     = match Client.connect
               (Client.new_ProgressiveMCPClient (Daemon.created d + i)
                  (Daemon.sdk_of w (Daemon.created d + i)) cfg) with
       | (Ok _, c') =>
         Some {| Daemon.id := n; Daemon.server := n; Daemon.client := c';
                 Daemon.createdAt := Daemon.now w;
                 Daemon.lastActivityAt := Daemon.now w |}
       | (Throw _, _) => Daemon.sessions d !! n
       end.
Proof.
  intros Hnodup Hi Hcfg.
  unfold Daemon.preconnectServers, bind, get.
  destruct (map fst (Daemon.serverConfigs d)) as [|n0 rest] eqn:Hnames;
    [discriminate|].
  rewrite <- Hnames in *.
  destruct (preconnect_loop_lookup w (map fst (Daemon.serverConfigs d)) d Hnodup)
    as (Hres & _ & _ & Hin).
  { intros k Hk. apply getServerConfig_configured, Hk. }
  split; [exact Hres|]. exact (Hin i n cfg Hi Hcfg).
Qed.

(** X8 on the sample configuration when the provider of "alpha" refuses
    the handshake: "beta", the second name, is connected all the same. *)
Lemma X8_bootstrap_isolates_failures_witness :
  fst (Daemon.preconnectServers (Fixtures.flaky_world 1000) Sample.daemon0) = Ok tt
  /\ Daemon.sessions
       (snd (Daemon.preconnectServers (Fixtures.flaky_world 1000) Sample.daemon0))
       !! "alpha" = None
  /\ is_Some (Daemon.sessions
       (snd (Daemon.preconnectServers (Fixtures.flaky_world 1000) Sample.daemon0))
       !! "beta").
Proof.
  assert (Hnodup : NoDup (map fst (Daemon.serverConfigs Sample.daemon0))).
  { apply (bool_decide_unpack _). vm_compute. exact I. }
  destruct (X8_bootstrap_isolates_failures (Fixtures.flaky_world 1000)
              Sample.daemon0 0 "alpha" (Sample.stdio_config "alpha-server")
              Hnodup eq_refl eq_refl) as [Hres Halpha].
  destruct (X8_bootstrap_isolates_failures (Fixtures.flaky_world 1000)
              Sample.daemon0 1 "beta" (Sample.stdio_config "beta-server")
              Hnodup eq_refl eq_refl) as [_ Hbeta].
  split; [exact Hres|]. split.
  - rewrite Halpha. vm_compute. reflexivity.
  - rewrite Hbeta. vm_compute. eexists. reflexivity.
Defined.

Lemma getServerConfig_unconfigured (d : Daemon.MCPDaemon) (n : string) :
  Daemon.serverConfigs d = [] ->
  Daemon.getServerConfig d n None
  = if bool_decide (n ∈ Daemon.Object_prototype)
    then Ok Daemon.inherited_member
    else Throw ("Unknown MCP server: " +:+ n +:+ String newline ""
                +:+ "Available servers: " +:+ "(none)").
Proof.
  intros Hempty.
  unfold Daemon.getServerConfig, Daemon.lookup_config, Daemon.own_config.
  rewrite Hempty. cbn. destruct (bool_decide _); reflexivity.
Qed.

Lemma connect_inherited_member (o : nat) (sdk : Client.Sdk) :
  Client.connect (Client.new_ProgressiveMCPClient o sdk Daemon.inherited_member)
  = (Throw "Cannot infer transport type: please specify type, url, or command",
     Client.new_ProgressiveMCPClient o sdk Daemon.inherited_member).
Proof. reflexivity. Qed.

Lemma preconnect_loop_unconfigured (w : Daemon.World) (names : list string) :
  forall d : Daemon.MCPDaemon,
    Daemon.serverConfigs d = [] ->
    fst (Daemon.preconnect_loop w names d) = Ok tt
    /\ Daemon.sessions (snd (Daemon.preconnect_loop w names d))
       = Daemon.sessions d
    /\ Daemon.created (snd (Daemon.preconnect_loop w names d))
       = (Daemon.created d
          + length (List.filter
                      (fun n => bool_decide (n ∈ Daemon.Object_prototype))
                      names))%nat
    /\ (Forall (fun n => n ∉ Daemon.Object_prototype) names ->
        snd (Daemon.preconnect_loop w names d) = d).
Proof.
  induction names as [|n rest IH]; intros d Hempty.
  - cbn. rewrite Nat.add_0_r. repeat split.
  - cbn [Daemon.preconnect_loop List.filter]. unfold bind, try_catch, ret.
    rewrite connect_and_register_unfold.
    rewrite (getServerConfig_unconfigured d n Hempty).
    destruct (bool_decide (n ∈ Daemon.Object_prototype)) eqn:Hn.
    + rewrite connect_inherited_member.
      destruct (IH (Daemon.bump_created d) Hempty) as (Hres & Hs & Hc & _).
      split; [exact Hres|]. split; [exact Hs|]. split.
      * rewrite Hc. cbn [Daemon.created Daemon.bump_created length]. lia.
      * intros Hall. apply Forall_cons in Hall as [Hnot _].
        apply bool_decide_eq_true in Hn. contradiction.
    + destruct (IH d Hempty) as (Hres & Hs & Hc & Hd).
      split; [exact Hres|]. split; [exact Hs|]. split; [exact Hc|].
      intros Hall. apply Forall_cons in Hall as [_ Hall]. exact (Hd Hall).
Qed.

(** X9. When no server is configured, [preconnectServers] falls back on
    the predefined names, and finds no configuration for them: the
    bootstrap succeeds and registers no session.  A predefined name that
    is not the name of a member of [Object.prototype] (such as the
    default, "playwright") is unknown to [getServerConfig]: when all are
    such, no client is constructed and the daemon is left as it was.  A
    predefined name that is one (such as "constructor") is found,
    inherited, by [this.serverConfigs[name]]: for each of them a client is
    constructed, which cannot infer its transport and is dropped. *)
Theorem X9_bootstrap_without_configuration (w : Daemon.World)
    (d : Daemon.MCPDaemon) :
  Daemon.serverConfigs d = [] ->
  fst (Daemon.preconnectServers w d) = Ok tt
  /\ Daemon.sessions (snd (Daemon.preconnectServers w d)) = Daemon.sessions d
  /\ Daemon.created (snd (Daemon.preconnectServers w d))
     = (Daemon.created d
        + length (List.filter
                    (fun n => bool_decide (n ∈ Daemon.Object_prototype))
                    (Daemon.predefinedServers d)))%nat
  /\ (Forall (fun n => n ∉ Daemon.Object_prototype) (Daemon.predefinedServers d)
      -> Daemon.preconnectServers w d = (Ok tt, d)).
Proof.
  intros Hempty. unfold Daemon.preconnectServers, bind, get.
  rewrite Hempty. cbn [map].
  destruct (preconnect_loop_unconfigured w (Daemon.predefinedServers d) d Hempty)
    as (Hres & Hs & Hc & Hd).
  split; [exact Hres|]. split; [exact Hs|]. split; [exact Hc|].
  intros Hall.
  rewrite (surjective_pairing
             (Daemon.preconnect_loop w (Daemon.predefinedServers d) d)).
  rewrite Hres, (Hd Hall). reflexivity.
Qed.

(** X9 on a daemon with the default predefined name. *)
Lemma X9_bootstrap_without_configuration_witness :
  Daemon.preconnectServers (Sample.world 1000 (Daemon.config_servers []))
    Fixtures.unconfigured_daemon
  = (Ok tt, Fixtures.unconfigured_daemon).
Proof.
  apply (X9_bootstrap_without_configuration
           (Sample.world 1000 (Daemon.config_servers []))
           Fixtures.unconfigured_daemon eq_refl).
  apply Forall_cons. split; [|apply Forall_nil; exact I].
  apply (bool_decide_unpack _). vm_compute. exact I.
Defined.

(** ** The daemon: activity and idle eviction *)

(** What a routed request does to the daemon: the addressed session is
    stamped with the time of the request and keeps its identity, and
    nothing else changes. *)
Lemma request_stamps (w : Daemon.World) (request : SocketCommand)
    (d : Daemon.MCPDaemon) (name : string) (found : Daemon.SessionInfo) :
  cmd_server request = Some name ->
  Daemon.sessions d !! name = Some found ->
  Daemon.is_action (cmd_action request) "ping" = false ->
  Daemon.is_action (cmd_action request) "reload" = false ->
  Daemon.is_action (cmd_action request) "shutdown" = false ->
  (exists s' : Daemon.SessionInfo,
     Daemon.sessions (snd (Daemon.handleSocketRequest w request d)) !! name
       = Some s'
     /\ Daemon.lastActivityAt s' = Daemon.now w
     /\ Daemon.createdAt s' = Daemon.createdAt found
     /\ Daemon.server s' = Daemon.server found
     /\ Client.oid (Daemon.client s') = Client.oid (Daemon.client found))
  /\ (forall k, k <> name ->
        Daemon.sessions (snd (Daemon.handleSocketRequest w request d)) !! k
        = Daemon.sessions d !! k)
  /\ Daemon.serverConfigs (snd (Daemon.handleSocketRequest w request d))
     = Daemon.serverConfigs d
  /\ Daemon.created (snd (Daemon.handleSocketRequest w request d))
     = Daemon.created d.
Proof.
  intros Hserver Hfound Hping Hreload Hshutdown.
  unfold Daemon.handleSocketRequest.
  rewrite Hping, Hreload, Hshutdown, Hserver. run_monad.
  cbn [mbind option_bind]. rewrite Hfound. cbn [show].
  assert (Htouched :
    (exists s' : Daemon.SessionInfo,
       Daemon.sessions
         (Daemon.set_sessions
            (<[name := Daemon.touch (Daemon.now w) found]> (Daemon.sessions d)) d)
         !! name = Some s'
       /\ Daemon.lastActivityAt s' = Daemon.now w
       /\ Daemon.createdAt s' = Daemon.createdAt found
       /\ Daemon.server s' = Daemon.server found
       /\ Client.oid (Daemon.client s') = Client.oid (Daemon.client found))
    /\ (forall k, k <> name ->
          Daemon.sessions
            (Daemon.set_sessions
               (<[name := Daemon.touch (Daemon.now w) found]> (Daemon.sessions d))
               d) !! k
          = Daemon.sessions d !! k)
    /\ Daemon.serverConfigs
         (Daemon.set_sessions
            (<[name := Daemon.touch (Daemon.now w) found]> (Daemon.sessions d)) d)
       = Daemon.serverConfigs d
    /\ Daemon.created
         (Daemon.set_sessions
            (<[name := Daemon.touch (Daemon.now w) found]> (Daemon.sessions d)) d)
       = Daemon.created d).
  { cbn [Daemon.sessions Daemon.set_sessions Daemon.serverConfigs Daemon.created].
    split; [|split; [|split; reflexivity]].
    - eexists. split; [apply lookup_insert_eq|]. repeat split.
    - intros k Hk. apply lookup_insert_ne. congruence. }
  destruct (Daemon.is_action (cmd_action request) "metadata").
  { destruct (Client.getCachedMetadata _); exact Htouched. }
  destruct (Daemon.is_action (cmd_action request) "list").
  { destruct (Client.listTools _).1; exact Htouched. }
  destruct (Daemon.is_action (cmd_action request) "schema").
  { destruct (negb (truthy (cmd_tool request))); [exact Htouched|].
    destruct (Client.getToolSchema _ _).1; exact Htouched. }
  destruct (Daemon.is_action (cmd_action request) "call").
  { destruct (negb (truthy (cmd_tool request))); [exact Htouched|].
    match goal with
    | |- context [Client.callTool ?n ?a ?c] =>
      pose proof (callTool_oid n a c) as Hcall;
      destruct (Client.callTool n a c) as [result c']
    end.
    cbn [snd] in Hcall.
    cbn [Daemon.client Daemon.touch] in Hcall.
    assert (Hcalled :
      (exists s' : Daemon.SessionInfo,
         <[name := Daemon.with_client c' (Daemon.touch (Daemon.now w) found)]>
           (<[name := Daemon.touch (Daemon.now w) found]> (Daemon.sessions d))
           !! name = Some s'
         /\ Daemon.lastActivityAt s' = Daemon.now w
         /\ Daemon.createdAt s' = Daemon.createdAt found
         /\ Daemon.server s' = Daemon.server found
         /\ Client.oid (Daemon.client s') = Client.oid (Daemon.client found))
      /\ (forall k, k <> name ->
            <[name := Daemon.with_client c' (Daemon.touch (Daemon.now w) found)]>
              (<[name := Daemon.touch (Daemon.now w) found]> (Daemon.sessions d))
              !! k
            = Daemon.sessions d !! k)).
    { split.
      - eexists. split; [apply lookup_insert_eq|].
        cbn [Daemon.lastActivityAt Daemon.createdAt Daemon.server Daemon.client
               Daemon.with_client Daemon.touch].
        repeat split. exact Hcall.
      - intros k Hk. rewrite !lookup_insert_ne by congruence. reflexivity. }
    destruct Hcalled as [Hself Hothers].
    destruct result; cbn [snd Daemon.sessions Daemon.set_sessions
                            Daemon.serverConfigs Daemon.created];
      (split; [exact Hself|]); (split; [exact Hothers|]); split; reflexivity. }
  destruct (Daemon.is_action (cmd_action request) "health"); [exact Htouched|].
  destruct (Daemon.is_action (cmd_action request) "sessions"); exact Htouched.
Qed.

(** X10. Every request that is routed to a registered session, whatever
    its action (a failing one and an unknown one included), stamps
    that session with the time of the request before the action is looked
    at; the session keeps its creation time, its server and its client
    object, every other session is left as it was, and neither the
    configurations nor the count of client objects change. *)
Theorem X10_request_stamps_activity (w : Daemon.World) (request : SocketCommand)
    (d : Daemon.MCPDaemon) (name : string) (found : Daemon.SessionInfo) :
  cmd_server request = Some name ->
  Daemon.sessions d !! name = Some found ->
  Daemon.is_action (cmd_action request) "ping" = false ->
  Daemon.is_action (cmd_action request) "reload" = false ->
  Daemon.is_action (cmd_action request) "shutdown" = false ->
  (exists s' : Daemon.SessionInfo,
     Daemon.sessions (snd (Daemon.handleSocketRequest w request d)) !! name
       = Some s'
     /\ Daemon.lastActivityAt s' = Daemon.now w
     /\ Daemon.createdAt s' = Daemon.createdAt found
     /\ Daemon.server s' = Daemon.server found
     /\ Client.oid (Daemon.client s') = Client.oid (Daemon.client found))
  /\ (forall k, k <> name ->
        Daemon.sessions (snd (Daemon.handleSocketRequest w request d)) !! k
        = Daemon.sessions d !! k)
  /\ Daemon.serverConfigs (snd (Daemon.handleSocketRequest w request d))
     = Daemon.serverConfigs d
  /\ Daemon.created (snd (Daemon.handleSocketRequest w request d))
     = Daemon.created d.
Proof. apply request_stamps. Qed.

(** X10 for an action the daemon does not know, sent to "alpha" of the
    sample daemon at time 5000. *)
Lemma X10_request_stamps_activity_witness :
  exists s' : Daemon.SessionInfo,
    Daemon.sessions
      (snd (Daemon.handleSocketRequest
              (Sample.world 5000 Daemon.config_missing)
              (Sample.request "3" "frobnicate" (Some "alpha") None)
              Sample.daemon1)) !! "alpha" = Some s'
    /\ Daemon.lastActivityAt s' = 5000.
Proof.
  destruct (Daemon.sessions Sample.daemon1 !! "alpha") as [alpha|] eqn:Halpha;
    [|vm_compute in Halpha; discriminate].
  destruct (X10_request_stamps_activity
              (Sample.world 5000 Daemon.config_missing)
              (Sample.request "3" "frobnicate" (Some "alpha") None)
              Sample.daemon1 "alpha" alpha eq_refl Halpha eq_refl eq_refl eq_refl)
    as [(s' & Hs' & Hlast & _) _].
  exists s'. split; [exact Hs' | exact Hlast].
Defined.

(** X11. A routed request postpones eviction: a sweep that runs no more
    than thirty minutes after a request to a session keeps that session
    registered and does not disconnect its client, whether or not its
    server is configured and however long it had been idle before the
    request. *)
Theorem X11_request_postpones_eviction (w w' : Daemon.World)
    (request : SocketCommand) (d : Daemon.MCPDaemon) (name : string)
    (found : Daemon.SessionInfo) :
  cmd_server request = Some name ->
  Daemon.sessions d !! name = Some found ->
  Daemon.is_action (cmd_action request) "ping" = false ->
  Daemon.is_action (cmd_action request) "reload" = false ->
  Daemon.is_action (cmd_action request) "shutdown" = false ->
  Daemon.now w' - Daemon.now w <= 1800000 ->
  let d' := snd (Daemon.handleSocketRequest w request d) in
  is_Some (Daemon.sessions d' !! name)
  /\ Daemon.sessions (fst (Daemon.cleanupIdleSessions w' d')) !! name
     = Daemon.sessions d' !! name
  /\ name ∉ map fst (snd (Daemon.cleanupIdleSessions w' d')).
Proof.
  intros Hserver Hfound Hping Hreload Hshutdown Hsoon d'.
  destruct (request_stamps w request d name found Hserver Hfound Hping Hreload
              Hshutdown) as [(s' & Hs' & Hlast & _) _].
  fold d' in Hs'. split; [rewrite Hs'; eauto|].
  unfold Daemon.cleanupIdleSessions.
  cbn [fst snd Daemon.sessions Daemon.set_sessions].
  destruct (sweep_keeps w' (Daemon.serverConfigs d')
              (map_to_list (Daemon.sessions d')) (Daemon.sessions d') [] name)
    as [Hlook Hev].
  { intros s Hs. apply elem_of_map_to_list in Hs.
    assert (s = s') as -> by congruence.
    unfold Daemon.evictable.
    destruct (Daemon.lookup_config _ _); [reflexivity|].
    apply Z.ltb_ge. rewrite Hlast. change Daemon.IDLE_TIMEOUT with 1800000. lia. }
  split; [exact Hlook|]. apply Hev. cbn [map]. apply not_elem_of_nil.
Qed.

(** X11 on the sample daemon after the reload that dropped "alpha" from
    the configuration: a [health] request to "alpha" at time 1801001, when
    it was due for eviction, keeps it through a sweep half an hour later. *)
Lemma X11_request_postpones_eviction_witness :
  is_Some (Daemon.sessions
             (fst (Daemon.cleanupIdleSessions
                     (Sample.world 3601001 Daemon.config_missing)
                     (snd (Daemon.handleSocketRequest
                             (Sample.world 1801001 Daemon.config_missing)
                             (Sample.request "4" "health" (Some "alpha") None)
                             Sample.daemon2)))) !! "alpha").
Proof.
  destruct (Daemon.sessions Sample.daemon2 !! "alpha") as [alpha|] eqn:Halpha;
    [|vm_compute in Halpha; discriminate].
  assert (Hsoon : Daemon.now (Sample.world 3601001 Daemon.config_missing)
                  - Daemon.now (Sample.world 1801001 Daemon.config_missing)
                  <= 1800000) by (cbn; lia).
  destruct (X11_request_postpones_eviction
              (Sample.world 1801001 Daemon.config_missing)
              (Sample.world 3601001 Daemon.config_missing)
              (Sample.request "4" "health" (Some "alpha") None)
              Sample.daemon2 "alpha" alpha eq_refl Halpha eq_refl eq_refl eq_refl
              Hsoon) as (Hsome & Hkept & _).
  rewrite Hkept. exact Hsome.
Defined.

Lemma sweep_only (w : Daemon.World) (cfgs : list (string * MCPServerConfig))
    (l : list (string * Daemon.SessionInfo))
    (m : gmap string Daemon.SessionInfo)
    (ev : list (string * Client.ProgressiveMCPClient))
    (k : string) (c : Client.ProgressiveMCPClient) :
  (k, c) ∈ snd (foldl (Daemon.cleanup_step w cfgs) (m, ev) l) ->
  (k, c) ∈ ev
  \/ exists s, (k, s) ∈ l /\ Daemon.evictable w cfgs s = true
               /\ c = snd (Client.disconnect (Daemon.client s)).
Proof.
  revert m ev. induction l as [|[k' s'] l IH]; intros m ev Hin; [now left|].
  cbn [foldl] in Hin. rewrite cleanup_step_evictable in Hin.
  destruct (Daemon.evictable w cfgs s') eqn:Hev; cbn [fst snd] in Hin.
  - destruct (IH _ _ Hin) as [Hold | (s & Hs & Hevs & Hc)].
    + apply elem_of_app in Hold as [Hold | Hnew]; [now left|].
      apply list_elem_of_singleton in Hnew. injection Hnew as -> ->.
      right. exists s'. split; [apply elem_of_cons; now left|]. now split.
    + right. exists s. split; [apply elem_of_cons; now right|]. now split.
  - destruct (IH _ _ Hin) as [Hold | (s & Hs & Hevs & Hc)]; [now left|].
    right. exists s. split; [apply elem_of_cons; now right|]. now split.
Qed.

(** X12. The sweep is exact.  After [cleanupIdleSessions] a name resolves
    to the session it resolved to before unless
    [this.serverConfigs[session.server]] finds nothing for that session
    (neither an own entry nor a member inherited from [Object.prototype])
    and it has been idle for more than thirty minutes, in which case the
    name resolves to nothing; [disconnect] is called on the clients of
    evicted sessions only; and a session idle for exactly thirty minutes
    is kept. *)
Theorem X12_sweep_is_exact (w : Daemon.World) (d : Daemon.MCPDaemon) :
  (forall k : string,
     Daemon.sessions (fst (Daemon.cleanupIdleSessions w d)) !! k
     = match Daemon.sessions d !! k with
       | Some s =>
         if Daemon.evictable w (Daemon.serverConfigs d) s then None else Some s
       | None => None
       end)
  /\ (forall (k : string) (c : Client.ProgressiveMCPClient),
        (k, c) ∈ snd (Daemon.cleanupIdleSessions w d) ->
        exists s, Daemon.sessions d !! k = Some s
                  /\ Daemon.lookup_config (Daemon.serverConfigs d)
                       (Daemon.server s) = None
                  /\ Daemon.now w - Daemon.lastActivityAt s > 1800000
                  /\ c = snd (Client.disconnect (Daemon.client s)))
  /\ (forall (k : string) (s : Daemon.SessionInfo),
        Daemon.sessions d !! k = Some s ->
        Daemon.now w - Daemon.lastActivityAt s = 1800000 ->
        Daemon.sessions (fst (Daemon.cleanupIdleSessions w d)) !! k = Some s).
Proof.
  assert (Hexact : forall k : string,
     Daemon.sessions (fst (Daemon.cleanupIdleSessions w d)) !! k
     = match Daemon.sessions d !! k with
       | Some s =>
         if Daemon.evictable w (Daemon.serverConfigs d) s then None else Some s
       | None => None
       end).
  { intros k. unfold Daemon.cleanupIdleSessions.
    cbn [fst snd Daemon.sessions Daemon.set_sessions].
    destruct (Daemon.sessions d !! k) as [s|] eqn:Hs.
    - destruct (Daemon.evictable w (Daemon.serverConfigs d) s) eqn:Hev.
      + apply (sweep_evicts w (Daemon.serverConfigs d) _ _ [] k s);
          [apply elem_of_map_to_list; exact Hs | exact Hev].
      + destruct (sweep_keeps w (Daemon.serverConfigs d)
                    (map_to_list (Daemon.sessions d)) (Daemon.sessions d) [] k)
          as [Hlook _].
        * intros s' Hs'. apply elem_of_map_to_list in Hs'.
          assert (s' = s) as -> by congruence. exact Hev.
        * rewrite Hlook. exact Hs.
    - apply sweep_absent, Hs. }
  split; [exact Hexact|]. split.
  - intros k c Hin. unfold Daemon.cleanupIdleSessions in Hin. cbn [snd] in Hin.
    apply sweep_only in Hin as [Hnil | (s & Hs & Hev & Hc)].
    + apply elem_of_nil in Hnil. contradiction.
    + exists s. apply elem_of_map_to_list in Hs. split; [exact Hs|].
      unfold Daemon.evictable in Hev.
      destruct (Daemon.lookup_config _ _); [discriminate|].
      split; [reflexivity|]. split; [|exact Hc].
      apply Z.ltb_lt in Hev. change Daemon.IDLE_TIMEOUT with 1800000 in Hev. lia.
  - intros k s Hs Hidle. rewrite Hexact, Hs.
    unfold Daemon.evictable. destruct (Daemon.lookup_config _ _); [reflexivity|].
    rewrite Hidle. reflexivity.
Qed.

(** X12 on the sample daemon after the reload: exactly half an hour after
    its last activity the unconfigured "alpha" is still registered. *)
Lemma X12_sweep_is_exact_witness :
  is_Some (Daemon.sessions
             (fst (Daemon.cleanupIdleSessions
                     (Sample.world 1801000 Daemon.config_missing) Sample.daemon2))
             !! "alpha").
Proof.
  destruct (Daemon.sessions Sample.daemon2 !! "alpha") as [alpha|] eqn:Halpha;
    [|vm_compute in Halpha; discriminate].
  assert (Hlast : Daemon.lastActivityAt alpha = 1000).
  { vm_compute in Halpha. injection Halpha as <-. reflexivity. }
  exists alpha.
  apply (proj2 (proj2 (X12_sweep_is_exact
                         (Sample.world 1801000 Daemon.config_missing)
                         Sample.daemon2)) "alpha" alpha Halpha).
  rewrite Hlast. reflexivity.
Defined.

(** ** The daemon: routing, further *)

(** X13. The session is looked up before the action is.  Whatever the
    action of a request, other than [ping], [reload] and [shutdown] (so
    also [sessions], an action the daemon does not know, and no action
    at all), if its [server] names no registered session, or is missing,
    the answer is the failure naming that server and the daemon is
    unchanged: [Unknown action] is never the answer then. *)
Theorem X13_session_lookup_comes_first (w : Daemon.World) (d : Daemon.MCPDaemon)
    (request : SocketCommand) :
  Daemon.is_action (cmd_action request) "ping" = false ->
  Daemon.is_action (cmd_action request) "reload" = false ->
  Daemon.is_action (cmd_action request) "shutdown" = false ->
  (forall name, cmd_server request = Some name ->
                Daemon.sessions d !! name = None) ->
  Daemon.handleSocketRequest w request d
    = (Ok (failure_response (wire_id (cmd_id request))
             ("Server '" +:+ show (cmd_server request)
              +:+ "' not found or not connected")), d).
Proof.
  intros Hping Hreload Hshutdown Hnone.
  unfold Daemon.handleSocketRequest. rewrite Hping, Hreload, Hshutdown.
  run_monad.
  destruct (cmd_server request) as [name|]; cbn [mbind option_bind];
    [rewrite (Hnone name eq_refl)|]; reflexivity.
Qed.

(** X13 for a [sessions] request that names no server, on the sample
    daemon. *)
Lemma X13_session_lookup_comes_first_witness :
  Daemon.handleSocketRequest (Sample.world 2000 Daemon.config_missing)
    (Sample.request "5" "sessions" None None) Sample.daemon1
  = (Ok (failure_response (wire_id (Some "5"))
           "Server 'undefined' not found or not connected"), Sample.daemon1).
Proof.
  apply (X13_session_lookup_comes_first
           (Sample.world 2000 Daemon.config_missing) Sample.daemon1
           (Sample.request "5" "sessions" None None));
    try reflexivity.
  intros name Hname. discriminate.
Defined.

(** X14. [call] does not consult the cached catalogue.  For a registered
    session whose client is connected and a non-empty tool name, the
    answer is what the provider's [callTool] gives for that name and the
    arguments (an empty object when the request carries none), whether
    or not the catalogue lists the tool; the call is recorded on the
    session's client and nowhere else. *)
Theorem X14_call_is_forwarded (w : Daemon.World) (d : Daemon.MCPDaemon)
    (request : SocketCommand) (name tool : string) (found : Daemon.SessionInfo) :
  cmd_action request = Some "call" ->
  cmd_server request = Some name ->
  cmd_tool request = Some tool ->
  tool <> "" ->
  Daemon.sessions d !! name = Some found ->
  Client.isConnected (Daemon.client found) = true ->
  let args := match cmd_arguments request with
              | Some toolArgs => if json_truthy toolArgs then toolArgs else JObj []
              | None => JObj []
              end in
  fst (Daemon.handleSocketRequest w request d)
  = match Client.sdk_callTool (Client.client (Daemon.client found)) tool args with
    | Ok result => Ok (success_response (wire_id (cmd_id request)) (CallData result))
    | Throw e => Throw e
    end
  /\ exists s', Daemon.sessions (snd (Daemon.handleSocketRequest w request d))
                  !! name = Some s'
                /\ Client.sdk_log (Daemon.client s')
                   = (Client.sdk_log (Daemon.client found)
                        ++ [Client.SdkCallTool tool args])%list
                /\ Client._toolsCache (Daemon.client s')
                   = Client._toolsCache (Daemon.client found).
Proof.
  intros Haction Hserver Htool Hnonempty Hfound Hconn args.
  unfold Daemon.handleSocketRequest.
  rewrite Haction, Hserver, Htool.
  cbn [Daemon.is_action String.eqb Ascii.eqb Bool.eqb]. run_monad.
  cbn [mbind option_bind]. rewrite Hfound.
  assert (Htruthy : truthy (Some tool) = true).
  { destruct tool; [congruence | reflexivity]. }
  rewrite Htruthy. cbn [negb show].
  unfold Client.callTool. run_monad.
  cbn [Daemon.client Daemon.touch]. rewrite Hconn. cbn [negb].
  fold args.
  destruct (Client.sdk_callTool (Client.client (Daemon.client found)) tool args)
    as [result|e]; cbn [fst snd Daemon.sessions Daemon.set_sessions];
    (split; [reflexivity|]); eexists; (split; [apply lookup_insert_eq|]);
    split; reflexivity.
Qed.

(** X14 on the sample daemon: a tool the catalogue of "alpha" does not
    list is called all the same. *)
Lemma X14_call_is_forwarded_witness :
  fst (Daemon.handleSocketRequest (Sample.world 2000 Daemon.config_missing)
         (Sample.request "6" "call" (Some "alpha") (Some "no_such_tool"))
         Sample.daemon1)
  = Ok (success_response (wire_id (Some "6")) (CallData (JObj []))).
Proof.
  destruct (Daemon.sessions Sample.daemon1 !! "alpha") as [alpha|] eqn:Halpha;
    [|vm_compute in Halpha; discriminate].
  assert (Hconn : Client.isConnected (Daemon.client alpha) = true).
  { vm_compute in Halpha. injection Halpha as <-. reflexivity. }
  assert (Hsdk : Client.client (Daemon.client alpha) = Sample.good_sdk).
  { vm_compute in Halpha. injection Halpha as <-. reflexivity. }
  destruct (X14_call_is_forwarded (Sample.world 2000 Daemon.config_missing)
              Sample.daemon1
              (Sample.request "6" "call" (Some "alpha") (Some "no_such_tool"))
              "alpha" "no_such_tool" alpha eq_refl eq_refl eq_refl
              ltac:(discriminate) Halpha Hconn) as [Hres _].
  rewrite Hres, Hsdk. reflexivity.
Defined.

(** X15. A [reload] whose configuration file cannot be loaded is answered
    on the connection by one failure line, with the id of the request and
    the loader's message, and changes nothing: the sessions, their clients
    and the configurations in force stay as they were. *)
Theorem X15_failed_reload_changes_nothing (w : Daemon.World)
    (JSON_parse : string -> Parsed) (line message : string)
    (request : SocketCommand) (conn : Daemon.Connection) (d : Daemon.MCPDaemon) :
  is_blank line = false ->
  JSON_parse line = parsed request ->
  cmd_action request = Some "reload" ->
  Daemon.config_file w = Daemon.config_unloadable message ->
  Daemon.handle_line w JSON_parse line (conn, d)
  = (Daemon.write
       (failure_response (wire_id_or_null (cmd_id request))
          ("Cannot load MCP servers config: " +:+ message)) conn, d).
Proof.
  intros Hblank Hparse Haction Hfile.
  unfold Daemon.handle_line. rewrite Hblank, Hparse.
  unfold Daemon.handleSocketRequest. rewrite Haction.
  cbn [Daemon.is_action String.eqb Ascii.eqb Bool.eqb].
  unfold Daemon.loadServerConfigs. rewrite Hfile. reflexivity.
Qed.

(** X15 on the sample daemon, when the configuration file has become
    invalid JSON. *)
Lemma X15_failed_reload_changes_nothing_witness :
  Daemon.handle_line
    (Sample.world 2000 (Daemon.config_unloadable "Unexpected end of JSON input"))
    Fixtures.JSON_parse Fixtures.reload_line (Sample.connection0, Sample.daemon1)
  = (Daemon.write
       (failure_response (id_string "7")
          "Cannot load MCP servers config: Unexpected end of JSON input")
       Sample.connection0, Sample.daemon1).
Proof.
  exact (X15_failed_reload_changes_nothing
           (Sample.world 2000
              (Daemon.config_unloadable "Unexpected end of JSON input"))
           Fixtures.JSON_parse Fixtures.reload_line
           "Unexpected end of JSON input"
           (Sample.request "7" "reload" None None)
           Sample.connection0 Sample.daemon1 eq_refl eq_refl eq_refl eq_refl).
Defined.

Lemma disconnect_closes (c : Client.ProgressiveMCPClient) :
  Client.transport c = None \/ Client.sdk_close (Client.client c) = Ok tt ->
  Client.isConnected (snd (Client.disconnect c)) = false.
Proof.
  intros Hclose. unfold Client.disconnect, Client.isConnected. run_monad.
  destruct (Client.transport c) as [t|] eqn:Ht.
  - destruct Hclose as [Hnone | Hok]; [discriminate|].
    cbn [Client.client Client.log_call]. rewrite Hok. reflexivity.
  - cbn. rewrite Ht. reflexivity.
Qed.

(** X16. [shutdown] disconnects but does not unregister.  When every
    client closes cleanly, the request is answered with success, the
    socket server stops listening, and exactly the names registered before
    are registered afterwards; a [list] request to any of them that
    still arrives on an open connection fails with the client's
    not-connected error instead of the unknown-server failure. *)
Theorem X16_shutdown_keeps_sessions_registered (w w' : Daemon.World)
    (d : Daemon.MCPDaemon) (request request' : SocketCommand)
    (name : string) (found : Daemon.SessionInfo) :
  cmd_action request = Some "shutdown" ->
  (forall k s, Daemon.sessions d !! k = Some s ->
     Client.transport (Daemon.client s) = None
     \/ Client.sdk_close (Client.client (Daemon.client s)) = Ok tt) ->
  Daemon.sessions d !! name = Some found ->
  cmd_action request' = Some "list" ->
  cmd_server request' = Some name ->
  let d' := snd (Daemon.handleSocketRequest w request d) in
  fst (Daemon.handleSocketRequest w request d)
  = Ok (success_response (wire_id (cmd_id request)) (MessageData "Daemon shutdown"))
  /\ Daemon.listening d' = false
  /\ (forall k, is_Some (Daemon.sessions d' !! k)
                <-> is_Some (Daemon.sessions d !! k))
  /\ fst (Daemon.handleSocketRequest w' request' d')
     = Throw Client.not_connected_message.
Proof.
  intros Haction Hclean Hfound Haction' Hserver' d'.
  assert (Hd' : d' = Daemon.set_listening false
                  (Daemon.set_sessions
                     ((fun s => Daemon.with_client
                                  (snd (Client.disconnect (Daemon.client s))) s)
                        <$> Daemon.sessions d) d)).
  { unfold d', Daemon.handleSocketRequest. rewrite Haction. reflexivity. }
  split.
  { unfold Daemon.handleSocketRequest. rewrite Haction. reflexivity. }
  rewrite Hd'. split; [reflexivity|]. split.
  { intros k. cbn [Daemon.sessions Daemon.set_listening Daemon.set_sessions].
    rewrite lookup_fmap. destruct (Daemon.sessions d !! k); cbn; split;
      intros [x Hx]; try discriminate; eauto. }
  unfold Daemon.handleSocketRequest. rewrite Haction', Hserver'.
  cbn [Daemon.is_action String.eqb Ascii.eqb Bool.eqb]. run_monad.
  cbn [mbind option_bind Daemon.sessions Daemon.set_listening Daemon.set_sessions].
  rewrite lookup_fmap, Hfound. cbn [fmap option_fmap option_map].
  unfold Client.listTools. run_monad.
  cbn [Daemon.client Daemon.touch Daemon.with_client].
  rewrite (disconnect_closes _ (Hclean name found Hfound)). reflexivity.
Qed.

(** X16 on the sample daemon. *)
Lemma X16_shutdown_keeps_sessions_registered_witness :
  fst (Daemon.handleSocketRequest (Sample.world 3000 Daemon.config_missing)
         (Sample.request "9" "list" (Some "alpha") None)
         (snd (Daemon.handleSocketRequest
                 (Sample.world 2000 Daemon.config_missing)
                 (Sample.request "8" "shutdown" None None) Sample.daemon1)))
  = Throw Client.not_connected_message.
Proof.
  destruct (Daemon.sessions Sample.daemon1 !! "alpha") as [alpha|] eqn:Halpha;
    [|vm_compute in Halpha; discriminate].
  assert (Hclean : forall k s, Daemon.sessions Sample.daemon1 !! k = Some s ->
            Client.transport (Daemon.client s) = None
            \/ Client.sdk_close (Client.client (Daemon.client s)) = Ok tt).
  { intros k s Hs. apply elem_of_map_to_list in Hs. vm_compute in Hs.
    repeat (apply elem_of_cons in Hs as [Hs | Hs];
            [injection Hs as -> ->; right; reflexivity|]).
    apply elem_of_nil in Hs. contradiction. }
  exact (proj2 (proj2 (proj2
    (X16_shutdown_keeps_sessions_registered
       (Sample.world 2000 Daemon.config_missing)
       (Sample.world 3000 Daemon.config_missing) Sample.daemon1
       (Sample.request "8" "shutdown" None None)
       (Sample.request "9" "list" (Some "alpha") None)
       "alpha" alpha eq_refl Hclean Halpha eq_refl eq_refl)))).
Defined.

(** ** The daemon: framing of the connection *)




Lemma take_lines_app (d1 d2 : string) :
  forall buffer : string,
    Daemon.take_lines buffer (d1 +:+ d2)
    = ((fst (Daemon.take_lines buffer d1)
          ++ fst (Daemon.take_lines (snd (Daemon.take_lines buffer d1)) d2))%list,
       snd (Daemon.take_lines (snd (Daemon.take_lines buffer d1)) d2)).
Proof.
  induction d1 as [|c d1 IH]; intros buffer.
  - rewrite append_nil_l. cbn [Daemon.take_lines fst snd app].
    destruct (Daemon.take_lines buffer d2). reflexivity.
  - rewrite append_cons. cbn [Daemon.take_lines].
    destruct (Ascii.eqb c newline).
    + rewrite (IH ""). destruct (Daemon.take_lines "" d1) as [l1 r1].
      cbn [fst snd]. reflexivity.
    + apply IH.
Qed.

Lemma handle_line_set_buffer (w : Daemon.World) (JSON_parse : string -> Parsed)
    (line b : string) (conn : Daemon.Connection) (d : Daemon.MCPDaemon) :
  Daemon.handle_line w JSON_parse line (Daemon.set_buffer b conn, d)
  = (Daemon.set_buffer b (fst (Daemon.handle_line w JSON_parse line (conn, d))),
     snd (Daemon.handle_line w JSON_parse line (conn, d))).
Proof.
  unfold Daemon.handle_line. destruct (is_blank line); [reflexivity|].
  destruct (JSON_parse line) as [message| |request]; try reflexivity.
  destruct (Daemon.handleSocketRequest w request d) as [[response|message] d'];
    reflexivity.
Qed.

Lemma handle_lines_set_buffer (w : Daemon.World) (JSON_parse : string -> Parsed)
    (b : string) (lines : list string) :
  forall (conn : Daemon.Connection) (d : Daemon.MCPDaemon),
    foldl (fun st line => Daemon.handle_line w JSON_parse line st)
      (Daemon.set_buffer b conn, d) lines
    = (Daemon.set_buffer b
         (fst (foldl (fun st line => Daemon.handle_line w JSON_parse line st)
                 (conn, d) lines)),
       snd (foldl (fun st line => Daemon.handle_line w JSON_parse line st)
              (conn, d) lines)).
Proof.
  induction lines as [|line lines IH]; intros conn d; [reflexivity|].
  cbn [foldl]. rewrite handle_line_set_buffer.
  destruct (Daemon.handle_line w JSON_parse line (conn, d)) as [conn1 d1].
  cbn [fst snd]. apply IH.
Qed.

(** Handling two pieces of text one after the other is handling their
    concatenation. *)
Lemma on_data_app (w : Daemon.World) (JSON_parse : string -> Parsed)
    (d1 d2 : string) (st : Daemon.Connection * Daemon.MCPDaemon) :
  Daemon.on_data w JSON_parse d2 (Daemon.on_data w JSON_parse d1 st)
  = Daemon.on_data w JSON_parse (d1 +:+ d2) st.
Proof.
  destruct st as [conn d]. unfold Daemon.on_data at 2 3.
  rewrite take_lines_app.
  destruct (Daemon.take_lines (Daemon.buffer conn) d1) as [l1 r1].
  cbn [fst snd]. rewrite foldl_app.
  rewrite (handle_lines_set_buffer w JSON_parse r1 l1 conn d).
  rewrite (handle_lines_set_buffer w JSON_parse
             (snd (Daemon.take_lines r1 d2)) l1 conn d).
  unfold Daemon.on_data.
  destruct (foldl (fun st line => Daemon.handle_line w JSON_parse line st)
              (conn, d) l1) as [conn1 dd].
  cbn [fst snd Daemon.buffer Daemon.set_buffer].
  destruct (Daemon.take_lines r1 d2) as [l2 r2]. reflexivity.
Qed.

(** X18. Where a stream is cut into chunks does not matter as long as no
    chunk ends inside a character.  The handler decodes each chunk on its
    own; when the texts of two chunks make up the text of the two taken
    together (the cut falls between two characters: inside a request, or
    between the requests), handling the one and then the other, each to
    completion, leaves the connection and the daemon exactly as handling
    them in one piece.  (A cut inside a multi-byte character makes the
    decoder put a replacement character on either side: there the
    hypothesis fails, and the line that holds the character is not the
    line that was sent.) *)
Theorem X18_chunking_is_invisible (w : Daemon.World)
    (JSON_parse : string -> Parsed) (toString : list Byte.byte -> string)
    (chunk1 chunk2 : list Byte.byte)
    (st : Daemon.Connection * Daemon.MCPDaemon) :
  toString (chunk1 ++ chunk2)%list = toString chunk1 +:+ toString chunk2 ->
  Daemon.on_chunk w JSON_parse toString chunk2
    (Daemon.on_chunk w JSON_parse toString chunk1 st)
  = Daemon.on_chunk w JSON_parse toString (chunk1 ++ chunk2)%list st.
Proof.
  intros Hcut. unfold Daemon.on_chunk. rewrite Hcut. apply on_data_app.
Qed.

(** X18 for a [ping] request that arrives in two chunks, cut after its
    fifth byte. *)
Lemma X18_chunking_is_invisible_witness :
  Daemon.written
    (fst (Daemon.on_chunk (Sample.world 2000 Daemon.config_missing)
            Sample.JSON_parse Fixtures.ascii_text
            (drop 5 Fixtures.ping_bytes)
            (Daemon.on_chunk (Sample.world 2000 Daemon.config_missing)
               Sample.JSON_parse Fixtures.ascii_text
               (take 5 Fixtures.ping_bytes)
               (Sample.connection0, Sample.daemon1))))
  = [success_response (id_string "1")
       (PingData "ok" "default" ["alpha"; "beta"])].
Proof.
  rewrite (X18_chunking_is_invisible (Sample.world 2000 Daemon.config_missing)
             Sample.JSON_parse Fixtures.ascii_text
             (take 5 Fixtures.ping_bytes) (drop 5 Fixtures.ping_bytes)
             (Sample.connection0, Sample.daemon1)).
  - vm_compute. reflexivity.
  - vm_compute. reflexivity.
Defined.

Lemma no_newline_app (s t : string) :
  no_newline (s +:+ t) = no_newline s && no_newline t.
Proof.
  induction s as [|c s IH]; [reflexivity|].
  rewrite append_cons. cbn [no_newline]. rewrite IH, andb_assoc. reflexivity.
Qed.

Lemma take_lines_lossless (data : string) :
  forall buffer : string,
    fold_right (fun line rest => line +:+ String newline rest)
      (snd (Daemon.take_lines buffer data)) (fst (Daemon.take_lines buffer data))
    = buffer +:+ data
    /\ (no_newline buffer = true ->
        Forall (fun line => no_newline line = true)
          (fst (Daemon.take_lines buffer data))
        /\ no_newline (snd (Daemon.take_lines buffer data)) = true).
Proof.
  induction data as [|c data IH]; intros buffer.
  - cbn. rewrite append_nil_r. split; [reflexivity|]. intros H. split;
      [constructor | exact H].
  - cbn [Daemon.take_lines]. destruct (Ascii.eqb c newline) eqn:Hc.
    + destruct (IH "") as [Hcat Hno].
      destruct (Daemon.take_lines "" data) as [lines remainder].
      cbn [fst snd fold_right] in *. split.
      * rewrite Hcat, append_nil_l. apply Ascii.eqb_eq in Hc. now subst c.
      * intros Hb. destruct (Hno eq_refl) as [Hl Hr]. split; [|exact Hr].
        constructor; assumption.
    + destruct (IH (buffer +:+ String c "")) as [Hcat Hno].
      split.
      * rewrite Hcat. apply append_snoc.
      * intros Hb. apply Hno. rewrite no_newline_app, Hb.
        cbn [no_newline]. rewrite Hc. reflexivity.
Qed.

(** X19. Cutting the lines out of the buffer loses nothing: the lines
    found, each followed by a newline, and then the remainder spell the
    old buffer followed by the data; and when the old buffer holds no
    newline (as the empty buffer of a new connection), neither does any
    line nor the remainder, so that the next chunk finds the buffer as
    this one did. *)
Theorem X19_framing_is_lossless (buffer data : string) :
  no_newline buffer = true ->
  fold_right (fun line rest => line +:+ String newline rest)
    (snd (Daemon.take_lines buffer data)) (fst (Daemon.take_lines buffer data))
  = buffer +:+ data
  /\ Forall (fun line => no_newline line = true)
       (fst (Daemon.take_lines buffer data))
  /\ no_newline (snd (Daemon.take_lines buffer data)) = true.
Proof.
  intros Hb. destruct (take_lines_lossless data buffer) as [Hcat Hno].
  split; [exact Hcat | exact (Hno Hb)].
Qed.

(** X19 for half a request in the buffer and a chunk that completes it
    and starts the next. *)
Lemma X19_framing_is_lossless_witness :
  Daemon.take_lines "{ping" ("}" +:+ String newline "{li")
  = (["{ping}"], "{li")
  /\ no_newline (snd (Daemon.take_lines "{ping" ("}" +:+ String newline "{li")))
     = true.
Proof.
  split; [reflexivity|].
  exact (proj2 (proj2 (X19_framing_is_lossless "{ping"
                         ("}" +:+ String newline "{li") eq_refl))).
Defined.

(** ** The transports: request ids *)

Lemma elem_of_alter_inv {A : Type} (f : A -> A) (h : nat) (l : list A) (x : A) :
  x ∈ alter f h l -> x ∈ l \/ exists y, y ∈ l /\ x = f y.
Proof.
  intros [i Hi]%list_elem_of_lookup.
  rewrite list_lookup_alter in Hi. case_decide.
  - subst i. destruct (l !! h) as [y|] eqn:Hy; [|discriminate].
    cbn in Hi. injection Hi as <-. right. exists y. split; [|reflexivity].
    apply list_elem_of_lookup. eauto.
  - left. apply list_elem_of_lookup. eauto.
Qed.

Lemma stdin_on_child (h : nat) (f : Stdio.ChildProcess -> Stdio.ChildProcess)
    (t : Stdio.StdioTransport) (n : Z) :
  (forall q, Stdio.stdin (f q) = Stdio.stdin q) ->
  (forall p r, p ∈ Stdio.children t -> r ∈ Stdio.stdin p -> rpc_id r <= n) ->
  forall p r, p ∈ Stdio.children (Stdio.on_child h f t) -> r ∈ Stdio.stdin p ->
              rpc_id r <= n.
Proof.
  intros Hf Hold p r Hp Hr. cbn in Hp.
  apply elem_of_alter_inv in Hp as [Hp | (q & Hq & ->)].
  - exact (Hold p r Hp Hr).
  - rewrite Hf in Hr. exact (Hold q r Hq Hr).
Qed.

Lemma stdin_kill (s : Stdio.Signal) (q : Stdio.ChildProcess) :
  Stdio.stdin (Stdio.kill s q) = Stdio.stdin q.
Proof. unfold Stdio.kill. destruct (Stdio.exited q); reflexivity. Qed.

Lemma ids_below_callback (t : Stdio.StdioTransport) :
  StdioRun.ids_below t -> StdioRun.ids_below (Stdio.force_kill_callback t).
Proof.
  intros (Hp & Hs & Hc). unfold Stdio.force_kill_callback.
  destruct (Stdio.process t) as [h|]; [|now repeat split].
  destruct (Stdio.children t !! h) as [p|]; [|now repeat split].
  destruct (negb (Stdio.killed p)); [|now repeat split].
  split; [exact Hp|]. split; [exact Hs|].
  apply stdin_on_child; [apply stdin_kill | exact Hc].
Qed.

Lemma ids_below_step (t : Stdio.StdioTransport) (e : StdioRun.Event) :
  StdioRun.ids_below t -> StdioRun.ids_below (StdioRun.step t e).
Proof.
  intros (Hp & Hs & Hc). destruct e as [|method params|response| |h|ms];
    cbn [StdioRun.step].
  - unfold Stdio.connect. destruct (Stdio.process t); [now repeat split|].
    split; [exact Hp|]. split; [exact Hs|]. cbn.
    intros p r [Hin | Hnew]%elem_of_app Hr; [exact (Hc p r Hin Hr)|].
    apply list_elem_of_singleton in Hnew. subst p. cbn in Hr.
    apply elem_of_nil in Hr. contradiction.
  - unfold Stdio.sendRequest. destruct (Stdio.process t) as [h|];
      [|now repeat split].
    cbn [snd]. split; [|split].
    + cbn. intros id [Hid%elem_of_singleton | Hid]%elem_of_union; [lia|].
      specialize (Hp id Hid). lia.
    + cbn. intros id s Hin. specialize (Hs id s Hin). lia.
    + cbn. intros p r Hin Hr.
      apply elem_of_alter_inv in Hin as [Hin | (q & Hq & ->)].
      * specialize (Hc p r Hin Hr). lia.
      * cbn in Hr. apply elem_of_app in Hr as [Hr | Hr].
        -- specialize (Hc q r Hq Hr). lia.
        -- apply list_elem_of_singleton in Hr. subst r. cbn. lia.
  - unfold Stdio.handleResponse. case_decide as Hin; [|now repeat split].
    split; [|split]; cbn.
    + intros id [Hid _]%elem_of_difference. exact (Hp id Hid).
    + intros id s [Hold | Hnew]%elem_of_app; [exact (Hs id s Hold)|].
      apply list_elem_of_singleton in Hnew. injection Hnew as -> ->.
      exact (Hp _ Hin).
    + exact Hc.
  - unfold Stdio.disconnect. destruct (Stdio.process t) as [h|].
    + split; [|split].
      * cbn. intros id Hid. apply elem_of_empty in Hid. contradiction.
      * destruct (Stdio.win32 t); exact Hs.
      * cbn [Stdio.children Stdio.set_pending Stdio.set_process].
        apply stdin_on_child; [reflexivity|].
        cbn [Stdio.children Stdio.set_timers].
        destruct (Stdio.win32 t);
          (apply stdin_on_child; [apply stdin_kill | exact Hc]).
    + split; [|split; [exact Hs | exact Hc]].
      cbn. intros id Hid. apply elem_of_empty in Hid. contradiction.
  - unfold Stdio.on_exit. destruct (Stdio.children t !! h) as [p|];
      [|now repeat split].
    destruct (Stdio.exited p); [now repeat split|].
    split; [|split].
    + cbn. intros id Hid. apply elem_of_empty in Hid. contradiction.
    + cbn. intros id s [Hold | Hnew]%elem_of_app; [exact (Hs id s Hold)|].
      apply list_elem_of_fmap in Hnew as (id' & Heq & Hid').
      injection Heq as -> ->. apply elem_of_elements in Hid'. exact (Hp _ Hid').
    + cbn [Stdio.children Stdio.set_timers Stdio.set_pending Stdio.settle
             Stdio.requestId].
      apply stdin_on_child; [reflexivity | exact Hc].
  - unfold Stdio.advance.
    match goal with
    | |- StdioRun.ids_below (foldl _ ?t0 ?due) =>
      assert (H0 : StdioRun.ids_below t0) by (now repeat split);
      generalize H0; generalize t0; generalize due
    end.
    clear. intros due. induction due as [|x due IH]; intros t0 H0; [exact H0|].
    cbn [foldl]. apply IH, ids_below_callback, H0.
Qed.

Lemma ids_below_run (events : list StdioRun.Event) (t : Stdio.StdioTransport) :
  StdioRun.ids_below t -> StdioRun.ids_below (StdioRun.run events t).
Proof.
  revert t. induction events as [|e events IH]; intros t Ht; [exact Ht|].
  cbn [StdioRun.run foldl]. apply IH, ids_below_step, Ht.
Qed.

(** X20. The stdio transport never reuses a request id.  Whatever has
    happened to it since it was constructed (connects, requests,
    responses, disconnects, exits of children, time passing), the id that
    [sendRequest] draws next is not pending, has never been settled, and
    has never been written to any child, the children of earlier
    connections included. *)
Theorem X20_stdio_ids_are_fresh (onWindows : bool)
    (events : list StdioRun.Event) (method : string) (params : option JSON)
    (id : Z) (t' : Stdio.StdioTransport) :
  let t := StdioRun.run events (Stdio.new_StdioTransport onWindows) in
  Stdio.sendRequest method params t = (Ok id, t') ->
  (id ∉ Stdio.pendingRequests t)
  /\ (forall s, (id, s) ∉ Stdio.settled t)
  /\ (forall p r, p ∈ Stdio.children t -> r ∈ Stdio.stdin p -> rpc_id r <> id).
Proof.
  intros t Hsend.
  assert (Hinv : StdioRun.ids_below t).
  { apply ids_below_run. repeat split.
    - cbn. intros i Hi. apply elem_of_empty in Hi. contradiction.
    - cbn. intros i s Hi. apply elem_of_nil in Hi. contradiction.
    - cbn. intros p r Hp. apply elem_of_nil in Hp. contradiction. }
  destruct Hinv as (Hp & Hs & Hc).
  unfold Stdio.sendRequest in Hsend.
  destruct (Stdio.process t) as [h|]; [|discriminate].
  injection Hsend as <- _. split; [|split].
  - intros Hin. specialize (Hp _ Hin). lia.
  - intros s Hin. specialize (Hs _ _ Hin). lia.
  - intros p r Hin Hr Heq. specialize (Hc p r Hin Hr). lia.
Qed.

(** X20 after a call that was answered, a disconnect and a reconnect: the
    next id is 2. *)
Lemma X20_stdio_ids_are_fresh_witness :
  fst (Stdio.sendRequest "tools/list" None
         (StdioRun.run
            [StdioRun.Connect; StdioRun.Send "initialize" None;
             StdioRun.Response {| res_id := 1; res_result := Some JNull;
                                  res_error := None |};
             StdioRun.Disconnect; StdioRun.Connect]
            (Stdio.new_StdioTransport false))) = Ok 2
  /\ forall s, (2, s) ∉ Stdio.settled
       (StdioRun.run
          [StdioRun.Connect; StdioRun.Send "initialize" None;
           StdioRun.Response {| res_id := 1; res_result := Some JNull;
                                res_error := None |};
           StdioRun.Disconnect; StdioRun.Connect]
          (Stdio.new_StdioTransport false)).
Proof.
  assert (Hfst : fst (Stdio.sendRequest "tools/list" None
         (StdioRun.run
            [StdioRun.Connect; StdioRun.Send "initialize" None;
             StdioRun.Response {| res_id := 1; res_result := Some JNull;
                                  res_error := None |};
             StdioRun.Disconnect; StdioRun.Connect]
            (Stdio.new_StdioTransport false))) = Ok 2).
  { vm_compute. reflexivity. }
  split; [exact Hfst|].
  refine (proj1 (proj2
    (X20_stdio_ids_are_fresh false
       [StdioRun.Connect; StdioRun.Send "initialize" None;
        StdioRun.Response {| res_id := 1; res_result := Some JNull;
                             res_error := None |};
        StdioRun.Disconnect; StdioRun.Connect]
       "tools/list" None 2
       (snd (Stdio.sendRequest "tools/list" None
         (StdioRun.run
            [StdioRun.Connect; StdioRun.Send "initialize" None;
             StdioRun.Response {| res_id := 1; res_result := Some JNull;
                                  res_error := None |};
             StdioRun.Disconnect; StdioRun.Connect]
            (Stdio.new_StdioTransport false)))) _))).
  rewrite <- Hfst. apply surjective_pairing.
Defined.

(** ** The transports: exits and disconnects *)

(** X21. When a child exits, the listener that [connect] installed on it
    rejects every call that is pending at that moment with "Process
    disconnected" and empties the pending map, whichever child it is (the
    listener of a child that [disconnect] has replaced rejects the calls
    sent to its successor); it settles nothing else, and it leaves
    [this.process] as it was, so that the transport goes on accepting
    requests for a child that has exited. *)
Theorem X21_exit_rejects_pending_calls (t : Stdio.StdioTransport) (h : nat)
    (p : Stdio.ChildProcess) :
  Stdio.children t !! h = Some p ->
  Stdio.exited p = false ->
  Stdio.pendingRequests (Stdio.on_exit h t) = ∅
  /\ (forall id, id ∈ Stdio.pendingRequests t ->
        (id, Rejected "Process disconnected") ∈ Stdio.settled (Stdio.on_exit h t))
  /\ (forall id s, (id, s) ∈ Stdio.settled (Stdio.on_exit h t) ->
        (id, s) ∈ Stdio.settled t
        \/ (id ∈ Stdio.pendingRequests t /\ s = Rejected "Process disconnected"))
  /\ Stdio.process (Stdio.on_exit h t) = Stdio.process t
  /\ forall method params,
       fst (Stdio.sendRequest method params (Stdio.on_exit h t))
       = fst (Stdio.sendRequest method params t).
Proof.
  intros Hchild Halive. unfold Stdio.on_exit. rewrite Hchild, Halive.
  cbn [Stdio.pendingRequests Stdio.settled Stdio.process Stdio.set_timers
         Stdio.set_pending Stdio.settle Stdio.on_child Stdio.set_children].
  split; [reflexivity|]. split; [|split; [|split; [reflexivity|]]].
  - intros id Hid. apply elem_of_app. right.
    apply list_elem_of_fmap. exists id. split; [reflexivity|].
    apply elem_of_elements, Hid.
  - intros id s [Hold | Hnew]%elem_of_app; [now left|].
    apply list_elem_of_fmap in Hnew as (id' & Heq & Hid').
    injection Heq as -> ->. right. split; [|reflexivity].
    apply elem_of_elements in Hid'. exact Hid'.
  - intros method params. unfold Stdio.sendRequest.
    cbn [Stdio.process Stdio.requestId Stdio.set_timers Stdio.set_pending
           Stdio.settle Stdio.on_child Stdio.set_children].
    destruct (Stdio.process t); reflexivity.
Qed.

(** X21 when the child of an earlier connection exits after the transport
    has been reconnected and has sent a request to the new child. *)
Lemma X21_exit_rejects_pending_calls_witness :
  (1, Rejected "Process disconnected")
    ∈ Stdio.settled
        (Stdio.on_exit 0
           (StdioRun.run
              [StdioRun.Connect; StdioRun.Disconnect; StdioRun.Connect;
               StdioRun.Send "tools/list" None]
              (Stdio.new_StdioTransport false))).
Proof.
  assert (Hchild : Stdio.children
            (StdioRun.run
               [StdioRun.Connect; StdioRun.Disconnect; StdioRun.Connect;
                StdioRun.Send "tools/list" None]
               (Stdio.new_StdioTransport false)) !! 0%nat
          = Some (Stdio.once_exit_clear 0
                    (Stdio.kill Stdio.SIGTERM Stdio.spawned))).
  { vm_compute. reflexivity. }
  apply (proj1 (proj2
    (X21_exit_rejects_pending_calls _ 0 _ Hchild eq_refl))).
  apply (bool_decide_unpack _). vm_compute. exact I.
Defined.

Lemma stdio_step_quiet (t : Stdio.StdioTransport) (e : StdioRun.Event) :
  Stdio.pendingRequests t = ∅ ->
  StdioRun.is_send e = false ->
  Stdio.pendingRequests (StdioRun.step t e) = ∅
  /\ Stdio.settled (StdioRun.step t e) = Stdio.settled t.
Proof.
  intros Hempty Hsend.
  destruct e as [|method params|response| |h|ms]; cbn [StdioRun.step];
    try discriminate.
  - unfold Stdio.connect. destruct (Stdio.process t); now split.
  - unfold Stdio.handleResponse. rewrite Hempty.
    case_decide as Hin; [|now split].
    apply elem_of_empty in Hin. contradiction.
  - unfold Stdio.disconnect. destruct (Stdio.process t); [|now split].
    destruct (Stdio.win32 t); now split.
  - unfold Stdio.on_exit. destruct (Stdio.children t !! h); [|now split].
    destruct (Stdio.exited _); [now split|].
    cbn [Stdio.pendingRequests Stdio.settled Stdio.set_timers Stdio.set_pending
           Stdio.settle Stdio.on_child Stdio.set_children].
    rewrite Hempty, elements_empty. cbn [map]. rewrite app_nil_r. now split.
  - destruct (stdio_advance_frame ms t) as [Hp Hs]. rewrite Hp, Hs. now split.
Qed.

(** X22. [disconnect] of the stdio transport abandons the calls in
    flight: it empties the pending map without settling them, and nothing
    that happens afterwards short of a new request (a late response,
    the exit of the child, the force-kill timer, a reconnect) settles
    any promise: the callers of those calls are never answered. *)
Theorem X22_stdio_disconnect_abandons_calls (t : Stdio.StdioTransport)
    (events : list StdioRun.Event) :
  forallb (fun e => negb (StdioRun.is_send e)) events = true ->
  Stdio.pendingRequests (StdioRun.run events (Stdio.disconnect t)) = ∅
  /\ Stdio.settled (StdioRun.run events (Stdio.disconnect t)) = Stdio.settled t.
Proof.
  intros Hquiet.
  assert (Hstart : Stdio.pendingRequests (Stdio.disconnect t) = ∅
                   /\ Stdio.settled (Stdio.disconnect t) = Stdio.settled t).
  { unfold Stdio.disconnect. destruct (Stdio.process t); [|now split].
    destruct (Stdio.win32 t); now split. }
  destruct Hstart as [Hp Hs]. rewrite <- Hs. clear Hs.
  generalize dependent (Stdio.disconnect t). clear t.
  induction events as [|e events IH]; intros t Hp; [now split|].
  cbn [forallb] in Hquiet. apply andb_true_iff in Hquiet as [He Hrest].
  apply negb_true_iff in He.
  destruct (stdio_step_quiet t e Hp He) as [Hp1 Hs1].
  cbn [StdioRun.run foldl]. destruct (IH Hrest _ Hp1) as [Hp2 Hs2].
  split; [exact Hp2|]. unfold StdioRun.run in Hs2. rewrite Hs2. exact Hs1.
Qed.

(** X22 for a call in flight when [disconnect] is called: its response,
    the exit of the child and ten seconds settle nothing. *)
Lemma X22_stdio_disconnect_abandons_calls_witness :
  Stdio.pendingRequests
    (snd (Stdio.sendRequest "tools/list" None Stdio.sample_connected)) <> ∅
  /\ Stdio.settled
       (StdioRun.run
          [StdioRun.Response {| res_id := 1; res_result := Some JNull;
                                res_error := None |};
           StdioRun.Exit 0; StdioRun.Elapse 10000]
          (Stdio.disconnect
             (snd (Stdio.sendRequest "tools/list" None Stdio.sample_connected))))
     = [].
Proof.
  split.
  - intros Hempty.
    assert (Hin : 1 ∈ Stdio.pendingRequests
              (snd (Stdio.sendRequest "tools/list" None Stdio.sample_connected))).
    { apply elem_of_union_l, elem_of_singleton. reflexivity. }
    rewrite Hempty in Hin. apply elem_of_empty in Hin. exact Hin.
  - exact (proj2 (X22_stdio_disconnect_abandons_calls
                    (snd (Stdio.sendRequest "tools/list" None
                            Stdio.sample_connected))
                    [StdioRun.Response {| res_id := 1; res_result := Some JNull;
                                          res_error := None |};
                     StdioRun.Exit 0; StdioRun.Elapse 10000] eq_refl)).
Defined.

Lemma sse_callbacks_quiet (due : list (Z * Z)) (t : Sse.SseTransport) :
  Sse.pendingRequests t = ∅ ->
  foldl (fun t tm => Sse.timeout_callback (snd tm) t) t due = t.
Proof.
  intros Hempty. induction due as [|tm due IH]; [reflexivity|].
  cbn [foldl]. unfold Sse.timeout_callback at 2. rewrite Hempty.
  case_decide as Hin; [|exact IH].
  apply elem_of_empty in Hin. contradiction.
Qed.

Lemma sse_step_quiet (t : Sse.SseTransport) (e : SseRun.Event) :
  Sse.pendingRequests t = ∅ ->
  SseRun.is_send e = false ->
  SseRun.is_post_failed e = false ->
  Sse.pendingRequests (SseRun.step t e) = ∅
  /\ Sse.settled (SseRun.step t e) = Sse.settled t.
Proof.
  intros Hempty Hsend Hpost.
  destruct e as [| |method params|response|id message| |ms]; cbn [SseRun.step];
    try discriminate.
  - unfold Sse.connect. destruct (Sse.eventSource t); now split.
  - unfold Sse.on_open. destruct (Sse.eventSource t); now split.
  - unfold Sse.handleResponse. rewrite Hempty.
    case_decide as Hin; [|now split].
    apply elem_of_empty in Hin. contradiction.
  - unfold Sse.disconnect. destruct (Sse.eventSource t); now split.
  - unfold Sse.advance. rewrite sse_callbacks_quiet by exact Hempty. now split.
Qed.

(** X23. [disconnect] of the SSE transport abandons the calls in flight:
    it empties the pending map without settling them, and it does not
    cancel their timeout timers, which find nothing to reject when they
    fire.  Afterwards neither a response, nor the passing of time, nor a
    reconnect settles any promise; the one thing that still settles an
    abandoned call is the failure of its POST, which rejects it with the
    error of [fetch]. *)
Theorem X23_sse_disconnect_abandons_calls (t : Sse.SseTransport)
    (events : list SseRun.Event) (id : Z) (message : string) :
  forallb (fun e => negb (SseRun.is_send e) && negb (SseRun.is_post_failed e))
    events = true ->
  Sse.pendingRequests (SseRun.run events (Sse.disconnect t)) = ∅
  /\ Sse.settled (SseRun.run events (Sse.disconnect t)) = Sse.settled t
  /\ Sse.timers (Sse.disconnect t) = Sse.timers t
  /\ (id ∈ map rpc_id (Sse.posted t) ->
      Sse.settled (Sse.post_failed id message (Sse.disconnect t))
      = (Sse.settled t ++ [(id, Rejected message)])%list).
Proof.
  intros Hquiet.
  assert (Hstart : Sse.pendingRequests (Sse.disconnect t) = ∅
                   /\ Sse.settled (Sse.disconnect t) = Sse.settled t
                   /\ Sse.timers (Sse.disconnect t) = Sse.timers t
                   /\ Sse.posted (Sse.disconnect t) = Sse.posted t).
  { unfold Sse.disconnect. destruct (Sse.eventSource t); now repeat split. }
  destruct Hstart as (Hp & Hs & Ht & Hposted).
  split; [|split; [|split; [exact Ht|]]].
  - clear Hs Ht Hposted. generalize dependent (Sse.disconnect t). clear t.
    induction events as [|e events IH]; intros t Hp; [exact Hp|].
    cbn [forallb] in Hquiet. apply andb_true_iff in Hquiet as [He Hrest].
    apply andb_true_iff in He as [Hsend Hpost].
    apply negb_true_iff in Hsend, Hpost.
    cbn [SseRun.run foldl]. apply (IH Hrest), (sse_step_quiet t e Hp Hsend Hpost).
  - rewrite <- Hs. clear Hs Ht Hposted.
    generalize dependent (Sse.disconnect t). clear t.
    induction events as [|e events IH]; intros t Hp; [reflexivity|].
    cbn [forallb] in Hquiet. apply andb_true_iff in Hquiet as [He Hrest].
    apply andb_true_iff in He as [Hsend Hpost].
    apply negb_true_iff in Hsend, Hpost.
    destruct (sse_step_quiet t e Hp Hsend Hpost) as [Hp1 Hs1].
    cbn [SseRun.run foldl]. rewrite <- Hs1. apply (IH Hrest), Hp1.
  - intros Hin. unfold Sse.post_failed. rewrite Hposted.
    rewrite bool_decide_eq_true_2 by exact Hin.
    cbn [Sse.settled Sse.settle]. rewrite Hs. reflexivity.
Qed.

(** X23 for a call in flight when [disconnect] is called: a minute later
    its timeout has fired and nothing has been settled; the failure of
    its POST rejects it. *)
Lemma X23_sse_disconnect_abandons_calls_witness :
  Sse.timers
    (Sse.disconnect (snd (Sse.sendRequest "tools/list" None Sse.sample_open)))
  = [(30000, 1)]
  /\ Sse.settled
       (SseRun.run [SseRun.Elapse 60000]
          (Sse.disconnect
             (snd (Sse.sendRequest "tools/list" None Sse.sample_open))))
     = []
  /\ Sse.settled
       (Sse.post_failed 1 "fetch failed"
          (Sse.disconnect
             (snd (Sse.sendRequest "tools/list" None Sse.sample_open))))
     = [(1, Rejected "fetch failed")].
Proof.
  split; [reflexivity|].
  destruct (X23_sse_disconnect_abandons_calls
              (snd (Sse.sendRequest "tools/list" None Sse.sample_open))
              [SseRun.Elapse 60000] 1 "fetch failed" eq_refl)
    as (_ & Hquiet & _ & Hpost).
  split; [exact Hquiet|]. apply Hpost.
  apply list_elem_of_singleton. reflexivity.
Defined.

(** ** The transports: one settlement for each call *)

Lemma outcome_app_Some (id : Z) (l l' : list (Z * Settlement)) (x : Settlement) :
  outcome id l = Some x -> outcome id (l ++ l') = Some x.
Proof.
  unfold outcome. induction l as [|[i s] l IH]; [discriminate|].
  cbn [app List.find fst]. destruct (i =? id); [exact (fun H => H) | exact IH].
Qed.

Lemma outcome_app_None (id : Z) (l l' : list (Z * Settlement)) :
  outcome id l = None -> outcome id (l ++ l') = outcome id l'.
Proof.
  unfold outcome. induction l as [|[i s] l IH]; [reflexivity|].
  cbn [app List.find fst]. destruct (i =? id); [discriminate|exact IH].
Qed.

Lemma outcome_unused (id : Z) (l : list (Z * Settlement)) :
  (forall s, (id, s) ∉ l) -> outcome id l = None.
Proof.
  unfold outcome. induction l as [|[i s] l IH]; intros Hnot; [reflexivity|].
  cbn [List.find fst]. destruct (Z.eqb_spec i id) as [-> | Hne].
  - exfalso. apply (Hnot s). apply elem_of_cons. now left.
  - apply IH. intros s' Hin. apply (Hnot s'). apply elem_of_cons. now right.
Qed.

Lemma sse_callbacks_append (due : list (Z * Z)) :
  forall t : Sse.SseTransport,
  exists l : list (Z * Settlement),
    Sse.settled (foldl (fun t tm => Sse.timeout_callback (snd tm) t) t due)
    = (Sse.settled t ++ l)%list.
Proof.
  induction due as [|tm due IH]; intros t.
  - exists []. now rewrite app_nil_r.
  - cbn [foldl]. destruct (IH (Sse.timeout_callback (snd tm) t)) as [l Hl].
    rewrite Hl. unfold Sse.timeout_callback. case_decide.
    + cbn [Sse.settled Sse.settle Sse.set_pending]. rewrite <- app_assoc. eauto.
    + eauto.
Qed.

Lemma sse_step_appends (t : Sse.SseTransport) (e : SseRun.Event) :
  exists l : list (Z * Settlement),
    Sse.settled (SseRun.step t e) = (Sse.settled t ++ l)%list.
Proof.
  destruct e as [| |method params|response|id message| |ms]; cbn [SseRun.step].
  - exists []. rewrite app_nil_r. unfold Sse.connect.
    destruct (Sse.eventSource t); reflexivity.
  - exists []. rewrite app_nil_r. unfold Sse.on_open.
    destruct (Sse.eventSource t); reflexivity.
  - exists []. rewrite app_nil_r. unfold Sse.sendRequest.
    destruct (Sse.eventSource t) as [[| |]|]; reflexivity.
  - unfold Sse.handleResponse. case_decide; [eexists; reflexivity|].
    exists []. now rewrite app_nil_r.
  - unfold Sse.post_failed. destruct (bool_decide _); [eexists; reflexivity|].
    exists []. now rewrite app_nil_r.
  - exists []. rewrite app_nil_r. unfold Sse.disconnect.
    destruct (Sse.eventSource t); reflexivity.
  - unfold Sse.advance.
    match goal with
    | |- context [foldl _ ?t0 ?due] =>
      destruct (sse_callbacks_append due t0) as [l Hl]
    end.
    exists l. rewrite Hl. reflexivity.
Qed.

Lemma sse_run_appends (events : list SseRun.Event) :
  forall t : Sse.SseTransport,
  exists l : list (Z * Settlement),
    Sse.settled (SseRun.run events t) = (Sse.settled t ++ l)%list.
Proof.
  induction events as [|e events IH]; intros t.
  - exists []. now rewrite app_nil_r.
  - cbn [SseRun.run foldl]. destruct (IH (SseRun.step t e)) as [l Hl].
    destruct (sse_step_appends t e) as [l0 Hl0].
    unfold SseRun.run in Hl. rewrite Hl, Hl0, <- app_assoc. eauto.
Qed.

Lemma sse_ids_below_callback (id : Z) (t : Sse.SseTransport) :
  SseRun.ids_below t -> SseRun.ids_below (Sse.timeout_callback id t).
Proof.
  intros (Hp & Hs & Hposted). unfold Sse.timeout_callback.
  case_decide as Hin; [|now repeat split].
  split; [|split; [|exact Hposted]]; cbn.
  - intros i [Hi _]%elem_of_difference. exact (Hp i Hi).
  - intros i s [Hold | Hnew]%elem_of_app; [exact (Hs i s Hold)|].
    apply list_elem_of_singleton in Hnew. injection Hnew as -> ->.
    exact (Hp _ Hin).
Qed.

Lemma sse_ids_below_step (t : Sse.SseTransport) (e : SseRun.Event) :
  SseRun.ids_below t -> SseRun.ids_below (SseRun.step t e).
Proof.
  intros (Hp & Hs & Hposted).
  destruct e as [| |method params|response|id message| |ms]; cbn [SseRun.step].
  - unfold Sse.connect. destruct (Sse.eventSource t); now repeat split.
  - unfold Sse.on_open. destruct (Sse.eventSource t); now repeat split.
  - unfold Sse.sendRequest. destruct (Sse.eventSource t) as [[| |]|];
      try (now repeat split).
    cbn [snd]. split; [|split]; cbn.
    + intros i [Hi%elem_of_singleton | Hi]%elem_of_union; [lia|].
      specialize (Hp i Hi). lia.
    + intros i s Hin. specialize (Hs i s Hin). lia.
    + intros r [Hold | Hnew]%elem_of_app.
      * specialize (Hposted r Hold). lia.
      * apply list_elem_of_singleton in Hnew. subst r. cbn. lia.
  - unfold Sse.handleResponse. case_decide as Hin; [|now repeat split].
    split; [|split; [|exact Hposted]]; cbn.
    + intros i [Hi _]%elem_of_difference. exact (Hp i Hi).
    + intros i s [Hold | Hnew]%elem_of_app; [exact (Hs i s Hold)|].
      apply list_elem_of_singleton in Hnew. injection Hnew as -> ->.
      exact (Hp _ Hin).
  - unfold Sse.post_failed. case_bool_decide as Hin; [|now repeat split].
    split; [exact Hp|]. split; [|exact Hposted]. cbn.
    intros i s [Hold | Hnew]%elem_of_app; [exact (Hs i s Hold)|].
    apply list_elem_of_singleton in Hnew. injection Hnew as -> ->.
    apply list_elem_of_fmap in Hin as (r & -> & Hr). exact (Hposted r Hr).
  - unfold Sse.disconnect. split; [|split].
    + cbn. intros i Hi. apply elem_of_empty in Hi. contradiction.
    + destruct (Sse.eventSource t); exact Hs.
    + destruct (Sse.eventSource t); exact Hposted.
  - unfold Sse.advance.
    match goal with
    | |- SseRun.ids_below (foldl _ ?t0 ?due) =>
      assert (H0 : SseRun.ids_below t0) by (now repeat split);
      generalize H0; generalize t0; generalize due
    end.
    clear. intros due. induction due as [|tm due IH]; intros t0 H0; [exact H0|].
    cbn [foldl]. apply IH, sse_ids_below_callback, H0.
Qed.

Lemma sse_ids_below_run (events : list SseRun.Event) (t : Sse.SseTransport) :
  SseRun.ids_below t -> SseRun.ids_below (SseRun.run events t).
Proof.
  revert t. induction events as [|e events IH]; intros t Ht; [exact Ht|].
  cbn [SseRun.run foldl]. apply IH, sse_ids_below_step, Ht.
Qed.

(** X24. On the SSE transport the first settlement of a call stands.
    A request that [sendRequest] accepts, in any state the transport can
    reach from its construction, is pending and unsettled when
    [sendRequest] returns.  The response that carries the id of a pending,
    unsettled request settles its promise; the failure of the POST of an
    unsettled request rejects its promise with the error of [fetch] and
    leaves it pending.  And a promise that is settled stays as it is
    whatever happens afterwards (its timer firing, the failure of its
    POST, its response arriving late or again, further requests,
    disconnects and reconnects): so the response that arrives after the
    POST has failed settles nothing. *)
Theorem X24_sse_answer_is_final (config_url : string) (config_timeout : option Z)
    (before : list SseRun.Event) (method : string) (params : option JSON)
    (new_id : Z) (t1 t : Sse.SseTransport) (id : Z) (response : JSONRPCResponse)
    (message : string) (x : Settlement) (events : list SseRun.Event) :
  (Sse.sendRequest method params
     (SseRun.run before (Sse.new_SseTransport config_url config_timeout))
   = (Ok new_id, t1) ->
   new_id ∈ Sse.pendingRequests t1 /\ outcome new_id (Sse.settled t1) = None)
  /\ (res_id response = id ->
      id ∈ Sse.pendingRequests t ->
      outcome id (Sse.settled t) = None ->
      outcome id (Sse.settled (Sse.handleResponse response t))
      = Some (settlement_of response))
  /\ (id ∈ map rpc_id (Sse.posted t) ->
      outcome id (Sse.settled t) = None ->
      outcome id (Sse.settled (Sse.post_failed id message t))
      = Some (Rejected message)
      /\ Sse.pendingRequests (Sse.post_failed id message t)
         = Sse.pendingRequests t)
  /\ (outcome id (Sse.settled t) = Some x ->
      outcome id (Sse.settled (SseRun.run events t)) = Some x).
Proof.
  split; [|split; [|split]].
  - intros Hsend.
    assert (Hinv : SseRun.ids_below
                     (SseRun.run before
                        (Sse.new_SseTransport config_url config_timeout))).
    { apply sse_ids_below_run. repeat split; cbn.
      - intros i Hi. apply elem_of_empty in Hi. contradiction.
      - intros i s Hi. apply elem_of_nil in Hi. contradiction.
      - intros r Hr. apply elem_of_nil in Hr. contradiction. }
    destruct Hinv as (_ & Hs & _).
    unfold Sse.sendRequest in Hsend.
    destruct (Sse.eventSource _) as [[| |]|]; try discriminate.
    injection Hsend as <- <-. cbn [Sse.pendingRequests Sse.settled]. split.
    + apply elem_of_union_l, elem_of_singleton. reflexivity.
    + apply outcome_unused. intros s Hin. specialize (Hs _ _ Hin). lia.
  - intros Hid Hpending Hnone. unfold Sse.handleResponse. rewrite Hid.
    rewrite decide_True by exact Hpending.
    cbn [Sse.settled Sse.settle Sse.set_pending].
    rewrite outcome_app_None by exact Hnone.
    unfold outcome. cbn [List.find fst]. rewrite Z.eqb_refl. reflexivity.
  - intros Hposted Hnone. unfold Sse.post_failed.
    rewrite bool_decide_eq_true_2 by exact Hposted.
    cbn [Sse.settled Sse.settle Sse.pendingRequests]. split; [|reflexivity].
    rewrite outcome_app_None by exact Hnone.
    unfold outcome. cbn [List.find fst]. rewrite Z.eqb_refl. reflexivity.
  - intros Hsettled. destruct (sse_run_appends events t) as [l Hl].
    rewrite Hl. apply outcome_app_Some, Hsettled.
Qed.

(** X24 for the first call on a new connection: its answer stands
    through its timer and a late failure of its POST. *)
Lemma X24_sse_answer_is_final_witness :
  outcome 1
    (Sse.settled
       (SseRun.run [SseRun.Elapse 60000; SseRun.PostFailed 1 "fetch failed"]
          (Sse.handleResponse
             {| res_id := 1; res_result := Some JNull; res_error := None |}
             (snd (Sse.sendRequest "tools/list" None Sse.sample_open)))))
  = Some (Resolved (Some JNull)).
Proof.
  destruct (X24_sse_answer_is_final "http://localhost:3000/sse" None
              [SseRun.Connect; SseRun.Open] "tools/list" None 1
              (snd (Sse.sendRequest "tools/list" None Sse.sample_open))
              (snd (Sse.sendRequest "tools/list" None Sse.sample_open)) 1
              {| res_id := 1; res_result := Some JNull; res_error := None |}
              "fetch failed" (Resolved (Some JNull))
              [SseRun.Elapse 60000; SseRun.PostFailed 1 "fetch failed"])
    as (Hfresh & Hanswer & _ & _).
  destruct (Hfresh eq_refl) as [Hpending Hnone].
  pose proof (Hanswer eq_refl Hpending Hnone) as Hanswered.
  destruct (X24_sse_answer_is_final "http://localhost:3000/sse" None
              [SseRun.Connect; SseRun.Open] "tools/list" None 1
              (snd (Sse.sendRequest "tools/list" None Sse.sample_open))
              (Sse.handleResponse
                 {| res_id := 1; res_result := Some JNull; res_error := None |}
                 (snd (Sse.sendRequest "tools/list" None Sse.sample_open))) 1
              {| res_id := 1; res_result := Some JNull; res_error := None |}
              "fetch failed" (Resolved (Some JNull))
              [SseRun.Elapse 60000; SseRun.PostFailed 1 "fetch failed"])
    as (_ & _ & _ & Hfinal).
  exact (Hfinal Hanswered).
Defined.

(** ** The socket client: the fate of a request *)

Lemma socket_send_cases (attempt : SocketClient.ConnectOutcome)
    (write_error : option string) (command : SocketCommand)
    (c : SocketClient.SocketClient) :
  let r := fst (SocketClient.send attempt write_error command c) in
  let c' := snd (SocketClient.send attempt write_error command c) in
  let id := pretty (SocketClient.requestId c + 1) in
  let entry := <[id := SocketClient.clock c
                       + timer_delay (SocketClient.timeout c)]>
                 (SocketClient.pendingRequests c) in
  SocketClient.clock c' = SocketClient.clock c
  /\ SocketClient.timeout c' = SocketClient.timeout c
  /\ ((SocketClient.requestId c' = SocketClient.requestId c
       /\ SocketClient.pendingRequests c' = SocketClient.pendingRequests c
       /\ exists e, r = Throw e)
      \/ (SocketClient.requestId c' = SocketClient.requestId c + 1
          /\ ((r = Ok id /\ SocketClient.pendingRequests c' = entry)
              \/ (exists e, r = Throw e
                            /\ (SocketClient.pendingRequests c' = entry
                                \/ SocketClient.pendingRequests c'
                                   = delete id entry))))).
Proof.
  unfold SocketClient.send, SocketClient.connect. run_monad.
  destruct (SocketClient.connected c) eqn:Hconn;
    destruct (SocketClient.socket c) as [h|] eqn:Hsock; cbn;
    rewrite ?Hconn, ?Hsock; cbn;
    destruct attempt; destruct write_error; cbn;
    rewrite ?Hsock; cbn;
    (split; [reflexivity|]); (split; [reflexivity|]);
    eauto 10.
Qed.

Lemma settle_is_Some (r : Caller.Reply) (ids : gmap string Z)
    (o : gmap string Caller.Reply) (id : string) :
  is_Some (Caller.settle r ids o !! id) ->
  is_Some (o !! id) \/ is_Some (ids !! id).
Proof.
  unfold Caller.settle. rewrite lookup_union_is_Some, lookup_fmap, fmap_is_Some.
  tauto.
Qed.

Lemma settle_lookup_new (r : Caller.Reply) (ids : gmap string Z)
    (o : gmap string Caller.Reply) (id : string) :
  o !! id = None -> is_Some (ids !! id) ->
  Caller.settle r ids o !! id = Some r.
Proof.
  intros Hnone [x Hx]. unfold Caller.settle.
  rewrite lookup_union_r by exact Hnone. rewrite lookup_fmap, Hx. reflexivity.
Qed.

Lemma settle_lookup_old (r : Caller.Reply) (ids : gmap string Z)
    (o : gmap string Caller.Reply) (id : string) :
  ids !! id = None -> Caller.settle r ids o !! id = o !! id.
Proof.
  intros Hnone. unfold Caller.settle.
  destruct (o !! id) as [x|] eqn:Ho.
  - apply lookup_union_Some_l, Ho.
  - apply lookup_union_None. split; [exact Ho|].
    rewrite lookup_fmap, Hnone. reflexivity.
Qed.

Lemma ids_drawn_step (k : Caller.Caller) (e : Caller.Event) :
  Caller.ids_drawn k -> Caller.ids_drawn (Caller.step k e).
Proof.
  intros Hinv.
  destruct e as [attempt write_error command|response| | | |ms];
    cbn [Caller.step].
  - unfold Caller.send.
    pose proof (socket_send_cases attempt write_error command (Caller.client k))
      as Hcases.
    destruct (SocketClient.send attempt write_error command (Caller.client k))
      as [r c']. cbn [fst snd] in Hcases.
    destruct Hcases as (_ & _ & Hcases). cbn [snd].
    intros id Hid. cbn [Caller.client Caller.orphans Caller.outcomes] in Hid |- *.
    destruct Hcases as [(Hreq & Hpend & e & ->)
                       | (Hreq & [[-> Hpend] | (e & -> & Hpend)])].
    + rewrite Hreq, Z.eqb_refl, Hpend in *. apply Hinv, Hid.
    + rewrite Hreq, Hpend in *.
      destruct Hid as [Hp | Hrest].
      * apply lookup_insert_is_Some in Hp as [<- | [_ Hp]].
        -- eexists. split; [reflexivity | lia].
        -- destruct (Hinv id (or_introl Hp)) as (n & -> & Hn).
           exists n. split; [reflexivity | lia].
      * destruct (Hinv id (or_intror Hrest)) as (n & -> & Hn).
        exists n. split; [reflexivity | lia].
    + assert (Hne : (SocketClient.requestId c'
                     =? SocketClient.requestId (Caller.client k)) = false)
        by (apply Z.eqb_neq; lia).
      rewrite Hne in Hid. rewrite Hreq in *.
      assert (Hp : is_Some (SocketClient.pendingRequests c' !! id) ->
                   id = pretty (SocketClient.requestId (Caller.client k) + 1)
                   \/ is_Some (SocketClient.pendingRequests (Caller.client k)
                                 !! id)).
      { destruct Hpend as [-> | ->].
        - intros [<- | [_ H]]%lookup_insert_is_Some; [now left | now right].
        - intros [x [_ Hx]%lookup_delete_Some].
          apply lookup_insert_Some in Hx as [[<- _] | [_ Hx]];
            [now left | right; eauto]. }
      assert (Hold : id = pretty (SocketClient.requestId (Caller.client k) + 1)
                     \/ (is_Some (SocketClient.pendingRequests (Caller.client k)
                                    !! id)
                         \/ is_Some (Caller.orphans k !! id)
                         \/ is_Some (Caller.outcomes k !! id))).
      { destruct Hid as [Hid | [Hid | Hid]].
        - destruct (Hp Hid); [now left | right; now left].
        - right. right. now left.
        - apply settle_is_Some in Hid as [Hid | Hid].
          + right. right. now right.
          + left. apply lookup_singleton_is_Some in Hid. congruence. }
      destruct Hold as [-> | Hold].
      * eexists. split; [reflexivity | lia].
      * destruct (Hinv id Hold) as (n & -> & Hn).
        exists n. split; [reflexivity | lia].
  - unfold Caller.handleResponse.
    destruct (resp_id response) as [| |i]; try exact Hinv.
    destruct (SocketClient.pendingRequests (Caller.client k) !! i) eqn:Hi;
      [|exact Hinv].
    intros id Hid. cbn in Hid |- *. apply Hinv.
    destruct Hid as [[x [_ Hx]%lookup_delete_Some] | [Hid | Hid]].
    + left. eauto.
    + right. now left.
    + apply settle_is_Some in Hid as [Hid | Hid]; [right; now right|].
      apply lookup_singleton_is_Some in Hid. subst i. left. eauto.
  - intros id Hid. cbn in Hid |- *. apply Hinv.
    destruct Hid as [[x Hx] | [Hid | Hid]].
    + rewrite lookup_empty in Hx. discriminate.
    + right. now left.
    + apply settle_is_Some in Hid as [Hid | Hid]; [right; now right | now left].
  - intros id Hid. cbn in Hid |- *. apply Hinv, Hid.
  - intros id Hid. unfold Caller.disconnect in Hid |- *.
    cbn [Caller.client Caller.orphans Caller.outcomes] in Hid |- *.
    assert (Hreq : forall c1 : SocketClient.SocketClient,
              SocketClient.requestId
                (Caller.set_state None false ∅ (SocketClient.clock c1) c1)
              = SocketClient.requestId c1) by reflexivity.
    rewrite Hreq.
    replace (SocketClient.requestId
               match SocketClient.socket (Caller.client k) with
               | Some h => SocketClient.do_net (SocketClient.socket_end h)
                             (Caller.client k)
               | None => Caller.client k
               end)
      with (SocketClient.requestId (Caller.client k))
      by (destruct (SocketClient.socket (Caller.client k)); reflexivity).
    apply Hinv.
    destruct Hid as [[x Hx] | [Hid | Hid]].
    + cbn in Hx. rewrite lookup_empty in Hx. discriminate.
    + apply lookup_union_is_Some in Hid as [Hid | Hid];
        [right; now left | now left].
    + right. now right.
  - intros id Hid. cbn in Hid |- *. apply Hinv.
    destruct Hid as [[x [Hx _]%lookup_difference_Some] | [[x Hx] | Hid]].
    + left. apply map_lookup_filter_Some in Hx as [Hx _]. eauto.
    + right. left. apply map_lookup_filter_Some in Hx as [Hx _]. eauto.
    + apply settle_is_Some in Hid as [Hid | Hid]; [right; now right|].
      apply lookup_union_is_Some in Hid as [[x Hx] | [x Hx]];
        apply map_lookup_filter_Some in Hx as [Hx _]; eauto.
Qed.

Lemma ids_drawn_run (events : list Caller.Event) (k : Caller.Caller) :
  Caller.ids_drawn k -> Caller.ids_drawn (Caller.run events k).
Proof.
  revert k. induction events as [|e events IH]; intros k Hk; [exact Hk|].
  cbn [Caller.run foldl]. apply IH, ids_drawn_step, Hk.
Qed.

Lemma ids_drawn_new (c : SocketClient.SocketClient) :
  SocketClient.pendingRequests c = ∅ -> Caller.ids_drawn (Caller.new_Caller c).
Proof.
  intros Hempty id [[x Hx] | [[x Hx] | [x Hx]]]; cbn in Hx;
    rewrite ?Hempty, lookup_empty in Hx; discriminate.
Qed.

(** The id that [send] draws next names no promise yet. *)
Lemma next_id_unused (k : Caller.Caller) :
  Caller.ids_drawn k ->
  let id := pretty (SocketClient.requestId (Caller.client k) + 1) in
  SocketClient.pendingRequests (Caller.client k) !! id = None
  /\ Caller.orphans k !! id = None
  /\ Caller.outcomes k !! id = None.
Proof.
  intros Hinv id.
  assert (Hnot : ~ (is_Some (SocketClient.pendingRequests (Caller.client k) !! id)
                    \/ is_Some (Caller.orphans k !! id)
                    \/ is_Some (Caller.outcomes k !! id))).
  { intros Hsome. destruct (Hinv id Hsome) as (n & Heq & Hn).
    apply (inj pretty) in Heq. lia. }
  repeat split; apply eq_None_not_Some; tauto.
Qed.

(** [send] on a client that has a socket whenever it counts as connected:
    the write to a missing socket does not occur. *)
Lemma socket_send_connected (attempt : SocketClient.ConnectOutcome)
    (write_error : option string) (command : SocketCommand)
    (c : SocketClient.SocketClient) :
  (SocketClient.connected c = true -> is_Some (SocketClient.socket c)) ->
  let r := fst (SocketClient.send attempt write_error command c) in
  let c' := snd (SocketClient.send attempt write_error command c) in
  let id := pretty (SocketClient.requestId c + 1) in
  let entry := <[id := SocketClient.clock c
                       + timer_delay (SocketClient.timeout c)]>
                 (SocketClient.pendingRequests c) in
  (SocketClient.connected c' = true -> is_Some (SocketClient.socket c'))
  /\ ((SocketClient.requestId c' = SocketClient.requestId c
       /\ SocketClient.pendingRequests c' = SocketClient.pendingRequests c
       /\ exists e, r = Throw e)
      \/ (SocketClient.requestId c' = SocketClient.requestId c + 1
          /\ ((r = Ok id /\ SocketClient.pendingRequests c' = entry)
              \/ (exists e, r = Throw e
                            /\ SocketClient.pendingRequests c'
                               = delete id entry)))).
Proof.
  intros Hsocket.
  unfold SocketClient.send, SocketClient.connect. run_monad.
  destruct (SocketClient.connected c) eqn:Hconn;
    destruct (SocketClient.socket c) as [h|] eqn:Hsock;
    try (destruct (Hsocket eq_refl) as [x Hx]; discriminate);
    cbn; rewrite ?Hconn, ?Hsock; cbn;
    destruct attempt; destruct write_error; cbn;
    rewrite ?Hsock, ?Hconn; cbn;
    (split; [try (intros _; eauto); try discriminate; eauto|]);
    eauto 10.
Qed.

Lemma well_formed_step (k : Caller.Caller) (e : Caller.Event) :
  Caller.well_formed k -> Caller.well_formed (Caller.step k e).
Proof.
  intros (Hdrawn & Hsocket & Hpending).
  split; [apply ids_drawn_step, Hdrawn|].
  destruct e as [attempt write_error command|response| | | |ms];
    cbn [Caller.step].
  - unfold Caller.send.
    pose proof (socket_send_connected attempt write_error command
                  (Caller.client k) Hsocket) as Hcases.
    destruct (next_id_unused k Hdrawn) as (Hp0 & Ho0 & Hs0). cbn zeta in *.
    destruct (SocketClient.send attempt write_error command (Caller.client k))
      as [r c']. cbn [fst snd] in Hcases.
    destruct Hcases as (Hsocket' & Hcases). cbn [snd].
    cbn [Caller.client Caller.orphans Caller.outcomes].
    split; [exact Hsocket'|]. intros id Hid.
    destruct Hcases as [(Hreq & Hpend & e & ->)
                       | (Hreq & [[-> Hpend] | (e & -> & Hpend)])].
    + rewrite Hreq, Z.eqb_refl. rewrite Hpend in Hid. apply Hpending, Hid.
    + rewrite Hpend in Hid.
      apply lookup_insert_is_Some in Hid as [<- | [_ Hid]];
        [now split | apply Hpending, Hid].
    + assert (Hne : (SocketClient.requestId c'
                     =? SocketClient.requestId (Caller.client k)) = false)
        by (apply Z.eqb_neq; lia).
      rewrite Hne, Hreq. rewrite Hpend in Hid.
      destruct Hid as [x [Hother Hx]%lookup_delete_Some].
      apply lookup_insert_Some in Hx as [[Heq _] | [_ Hx]]; [congruence|].
      destruct (Hpending id (ex_intro _ x Hx)) as [Hout Horph].
      split; [|exact Horph].
      rewrite settle_lookup_old; [exact Hout|].
      apply lookup_singleton_ne. congruence.
  - unfold Caller.handleResponse.
    destruct (resp_id response) as [| |i]; try (split; assumption).
    destruct (SocketClient.pendingRequests (Caller.client k) !! i) eqn:Hi;
      [|split; assumption].
    cbn [Caller.client Caller.orphans Caller.outcomes Caller.set_state
           SocketClient.connected SocketClient.socket
           SocketClient.pendingRequests].
    split; [exact Hsocket|]. intros id [x [Hne Hx]%lookup_delete_Some].
    destruct (Hpending id (ex_intro _ x Hx)) as [Hout Horph].
    split; [|exact Horph].
    rewrite settle_lookup_old; [exact Hout|].
    apply lookup_singleton_ne. exact Hne.
  - cbn. split; [discriminate|]. intros id [x Hx].
    rewrite lookup_empty in Hx. discriminate.
  - cbn. split; [discriminate|]. exact Hpending.
  - unfold Caller.disconnect.
    cbn [Caller.client Caller.orphans Caller.outcomes Caller.set_state
           SocketClient.connected SocketClient.socket
           SocketClient.pendingRequests].
    split; [discriminate|]. intros id [x Hx].
    rewrite lookup_empty in Hx. discriminate.
  - unfold Caller.advance.
    cbn [Caller.client Caller.orphans Caller.outcomes Caller.set_state
           SocketClient.connected SocketClient.socket
           SocketClient.pendingRequests].
    split; [exact Hsocket|].
    intros id [x [Hx Hnot]%lookup_difference_Some].
    apply map_lookup_filter_Some in Hx as [Hx Hlate]. cbn [snd] in Hlate.
    destruct (Hpending id (ex_intro _ x Hx)) as [Hout Horph]. split.
    + rewrite settle_lookup_old; [exact Hout|].
      apply lookup_union_None. split; [|exact Hnot].
      apply map_lookup_filter_None. right. intros y Hy.
      assert (y = x) as -> by congruence. exact Hlate.
    + apply map_lookup_filter_None. left. exact Horph.
Qed.

Lemma well_formed_run (events : list Caller.Event) (k : Caller.Caller) :
  Caller.well_formed k -> Caller.well_formed (Caller.run events k).
Proof.
  revert k. induction events as [|e events IH]; intros k Hk; [exact Hk|].
  cbn [Caller.run foldl]. apply IH, well_formed_step, Hk.
Qed.

Lemma well_formed_new (options_session : option string)
    (options_timeout : option Z) (onWindows : bool) (tmp : string) :
  Caller.well_formed
    (Caller.new_Caller
       (SocketClient.new_SocketClient options_session options_timeout
          onWindows tmp)).
Proof.
  split; [apply ids_drawn_new; reflexivity|]. split; [discriminate|].
  intros id [x Hx]. cbn in Hx. rewrite lookup_empty in Hx. discriminate.
Qed.

Lemma timer_delay_range (ms : Z) :
  1 <= timer_delay ms <= 2147483647
  /\ (1 <= ms <= 2147483647 -> timer_delay ms = ms).
Proof.
  unfold timer_delay.
  destruct (ms <? 1) eqn:Hlow; destruct (2147483647 <? ms) eqn:Hhigh;
    cbn [orb]; try apply Z.ltb_lt in Hlow; try apply Z.ltb_ge in Hlow;
    try apply Z.ltb_lt in Hhigh; try apply Z.ltb_ge in Hhigh; lia.
Qed.

(** What a successful [send] leaves behind. *)
Lemma caller_send_ok (attempt : SocketClient.ConnectOutcome)
    (write_error : option string) (command : SocketCommand)
    (k k1 : Caller.Caller) (id : string) :
  Caller.send attempt write_error command k = (Ok id, k1) ->
  id = pretty (SocketClient.requestId (Caller.client k) + 1)
  /\ SocketClient.pendingRequests (Caller.client k1)
     = <[id := SocketClient.clock (Caller.client k)
               + timer_delay (SocketClient.timeout (Caller.client k))]>
         (SocketClient.pendingRequests (Caller.client k))
  /\ SocketClient.clock (Caller.client k1) = SocketClient.clock (Caller.client k)
  /\ SocketClient.timeout (Caller.client k1)
     = SocketClient.timeout (Caller.client k)
  /\ SocketClient.requestId (Caller.client k1)
     = SocketClient.requestId (Caller.client k) + 1
  /\ Caller.orphans k1 = Caller.orphans k
  /\ Caller.outcomes k1 = Caller.outcomes k.
Proof.
  unfold Caller.send.
  pose proof (socket_send_cases attempt write_error command (Caller.client k))
    as Hcases.
  destruct (SocketClient.send attempt write_error command (Caller.client k))
    as [r c']. cbn [fst snd] in Hcases.
  intros Heq. injection Heq as -> <-.
  cbn [Caller.client Caller.orphans Caller.outcomes].
  destruct Hcases as (Hclock & Htimeout & Hcases).
  destruct Hcases as [(_ & _ & e & He) | (Hreq & [[Hid Hpend] | (e & He & _)])];
    try discriminate.
  injection Hid as ->. repeat split; assumption.
Qed.

(** When the timers of the requests in flight fire. *)
Lemma advance_pending (k : Caller.Caller) (id : string) (due ms : Z) :
  Caller.well_formed k ->
  SocketClient.pendingRequests (Caller.client k) !! id = Some due ->
  Caller.outcomes (Caller.advance ms k) !! id
  = if decide (due <= SocketClient.clock (Caller.client k) + ms)
    then Some (Caller.Failed "Request timeout") else None.
Proof.
  intros (_ & _ & Hpending) Hdue.
  destruct (Hpending id (ex_intro _ due Hdue)) as [Hout Horph].
  unfold Caller.advance. cbn [Caller.outcomes]. case_decide as Hle.
  - apply settle_lookup_new; [exact Hout|].
    apply lookup_union_is_Some. left. exists due.
    apply map_lookup_filter_Some. split; [exact Hdue | exact Hle].
  - rewrite settle_lookup_old; [exact Hout|].
    apply lookup_union_None. split; apply map_lookup_filter_None.
    + right. intros x Hx. assert (x = due) as -> by congruence. exact Hle.
    + left. exact Horph.
Qed.

(** X25. A request of the socket client that is not answered is rejected
    with "Request timeout" when its timer fires, and not before.  In any
    state the client can reach from its construction: every request in
    flight is unsettled as long as the clock has not reached the time its
    timer is due, and rejected once it has; the timer of a request that
    [send] has just accepted is due after the configured timeout, or
    after one millisecond when the timeout is not between 1 and
    2147483647; the timer takes the id out of the pending map, so that a
    response arriving afterwards is dropped; and [disconnect], which
    clears the map but not the timers, does not spare the caller the
    wait: the promise is still rejected by the timer, and by nothing
    else. *)
Theorem X25_unanswered_request_times_out (options_session : option string)
    (options_timeout : option Z) (onWindows : bool) (tmp : string)
    (events : list Caller.Event) (attempt : SocketClient.ConnectOutcome)
    (write_error : option string) (command : SocketCommand)
    (id : string) (k1 : Caller.Caller) (response : SocketResponse) :
  let k := Caller.run events
             (Caller.new_Caller
                (SocketClient.new_SocketClient options_session options_timeout
                   onWindows tmp)) in
  Caller.send attempt write_error command k = (Ok id, k1) ->
  resp_id response = id_string id ->
  let deadline := timer_delay (SocketClient.timeout (Caller.client k1)) in
  (forall (other : string) (due ms : Z),
     SocketClient.pendingRequests (Caller.client k1) !! other = Some due ->
     Caller.outcomes (Caller.advance ms k1) !! other
     = if decide (due <= SocketClient.clock (Caller.client k1) + ms)
       then Some (Caller.Failed "Request timeout") else None)
  /\ SocketClient.pendingRequests (Caller.client k1) !! id
     = Some (SocketClient.clock (Caller.client k1) + deadline)
  /\ 1 <= deadline <= 2147483647
  /\ (1 <= SocketClient.timeout (Caller.client k1) <= 2147483647 ->
      deadline = SocketClient.timeout (Caller.client k1))
  /\ (forall ms, ms < deadline ->
        Caller.outcomes (Caller.advance ms k1) !! id = None)
  /\ Caller.outcomes (Caller.advance deadline k1) !! id
     = Some (Caller.Failed "Request timeout")
  /\ SocketClient.pendingRequests (Caller.client (Caller.advance deadline k1))
       !! id = None
  /\ Caller.handleResponse response (Caller.advance deadline k1)
     = Caller.advance deadline k1
  /\ Caller.outcomes (Caller.disconnect k1) !! id = None
  /\ Caller.outcomes (Caller.advance deadline (Caller.disconnect k1)) !! id
     = Some (Caller.Failed "Request timeout").
Proof.
  intros k Hsend Hresp deadline.
  assert (Hwf : Caller.well_formed k).
  { apply well_formed_run, well_formed_new. }
  assert (Hwf1 : Caller.well_formed k1).
  { replace k1 with (Caller.step k (Caller.Send attempt write_error command))
      by (cbn [Caller.step]; now rewrite Hsend).
    apply well_formed_step, Hwf. }
  destruct (caller_send_ok _ _ _ _ _ _ Hsend)
    as (Hid & Hpend & Hclock & Htimeout & Hreq & Horph & Hout).
  destruct (next_id_unused k (proj1 Hwf)) as (Hp0 & Ho0 & Hs0).
  cbn zeta in Hp0, Ho0, Hs0. rewrite <- Hid in Hp0, Ho0, Hs0.
  assert (Hentry : SocketClient.pendingRequests (Caller.client k1) !! id
                   = Some (SocketClient.clock (Caller.client k1) + deadline)).
  { rewrite Hpend, Hclock. unfold deadline. rewrite Htimeout.
    apply lookup_insert_eq. }
  assert (Hlate : SocketClient.pendingRequests
                    (Caller.client (Caller.advance deadline k1)) !! id = None).
  { unfold Caller.advance. cbn [Caller.client Caller.set_state
                                  SocketClient.pendingRequests].
    apply lookup_difference_None. left. apply map_lookup_filter_None. right.
    intros x Hx. rewrite Hentry in Hx. injection Hx as <-. cbn [snd]. lia. }
  split; [intros other due ms; apply advance_pending, Hwf1|].
  split; [exact Hentry|].
  split; [apply timer_delay_range|]. split; [apply timer_delay_range|].
  split; [|split; [|split; [exact Hlate|split; [|split]]]].
  - intros ms Hms. rewrite (advance_pending k1 id _ ms Hwf1 Hentry).
    rewrite decide_False by lia. reflexivity.
  - rewrite (advance_pending k1 id _ deadline Hwf1 Hentry).
    rewrite decide_True by lia. reflexivity.
  - unfold Caller.handleResponse. rewrite Hresp, Hlate. reflexivity.
  - unfold Caller.disconnect. cbn [Caller.outcomes]. rewrite Hout. exact Hs0.
  - unfold Caller.advance, Caller.disconnect.
    cbn [Caller.outcomes Caller.client Caller.orphans Caller.set_state
           SocketClient.clock SocketClient.pendingRequests].
    apply settle_lookup_new; [rewrite Hout; exact Hs0|].
    apply lookup_union_is_Some. right. eexists.
    apply map_lookup_filter_Some. split.
    + rewrite lookup_union_r by (rewrite Horph; exact Ho0). exact Hentry.
    + cbn [snd]. destruct (SocketClient.socket (Caller.client k1));
        cbn [SocketClient.clock SocketClient.do_net]; lia.
Qed.

(** X25 for the first request of the sample client: thirty seconds later
    its promise is rejected. *)
Lemma X25_unanswered_request_times_out_witness :
  Caller.outcomes (Caller.advance 29999 Fixtures.waiting_caller) !! "1" = None
  /\ Caller.outcomes (Caller.advance 30000 Fixtures.waiting_caller) !! "1"
     = Some (Caller.Failed "Request timeout").
Proof.
  assert (Hsend : Caller.send SocketClient.connect_event None
                    Fixtures.ping_command
                    (Caller.run []
                       (Caller.new_Caller
                          (SocketClient.new_SocketClient None None false "/tmp")))
                  = (Ok "1", Fixtures.waiting_caller)).
  { vm_compute. reflexivity. }
  destruct (X25_unanswered_request_times_out None None false "/tmp" []
              SocketClient.connect_event None Fixtures.ping_command "1"
              Fixtures.waiting_caller Fixtures.pong Hsend eq_refl)
    as (_ & _ & _ & _ & Hbefore & Hafter & _).
  split; [apply Hbefore; vm_compute; reflexivity | exact Hafter].
Defined.

(** X26. When the daemon closes the connection, every request in flight
    is rejected with "Connection closed", no other promise is touched, and
    the pending map is emptied, in any state the client can reach from
    its construction; the client notes that it is no longer connected, so
    that the next [send] opens a new connection and writes its command,
    under the next id, to the new socket. *)
Theorem X26_close_rejects_and_send_reconnects (options_session : option string)
    (options_timeout : option Z) (onWindows : bool) (tmp : string)
    (events : list Caller.Event) (command : SocketCommand) :
  let k := Caller.run events
             (Caller.new_Caller
                (SocketClient.new_SocketClient options_session options_timeout
                   onWindows tmp)) in
  let c := Caller.client k in
  let next := pretty (SocketClient.requestId c + 1) in
  (forall id : string,
     is_Some (SocketClient.pendingRequests c !! id) ->
     Caller.outcomes (Caller.on_close k) !! id
     = Some (Caller.Failed "Connection closed"))
  /\ (forall id : string,
        SocketClient.pendingRequests c !! id = None ->
        Caller.outcomes (Caller.on_close k) !! id = Caller.outcomes k !! id)
  /\ SocketClient.pendingRequests (Caller.client (Caller.on_close k)) = ∅
  /\ SocketClient.connected (Caller.client (Caller.on_close k)) = false
  /\ fst (Caller.send SocketClient.connect_event None command (Caller.on_close k))
     = Ok next
  /\ SocketClient.net
       (Caller.client
          (snd (Caller.send SocketClient.connect_event None command
                  (Caller.on_close k))))
     = (SocketClient.net c
          ++ [SocketClient.createConnection (SocketClient.sockets_created c)
                (SocketClient.getSocketPath (SocketClient.isWindows c)
                   (SocketClient.tmpdir c) (SocketClient.session c));
              SocketClient.socket_write (SocketClient.sockets_created c)
                {| cmd_id := Some next; cmd_action := cmd_action command;
                   cmd_server := cmd_server command;
                   cmd_tool := cmd_tool command;
                   cmd_arguments := cmd_arguments command |}])%list.
Proof.
  intros k c next.
  assert (Hwf : Caller.well_formed k).
  { apply well_formed_run, well_formed_new. }
  destruct Hwf as (_ & _ & Hpending).
  split; [|split; [|split; [reflexivity|split; [reflexivity|]]]].
  - intros id Hid. unfold Caller.on_close. cbn [Caller.outcomes].
    apply settle_lookup_new; [apply (Hpending id Hid) | exact Hid].
  - intros id Hid. unfold Caller.on_close. cbn [Caller.outcomes].
    apply settle_lookup_old, Hid.
  - unfold Caller.send, SocketClient.send, SocketClient.connect, Caller.on_close.
    run_monad.
    cbn [Caller.client Caller.set_state SocketClient.connected negb orb].
    cbn. rewrite <- app_assoc. split; reflexivity.
Qed.

(** X26 for the sample client with two requests in flight: both are
    rejected, and the next request goes out as the third. *)
Lemma X26_close_rejects_and_send_reconnects_witness :
  Caller.outcomes (Caller.on_close Fixtures.busy_caller) !! "1"
  = Some (Caller.Failed "Connection closed")
  /\ Caller.outcomes (Caller.on_close Fixtures.busy_caller) !! "2"
     = Some (Caller.Failed "Connection closed")
  /\ fst (Caller.send SocketClient.connect_event None Fixtures.ping_command
            (Caller.on_close Fixtures.busy_caller)) = Ok "3".
Proof.
  assert (Hrun : Caller.run
                   [Caller.Send SocketClient.connect_event None
                      Fixtures.ping_command;
                    Caller.Send SocketClient.connect_event None
                      Fixtures.ping_command]
                   (Caller.new_Caller
                      (SocketClient.new_SocketClient None None false "/tmp"))
                 = Fixtures.busy_caller).
  { reflexivity. }
  destruct (X26_close_rejects_and_send_reconnects None None false "/tmp"
              [Caller.Send SocketClient.connect_event None Fixtures.ping_command;
               Caller.Send SocketClient.connect_event None Fixtures.ping_command]
              Fixtures.ping_command) as (Hclosed & _ & _ & _ & Hnext & _).
  rewrite Hrun in Hclosed, Hnext.
  split; [|split].
  - apply Hclosed. vm_compute. eauto.
  - apply Hclosed. vm_compute. eauto.
  - rewrite Hnext. vm_compute. reflexivity.
Defined.

(** X27. A response settles the request whose id it carries and no
    other, in any state the client can reach from its construction.
    When a request is pending under the id of the response, its promise is
    resolved with the response and its entry, and no other, leaves the
    pending map; every other promise is as it was; a second copy of the
    response is dropped; and the timer of the request, which the handler
    cancels, rejects nothing later.  A response whose id is not pending
    (unknown, answered before, timed out), or is not a string, changes
    nothing. *)
Theorem X27_response_settles_its_call (options_session : option string)
    (options_timeout : option Z) (onWindows : bool) (tmp : string)
    (events : list Caller.Event) (response : SocketResponse) :
  let k := Caller.run events
             (Caller.new_Caller
                (SocketClient.new_SocketClient options_session options_timeout
                   onWindows tmp)) in
  let k' := Caller.handleResponse response k in
  match resp_id response with
  | id_string id =>
    (is_Some (SocketClient.pendingRequests (Caller.client k) !! id) ->
     Caller.outcomes k' !! id = Some (Caller.Answered response)
     /\ SocketClient.pendingRequests (Caller.client k')
        = delete id (SocketClient.pendingRequests (Caller.client k))
     /\ (forall other, other <> id ->
           Caller.outcomes k' !! other = Caller.outcomes k !! other)
     /\ Caller.handleResponse response k' = k'
     /\ forall ms, Caller.outcomes (Caller.advance ms k') !! id
                   = Some (Caller.Answered response))
    /\ (SocketClient.pendingRequests (Caller.client k) !! id = None -> k' = k)
  | _ => k' = k
  end.
Proof.
  intros k k'.
  assert (Hwf : Caller.well_formed k).
  { apply well_formed_run, well_formed_new. }
  destruct Hwf as (_ & _ & Hpending).
  unfold k', Caller.handleResponse.
  destruct (resp_id response) as [| |id] eqn:Hresp; try reflexivity.
  split.
  - intros Hid. destruct (Hpending id Hid) as [Hout _].
    destruct Hid as [due Hdue]. rewrite Hdue.
    assert (Hanswered :
      Caller.settle (Caller.Answered response) {[id := 0]} (Caller.outcomes k)
        !! id = Some (Caller.Answered response)).
    { apply settle_lookup_new; [exact Hout|].
      rewrite lookup_singleton_eq. eauto. }
    cbn [Caller.outcomes Caller.client Caller.set_state
           SocketClient.pendingRequests].
    split; [exact Hanswered|]. split; [reflexivity|]. split; [|split].
    + intros other Hother. apply settle_lookup_old.
      apply lookup_singleton_ne. congruence.
    + cbn [Caller.client Caller.set_state SocketClient.pendingRequests].
      rewrite lookup_delete_eq. reflexivity.
    + intros ms. unfold Caller.advance. cbn [Caller.outcomes].
      unfold Caller.settle at 1. apply lookup_union_Some_l, Hanswered.
  - intros Hnone. rewrite Hnone. reflexivity.
Qed.

(** X27 for the sample client with two requests in flight: the response
    to the first resolves the first and leaves the second waiting. *)
Lemma X27_response_settles_its_call_witness :
  Caller.outcomes (Caller.handleResponse Fixtures.pong Fixtures.busy_caller)
    !! "1" = Some (Caller.Answered Fixtures.pong)
  /\ Caller.outcomes (Caller.handleResponse Fixtures.pong Fixtures.busy_caller)
       !! "2" = None
  /\ is_Some (SocketClient.pendingRequests
                (Caller.client
                   (Caller.handleResponse Fixtures.pong Fixtures.busy_caller))
                !! "2").
Proof.
  assert (Hrun : Caller.run
                   [Caller.Send SocketClient.connect_event None
                      Fixtures.ping_command;
                    Caller.Send SocketClient.connect_event None
                      Fixtures.ping_command]
                   (Caller.new_Caller
                      (SocketClient.new_SocketClient None None false "/tmp"))
                 = Fixtures.busy_caller).
  { reflexivity. }
  pose proof (X27_response_settles_its_call None None false "/tmp"
                [Caller.Send SocketClient.connect_event None
                   Fixtures.ping_command;
                 Caller.Send SocketClient.connect_event None
                   Fixtures.ping_command]
                Fixtures.pong) as Hanswer.
  cbn zeta in Hanswer. rewrite Hrun in Hanswer.
  change (resp_id Fixtures.pong) with (id_string "1") in Hanswer.
  destruct Hanswer as [Hpending _].
  destruct Hpending as (Hone & Hmap & Hothers & _).
  { vm_compute. eauto. }
  split; [exact Hone|]. split.
  - rewrite Hothers by discriminate. vm_compute. reflexivity.
  - rewrite Hmap. vm_compute. eauto.
Defined.

(** ** The command-line client: what the user is told *)

Lemma prefix_append (p d : string) : String.prefix p (p +:+ d) = true.
Proof.
  induction p as [|a p IH]; [destruct d; reflexivity|].
  rewrite append_cons. cbn [String.prefix].
  destruct (ascii_dec a a); [exact IH | congruence].
Qed.

Lemma append_append (a b c : string) : (a +:+ b) +:+ c = a +:+ (b +:+ c).
Proof.
  induction a as [|x a IH]; [reflexivity|].
  rewrite !append_cons, IH. reflexivity.
Qed.

Lemma includes_prefix (a : ascii) (p d : string) :
  includes (String a p +:+ d) (String a p) = true.
Proof.
  unfold includes.
  pose proof (prefix_append (String a p) d) as Hprefix.
  rewrite append_cons in Hprefix |- *. cbn [String.index].
  rewrite Hprefix. reflexivity.
Qed.

(** X28. Every failure the daemon answers with reaches the user of the
    command-line client as "MCP daemon is not running".  [sendCommand]
    wraps the error text of a failure response in a
    [ConnectionFailedError], whose message starts with "Failed to connect
    to daemon"; its own [catch] block tests for that phrase first and
    throws [DaemonNotRunningError]: the daemon's text (an unknown
    server, a tool that is not found, an unknown action) is lost.  A
    rejection of [send] that does not hold the phrase is passed on as a
    [ConnectionFailedError] with its text, and a success is passed on
    as its data. *)
Theorem X28_daemon_failures_read_as_not_running (response : SocketResponse)
    (reason : string) :
  (resp_success response = false ->
   MCPClient.sendCommand (Ok response) = inl MCPClient.DaemonNotRunningError)
  /\ (resp_success response = true ->
      MCPClient.sendCommand (Ok response) = inr (resp_data response))
  /\ (includes reason "Failed to connect to daemon" = false ->
      MCPClient.sendCommand (Throw reason)
      = inl (MCPClient.ConnectionFailedError reason)).
Proof.
  unfold MCPClient.sendCommand, MCPClient.rethrow. split; [|split].
  - intros ->. cbn [negb MCPClient.message].
    change "Failed to connect to daemon: "
      with ("Failed to connect to daemon" +:+ ": ").
    rewrite append_append.
    rewrite includes_prefix. reflexivity.
  - intros ->. reflexivity.
  - intros Hplain. cbn [MCPClient.message]. rewrite Hplain. reflexivity.
Qed.

(** X28 for the answer of the daemon to a request for an unregistered
    server, and for a request that timed out. *)
Lemma X28_daemon_failures_read_as_not_running_witness :
  MCPClient.sendCommand
    (Ok (failure_response (id_string "1")
           "Server 'gamma' not found or not connected"))
  = inl MCPClient.DaemonNotRunningError
  /\ MCPClient.sendCommand (Throw "Request timeout")
     = inl (MCPClient.ConnectionFailedError "Request timeout").
Proof.
  destruct (X28_daemon_failures_read_as_not_running
              (failure_response (id_string "1")
                 "Server 'gamma' not found or not connected")
              "Request timeout") as (Hfail & _ & Hplain).
  split; [exact (Hfail eq_refl) | exact (Hplain eq_refl)].
Defined.

(** ** Socket addressing: colliding names *)

Lemma to_int32_mod (x : Z) : to_int32 x mod 2 ^ 32 = x mod 2 ^ 32.
Proof.
  unfold to_int32. rewrite Zminus_mod_idemp_l. f_equal. lia.
Qed.

Lemma to_int32_cong (a b : Z) :
  a mod 2 ^ 32 = b mod 2 ^ 32 -> to_int32 a = to_int32 b.
Proof.
  intros H. unfold to_int32. f_equal.
  rewrite (Z.add_mod a), (Z.add_mod b), H by lia. reflexivity.
Qed.

Lemma hash_step_linear (h c : Z) :
  to_int32 (shl5 h - h + c) = to_int32 (31 * h + c).
Proof.
  apply to_int32_cong. unfold shl5. rewrite Z.shiftl_mul_pow2 by lia.
  replace (to_int32 (h * 2 ^ 5) - h + c) with (to_int32 (h * 2 ^ 5) + (c - h))
    by lia.
  rewrite Z.add_mod, to_int32_mod, <- Z.add_mod by lia. f_equal. lia.
Qed.

Lemma hash_two_steps (h c1 c2 : Z) :
  hash_loop h [c1; c2] = to_int32 (961 * h + 31 * c1 + c2).
Proof.
  cbn [hash_loop]. rewrite !hash_step_linear. apply to_int32_cong.
  rewrite Z.add_mod, Z.mul_mod, to_int32_mod, <- Z.mul_mod, <- Z.add_mod by lia.
  f_equal. lia.
Qed.

Lemma hash_loop_app (l1 l2 : list Z) (h : Z) :
  hash_loop h (l1 ++ l2) = hash_loop (hash_loop h l1) l2.
Proof.
  revert h. induction l1 as [|c l1 IH]; intros h; [reflexivity|].
  cbn [app hash_loop]. apply IH.
Qed.

Lemma code_units_app (a b : string) :
  code_units (a +:+ b) = (code_units a ++ code_units b)%list.
Proof.
  induction a as [|c a IH]; [reflexivity|].
  rewrite append_cons. cbn [code_units app]. now rewrite IH.
Qed.

Lemma append_inj_l (p a b : string) : p +:+ a = p +:+ b -> a = b.
Proof.
  induction p as [|c p IH]; [exact id|].
  rewrite !append_cons. intros H. injection H as H. exact (IH H).
Qed.

(** X29. The port of a session does not tell sessions apart.  Two
    session names that differ only in that one has "Aa" where the other
    has "BB" are different names with the same hash, hence the same
    port: on a platform without domain sockets their daemons are given
    the same address to listen on, and a caller of the one connects to
    the address of the other. *)
Theorem X29_port_collision (before after tmp : string) :
  before +:+ "Aa" +:+ after <> before +:+ "BB" +:+ after
  /\ socket.getPortForSession (code_units (before +:+ "Aa" +:+ after))
     = socket.getPortForSession (code_units (before +:+ "BB" +:+ after))
  /\ socket.getConnectionInfo true tmp (before +:+ "Aa" +:+ after)
     = socket.getConnectionInfo true tmp (before +:+ "BB" +:+ after)
  /\ SocketClient.getSocketPath true tmp (before +:+ "Aa" +:+ after)
     = SocketClient.getSocketPath true tmp (before +:+ "BB" +:+ after).
Proof.
  assert (Hhash : hash_loop 0 (code_units (before +:+ "Aa" +:+ after))
                  = hash_loop 0 (code_units (before +:+ "BB" +:+ after))).
  { rewrite !code_units_app, !hash_loop_app.
    change (code_units "Aa") with [65; 97].
    change (code_units "BB") with [66; 66].
    rewrite !hash_two_steps. f_equal. apply to_int32_cong. f_equal. lia. }
  split; [|split; [|split]].
  - intros Heq. apply append_inj_l in Heq. rewrite !append_cons in Heq.
    discriminate.
  - unfold socket.getPortForSession. cbv zeta. rewrite Hhash. reflexivity.
  - unfold socket.getConnectionInfo, socket.getPortForSession. cbv zeta.
    rewrite Hhash. reflexivity.
  - unfold SocketClient.getSocketPath, socket_client.getPortForSession.
    cbv zeta. rewrite Hhash. reflexivity.
Qed.

(** ** The files of a session *)

Lemma cleanupSocket_pid (os : socket_fs.Os) (sess : string) (fs : socket_fs.Fs) :
  socket_fs.unlinkable os (socket_fs.getPidFile os sess) = true ->
  socket_fs.cleanupSocket os sess fs !! socket_fs.getPidFile os sess = None.
Proof.
  intros Hunlink. unfold socket_fs.cleanupSocket, socket_fs.unlink_if_exists.
  run_monad.
  destruct (fs !! socket_fs.getPidFile os sess) as [content|] eqn:Hpid;
    [rewrite Hunlink|]; cbn [fst snd];
    destruct (socket_fs.isWindows os);
    match goal with
    | |- context [?m !! socket_fs.getPortFile os sess] =>
      destruct (m !! socket_fs.getPortFile os sess);
      [destruct (socket_fs.unlinkable os (socket_fs.getPortFile os sess))|]
    | |- context [?m !! socket_fs.getSocketFile os sess] =>
      destruct (m !! socket_fs.getSocketFile os sess);
      [destruct (socket_fs.unlinkable os (socket_fs.getSocketFile os sess))|]
    end;
    cbn [fst snd];
    first [ apply lookup_delete_eq
          | exact Hpid
          | apply lookup_delete_None; right;
            first [apply lookup_delete_eq | exact Hpid] ].
Qed.

Lemma isDaemonRunning_without_pid (os : socket_fs.Os) (sess : string)
    (fs : socket_fs.Fs) :
  fs !! socket_fs.getPidFile os sess = None ->
  socket_fs.isDaemonRunning os sess fs = (false, fs).
Proof. intros H. unfold socket_fs.isDaemonRunning. now rewrite H. Qed.

(** X30. A stale pid file is removed by the check that finds it.  When
    the pid file can be unlinked: if [isDaemonRunning] answers yes, the
    pid file names a process that exists and no file was touched; if it
    answers no, the pid file does not exist afterwards, so that asking
    again answers no without touching a file; and after [cleanupSocket]
    the answer is no. *)
Theorem X30_stale_pid_file_is_removed (os : socket_fs.Os) (sess : string)
    (fs : socket_fs.Fs) :
  socket_fs.unlinkable os (socket_fs.getPidFile os sess) = true ->
  let answer := fst (socket_fs.isDaemonRunning os sess fs) in
  let fs' := snd (socket_fs.isDaemonRunning os sess fs) in
  (answer = true ->
   fs' = fs
   /\ exists content pid,
        fs !! socket_fs.getPidFile os sess = Some content
        /\ socket_fs.parseInt os content = Some pid
        /\ socket_fs.process_exists os pid = true)
  /\ (answer = false ->
      fs' !! socket_fs.getPidFile os sess = None
      /\ socket_fs.isDaemonRunning os sess fs' = (false, fs'))
  /\ socket_fs.isDaemonRunning os sess (socket_fs.cleanupSocket os sess fs)
     = (false, socket_fs.cleanupSocket os sess fs).
Proof.
  intros Hunlink answer fs'.
  pose proof (cleanupSocket_pid os sess fs Hunlink) as Hclean.
  split; [|split].
  - unfold answer, fs', socket_fs.isDaemonRunning.
    destruct (fs !! socket_fs.getPidFile os sess) as [content|];
      [|discriminate].
    destruct (socket_fs.parseInt os content) as [pid|] eqn:Hparse;
      [|discriminate].
    destruct (socket_fs.process_exists os pid) eqn:Halive; [|discriminate].
    intros _. split; [reflexivity|]. exists content, pid. now repeat split.
  - intros Hno.
    assert (Hgone : fs' !! socket_fs.getPidFile os sess = None).
    { unfold answer, fs', socket_fs.isDaemonRunning in *.
      destruct (fs !! socket_fs.getPidFile os sess) as [content|] eqn:Hpid;
        [|exact Hpid].
      destruct (socket_fs.parseInt os content) as [pid|]; [|exact Hclean].
      destruct (socket_fs.process_exists os pid); [discriminate | exact Hclean]. }
    split; [exact Hgone | apply isDaemonRunning_without_pid, Hgone].
  - apply isDaemonRunning_without_pid, Hclean.
Qed.

(** X30 on a machine where the daemon has died and left its pid file and
    its socket behind: asking again answers no. *)
Lemma X30_stale_pid_file_is_removed_witness :
  fst (socket_fs.isDaemonRunning Fixtures.unix_os "default" Fixtures.stale_files)
  = false
  /\ socket_fs.isDaemonRunning Fixtures.unix_os "default"
       (snd (socket_fs.isDaemonRunning Fixtures.unix_os "default"
               Fixtures.stale_files))
     = (false,
        snd (socket_fs.isDaemonRunning Fixtures.unix_os "default"
               Fixtures.stale_files)).
Proof.
  assert (Hno : fst (socket_fs.isDaemonRunning Fixtures.unix_os "default"
                       Fixtures.stale_files) = false).
  { vm_compute. reflexivity. }
  split; [exact Hno|].
  destruct (X30_stale_pid_file_is_removed Fixtures.unix_os "default"
              Fixtures.stale_files eq_refl) as (_ & Hstale & _).
  exact (proj2 (Hstale Hno)).
Defined.

(** X29 for two session names of one user. *)
Lemma X29_port_collision_witness :
  socket.getPortForSession (code_units "session-Aa")
  = socket.getPortForSession (code_units "session-BB").
Proof.
  exact (proj1 (proj2 (X29_port_collision "session-" "" "/tmp"))).
Defined.
